(** * The WebDAV method handlers of package [dav]: lock coordination and
      status mapping.

    The handlers of the package's handler file are embedded as functions of a
    state monad over a [World]: the lock system's state, the file system's
    state, a tick counter for [time.Now] and the ordered trace of the calls
    made on the collaborators and on the response writer.  The lock system
    and the file system are Go interfaces; they are type classes here.  What
    the package declares in other files (the If-header tokenizer, the XML
    readers and writers, the copy/move engine, the ETag helper) is a field
    of the class [Package].

    The handlers that also remove files, copy a request body, ask the
    property engine or write a multistatus response, and the dispatcher
    [ServeHTTP], run over a [Site]: the [World], the multistatus writer of
    the request and a journal of those other calls, each placed among the
    calls of the trace. *)

From Stdlib Require Import ZArith String Ascii List Bool Lia DecimalString.
From stdpp Require Import base option gmap strings list.

Local Open Scope Z_scope.

(** ** Errors *)

(** Go's [error] values.  The [err...] sentinels are the handler file's own
    [var] block; [ErrConfirmationFailed], [ErrForbidden], [ErrLocked] and
    [ErrNoSuchLock] are the lock system's sentinels; [ErrNotExist] and
    [PathError] are package [os]'s; [errorString] is any other
    [errors.New] value.  A nil error is [None : option error]. *)
Inductive error : Type :=
  | errDestinationEqualsSource
  | errDirectoryNotEmpty
  | errInvalidDepth
  | errInvalidDestination
  | errInvalidIfHeader
  | errInvalidLockInfo
  | errInvalidLockToken
  | errInvalidPropfind
  | errInvalidProppatch
  | errInvalidResponse
  | errInvalidTimeout
  | errNoFileSystem
  | errNoLockSystem
  | errNotADirectory
  | errPrefixMismatch
  | errRecursionTooDeep
  | errUnsupportedLockInfo
  | errUnsupportedMethod
  | ErrConfirmationFailed
  | ErrForbidden
  | ErrLocked
  | ErrNoSuchLock
  | ErrNotExist
  | PathError (op path : string) (err : error)
  | errorString (msg : string).

#[global] Instance error_eq_dec : EqDecision error.
Proof.
  unfold EqDecision, Decision.
  decide equality; apply String.eq_dec.
Defined.

(** [os.IsNotExist]: the error is [os.ErrNotExist], possibly wrapped in a
    [*PathError]. *)
Fixpoint os_IsNotExist (err : error) : bool :=
  match err with
  | ErrNotExist => true
  | PathError _ _ e => os_IsNotExist e
  | _ => false
  end.

(** A Go result pair [(v, err)] of which the caller reads [v] only when
    [err] is nil. *)
Inductive result (A : Type) : Type :=
  | Ok (a : A)
  | Err (err : error).
Arguments Ok {A} a.
Arguments Err {A} err.

(** ** Status codes *)

Definition StatusOK : Z := 200.
Definition StatusCreated : Z := 201.
Definition StatusNoContent : Z := 204.
Definition StatusBadRequest : Z := 400.
Definition StatusForbidden : Z := 403.
Definition StatusNotFound : Z := 404.
Definition StatusMethodNotAllowed : Z := 405.
Definition StatusConflict : Z := 409.
Definition StatusPreconditionFailed : Z := 412.
Definition StatusUnsupportedMediaType : Z := 415.
Definition StatusInternalServerError : Z := 500.
Definition StatusBadGateway : Z := 502.

Definition StatusMulti : Z := 207.
Definition StatusUnprocessableEntity : Z := 422.
Definition StatusLocked : Z := 423.
Definition StatusFailedDependency : Z := 424.
Definition StatusInsufficientStorage : Z := 507.

(** ** Depth *)

Definition infiniteDepth : Z := -1.
Definition invalidDepth : Z := -2.

Definition parseDepth (s : string) : Z :=
  if decide (s = "0") then 0
  else if decide (s = "1") then 1
  else if decide (s = "infinity") then infiniteDepth
  else invalidDepth.

(** ** Requests *)

(** [time.Time] and [time.Duration], in nanoseconds. *)
Definition time_Time : Type := Z.
Definition time_Duration : Type := Z.

Module url.
(** The two fields of [url.URL] the handlers read. *)
Record URL : Type := { Host : string; Path : string }.
End url.

Module http.
(** [http.Header] is [map[string][]string].
    [Header.Get]: the first value stored under the key, the empty string
    when there is none.  Every key the handlers ask for is already in
    canonical MIME form, so the canonicalisation of the key is the
    identity. *)
Definition Get (h : gmap string (list string)) (key : string) : string :=
  match h !! key with
  | Some (v :: _) => v
  | _ => ""
  end.

(** The fields of [*http.Request] the handlers read. *)
Record Request : Type := {
  Method : string;
  URL : url.URL;
  Host : string;
  Header : gmap string (list string);
  Body : string;
  ContentLength : Z
}.
End http.

(** ** Lock data *)

(** Modelled from the spec: the declaration of [LockDetails] is outside the
    handler file; the fields are those of the spec's data model and of the
    composite literals in [lock] and [handleLock]. *)
Record LockDetails : Type := {
  Root : string;
  Duration : time_Duration;
  OwnerXML : string;
  ZeroDepth : bool
}.

(** Modelled from the spec: the declaration of [Condition] is outside the
    handler file; a condition is an optional negation with a token or an
    ETag, and [handleLock] reads its [Token]. *)
Record Condition : Type := {
  Not : bool;
  Token : string;
  ETag : string
}.

(** Modelled from the spec: the declarations of [ifList] and [ifHeader] are
    outside the handler file; a header is a disjunction of lists, a list an
    optional resource tag and a conjunction of conditions. *)
Record ifList : Type := {
  resourceTag : string;
  conditions : list Condition
}.

Record ifHeader : Type := { lists : list ifList }.

(** Modelled from the spec: the declaration of [LockInfo] is outside the
    handler file; [handleLock] compares it with its zero value and reads
    [Owner.InnerXML]. *)
Record Owner_ : Type := { InnerXML : string }.

Record LockInfo : Type := {
  Exclusive : bool;
  Shared : bool;
  Write : bool;
  Owner : Owner_
}.

Definition LockInfo_zero : LockInfo :=
  {| Exclusive := false; Shared := false; Write := false;
     Owner := {| InnerXML := "" |} |}.

#[global] Instance Owner_eq_dec : EqDecision Owner_.
Proof. solve_decision. Defined.

#[global] Instance LockInfo_eq_dec : EqDecision LockInfo.
Proof. solve_decision. Defined.

#[global] Instance LockDetails_eq_dec : EqDecision LockDetails.
Proof. solve_decision. Defined.

#[global] Instance Condition_eq_dec : EqDecision Condition.
Proof. solve_decision. Defined.

(** The part of [os.FileInfo] the handlers read. *)
Record FileInfo : Type := {
  Name : string;
  Size : Z;
  ModTime : time_Time;
  IsDir : bool
}.

(** ** Collaborators *)

(** The [LockSystem] interface over a store of type [LS].  [Confirm]'s
    first result is the release closure, a store transformer. *)
Class LockSystem (LS : Type) : Type := {
  Confirm : time_Time -> string -> string -> list Condition -> LS ->
            result (LS -> LS) * LS;
  Create : time_Time -> LockDetails -> LS -> result string * LS;
  Refresh : time_Time -> string -> time_Duration -> LS ->
            result LockDetails * LS;
  Unlock : time_Time -> string -> LS -> option error * LS
}.

(** The [FileSystem] and [File] interfaces, as far as these handlers call
    them, over a file-system state [FS] and handles [File]. *)
Class FileSystem (FS File : Type) : Type := {
  Mkdir : string -> Z -> FS -> option error * FS;
  OpenFile : string -> Z -> Z -> FS -> result File * FS;
  Stat : string -> FS -> result FileInfo * FS;
  File_Stat : File -> FS -> result FileInfo * FS;
  File_Close : File -> FS -> option error * FS
}.

(** What the handlers call that is declared elsewhere: in the package's
    other files ([infiniteTimeout], [parseIfHeader], [parseTimeout],
    [ReadLockInfo], [findETag], [copyFiles], [moveFiles]) and in Go's
    library ([url.Parse], the wall clock behind [time.Now]). *)
Class Package (LS FS : Type) : Type := {
  infiniteTimeout : time_Duration;
  parseIfHeader : string -> option ifHeader;
  parseTimeout : string -> result time_Duration;
  ReadLockInfo : string -> LockInfo * Z * option error;
  findETag : FS -> LS -> string -> FileInfo -> result string;
  copyFiles : string -> string -> bool -> Z -> Z -> FS ->
              (Z * option error) * FS;
  moveFiles : string -> string -> bool -> FS -> (Z * option error) * FS;
  url_Parse : string -> result url.URL;
  wallclock : nat -> time_Time
}.

(** ** Trace *)

(** One entry per call on a collaborator or on the response writer, with the
    arguments of the call. *)
Inductive Event : Type :=
  | EvConfirm (now : time_Time) (name0 name1 : string)
              (conds : list Condition)
  | EvCreate (now : time_Time) (details : LockDetails)
  | EvRefresh (now : time_Time) (token : string) (duration : time_Duration)
  | EvUnlock (now : time_Time) (token : string)
  | EvMkdir (name : string) (perm : Z)
  | EvOpenFile (name : string) (flag perm : Z)
  | EvStat (name : string)
  | EvFileStat
  | EvFileClose
  | EvFindETag (name : string)
  | EvCopyFiles (src dst : string) (overwrite : bool) (depth recursion : Z)
  | EvMoveFiles (src dst : string) (overwrite : bool)
  | EvHeaderSet (key value : string)
  | EvWriteHeader (status : Z)
  | EvWriteLockInfo (token : string) (ld : LockDetails)
  | EvServeContent (name : string) (modtime : time_Time).

(** ** Strings *)

(** [strings.TrimPrefix]. *)
Definition TrimPrefix (s pre : string) : string :=
  if String.prefix pre s
  then String.substring (String.length pre)
         (String.length s - String.length pre)%nat s
  else s.

(** os flags and permissions, as on Linux. *)
Definition O_RDONLY : Z := 0.
Definition O_RDWR : Z := 2.
Definition O_CREATE : Z := 64.
Definition O_TRUNC : Z := 512.

(** ** The handler *)

(** The receiver.  Its [FileSystem] and [LockSystem] fields are the two
    class instances in scope; [ServeHTTP] dispatches to the handlers below
    only when both are set. *)
Record Handler : Type := { Prefix : string }.

Definition stripPrefix (this : Handler) (p : string)
  : string * Z * option error :=
  if decide (Prefix this = "") then (p, StatusOK, None)
  else
    let r := TrimPrefix p (Prefix this) in
    if decide (String.length r < String.length p)%nat
    then (r, StatusOK, None)
    else (p, StatusNotFound, Some errPrefixMismatch).

Section handlers.

Context {LS FS File : Type}.
Context {lockSystem : LockSystem LS} {fileSystem : FileSystem FS File}.
Context {package : Package LS FS}.

Record World : Type := {
  locks : LS;
  files : FS;
  ticks : nat;
  trace : list Event
}.

(** The state monad of a request. *)
Definition M (A : Type) : Type := World -> A * World.

#[local] Instance M_ret : MRet M := fun A a w => (a, w).

#[local] Instance M_bind : MBind M :=
  fun A B k m w => let '(a, w') := m w in k a w'.

Definition emit (e : Event) : M unit :=
  fun w =>
    (tt, {| locks := locks w; files := files w; ticks := ticks w;
            trace := trace w ++ [e] |}).

(** A call on the lock system: its entry in the trace, then its effect on
    the store. *)
Definition call_locks {A : Type} (e : Event) (f : LS -> A * LS) : M A :=
  fun w =>
    let '(a, s) := f (locks w) in
    (a, {| locks := s; files := files w; ticks := ticks w;
           trace := trace w ++ [e] |}).

Definition call_files {A : Type} (e : Event) (f : FS -> A * FS) : M A :=
  fun w =>
    let '(a, s) := f (files w) in
    (a, {| locks := locks w; files := s; ticks := ticks w;
           trace := trace w ++ [e] |}).

(** [time.Now()]: one reading of the wall clock. *)
Definition time_Now : M time_Time :=
  fun w =>
    (wallclock (ticks w),
     {| locks := locks w; files := files w; ticks := S (ticks w);
        trace := trace w |}).

Definition LockSystem_Confirm (now : time_Time) (name0 name1 : string)
    (conds : list Condition) : M (result (M unit)) :=
  r ← call_locks (EvConfirm now name0 name1 conds)
        (Confirm now name0 name1 conds);
  match r with
  | Ok release =>
      mret (Ok (fun w =>
        (tt, {| locks := release (locks w); files := files w;
                ticks := ticks w; trace := trace w |})))
  | Err err => mret (Err err)
  end.

Definition LockSystem_Create (now : time_Time) (details : LockDetails)
  : M (result string) :=
  call_locks (EvCreate now details) (Create now details).

Definition LockSystem_Refresh (now : time_Time) (token : string)
    (duration : time_Duration) : M (result LockDetails) :=
  call_locks (EvRefresh now token duration) (Refresh now token duration).

Definition LockSystem_Unlock (now : time_Time) (token : string)
  : M (option error) :=
  call_locks (EvUnlock now token) (Unlock now token).

Definition FileSystem_Mkdir (name : string) (perm : Z) : M (option error) :=
  call_files (EvMkdir name perm) (Mkdir name perm).

Definition FileSystem_OpenFile (name : string) (flag perm : Z)
  : M (result File) :=
  call_files (EvOpenFile name flag perm) (OpenFile name flag perm).

Definition FileSystem_Stat (name : string) : M (result FileInfo) :=
  call_files (EvStat name) (Stat name).

Definition File_Stat_ (f : File) : M (result FileInfo) :=
  call_files EvFileStat (File_Stat f).

Definition File_Close_ (f : File) : M (option error) :=
  call_files EvFileClose (File_Close f).

(** [defer cleanup()]: the cleanup runs when the body has produced the
    function's results. *)
Definition defer {A B : Type} (cleanup : M B) (body : M A) : M A :=
  a ← body; cleanup;; mret a.

(** Calling a [func()] value; [confirmLocks] never returns a nil one
    together with a nil error. *)
Definition call (release : option (M unit)) : M unit :=
  match release with
  | Some f => f
  | None => mret tt
  end.

Definition lock (this : Handler) (now : time_Time) (root : string)
  : M (string * Z * option error) :=
  r ← LockSystem_Create now
        {| Root := root; Duration := infiniteTimeout; OwnerXML := "";
           ZeroDepth := true |};
  match r with
  | Err err =>
      if decide (err = ErrLocked) then mret ("", StatusLocked, Some err)
      else mret ("", StatusInternalServerError, Some err)
  | Ok token => mret (token, 0, None)
  end.

(** The loop of [confirmLocks] over [ih.lists]. *)
Fixpoint confirmLocks_lists (this : Handler) (r : http.Request)
    (src dst : string) (ls : list ifList)
  : M (option (M unit) * Z * option error) :=
  match ls with
  | [] => mret (None, StatusPreconditionFailed, Some ErrLocked)
  | l :: rest =>
      let confirm (lsrc : string) :=
        now ← time_Now;
        c ← LockSystem_Confirm now lsrc dst (conditions l);
        match c with
        | Err err =>
            if decide (err = ErrConfirmationFailed)
            then confirmLocks_lists this r src dst rest
            else mret (None, StatusInternalServerError, Some err)
        | Ok release => mret (Some release, 0, None)
        end in
      let lsrc := resourceTag l in
      if decide (lsrc = "") then confirm src
      else
        match url_Parse lsrc with
        | Err _ => confirmLocks_lists this r src dst rest
        | Ok u =>
            if decide (url.Host u ≠ http.Host r)
            then confirmLocks_lists this r src dst rest
            else
              let '(lsrc, status, err) := stripPrefix this (url.Path u) in
              match err with
              | Some e => mret (None, status, Some e)
              | None => confirm lsrc
              end
        end
  end.

Definition confirmLocks (this : Handler) (r : http.Request)
    (src dst : string) : M (option (M unit) * Z * option error) :=
  let hdr := http.Get (http.Header r) "If" in
  if decide (hdr = "") then
    now ← time_Now;
    '(srcToken, status, err) ←
      (if decide (src ≠ "") then lock this now src else mret ("", 0, None));
    match err with
    | Some e => mret (None, status, Some e)
    | None =>
        '(dstToken, status, err) ←
          (if decide (dst ≠ "") then lock this now dst
           else mret ("", 0, None));
        match err with
        | Some e =>
            (if decide (srcToken ≠ "")
             then LockSystem_Unlock now srcToken;; mret tt
             else mret tt);;
            mret (None, status, Some e)
        | None =>
            mret (Some (
              (if decide (dstToken ≠ "")
               then LockSystem_Unlock now dstToken;; mret tt
               else mret tt);;
              (if decide (srcToken ≠ "")
               then LockSystem_Unlock now srcToken;; mret tt
               else mret tt)), 0, None)
        end
    end
  else
    match parseIfHeader hdr with
    | None => mret (None, StatusBadRequest, Some errInvalidIfHeader)
    | Some ih => confirmLocks_lists this r src dst (lists ih)
    end.

Definition call_findETag (name : string) (fi : FileInfo) : M (result string) :=
  fun w =>
    (findETag (files w) (locks w) name fi,
     {| locks := locks w; files := files w; ticks := ticks w;
        trace := trace w ++ [EvFindETag name] |}).

Definition call_copyFiles (src dst : string) (overwrite : bool)
    (depth recursion : Z) : M (Z * option error) :=
  call_files (EvCopyFiles src dst overwrite depth recursion)
    (copyFiles src dst overwrite depth recursion).

Definition call_moveFiles (src dst : string) (overwrite : bool)
  : M (Z * option error) :=
  call_files (EvMoveFiles src dst overwrite) (moveFiles src dst overwrite).

Definition handleGetHeadPost (this : Handler) (r : http.Request)
  : M (Z * option error) :=
  let '(reqPath, status, err) := stripPrefix this (url.Path (http.URL r)) in
  match err with
  | Some e => mret (status, Some e)
  | None =>
      f ← FileSystem_OpenFile reqPath O_RDONLY 0;
      match f with
      | Err e => mret (StatusNotFound, Some e)
      | Ok f =>
          defer (File_Close_ f) (
            fi ← File_Stat_ f;
            match fi with
            | Err e => mret (StatusNotFound, Some e)
            | Ok fi =>
                if IsDir fi then mret (StatusMethodNotAllowed, None)
                else
                  etag ← call_findETag reqPath fi;
                  match etag with
                  | Err e => mret (StatusInternalServerError, Some e)
                  | Ok etag =>
                      emit (EvHeaderSet "ETag" etag);;
                      emit (EvServeContent reqPath (ModTime fi));;
                      mret (0, None)
                  end
            end)
      end
  end.

Definition handleMkcol (this : Handler) (r : http.Request)
  : M (Z * option error) :=
  let '(reqPath, status, err) := stripPrefix this (url.Path (http.URL r)) in
  match err with
  | Some e => mret (status, Some e)
  | None =>
      '(release, status, err) ← confirmLocks this r reqPath "";
      match err with
      | Some e => mret (status, Some e)
      | None =>
          defer (call release) (
            if decide (http.ContentLength r > 0)
            then mret (StatusUnsupportedMediaType, None)
            else
              err ← FileSystem_Mkdir reqPath 511;
              match err with
              | Some e =>
                  if os_IsNotExist e then mret (StatusConflict, Some e)
                  else mret (StatusMethodNotAllowed, Some e)
              | None => mret (StatusCreated, None)
              end)
      end
  end.

Definition handleCopyMove (this : Handler) (r : http.Request)
  : M (Z * option error) :=
  let hdr := http.Get (http.Header r) "Destination" in
  if decide (hdr = "") then mret (StatusBadRequest, Some errInvalidDestination)
  else
    match url_Parse hdr with
    | Err _ => mret (StatusBadRequest, Some errInvalidDestination)
    | Ok u =>
        if decide (url.Host u ≠ http.Host r)
        then mret (StatusBadGateway, Some errInvalidDestination)
        else
          let '(src, status, err) :=
            stripPrefix this (url.Path (http.URL r)) in
          match err with
          | Some e => mret (status, Some e)
          | None =>
          let '(dst, status, err) := stripPrefix this (url.Path u) in
          match err with
          | Some e => mret (status, Some e)
          | None =>
          if decide (dst = "")
          then mret (StatusBadGateway, Some errInvalidDestination)
          else if decide (dst = src)
          then mret (StatusForbidden, Some errDestinationEqualsSource)
          else if decide (http.Method r = "COPY") then
            '(release, status, err) ← confirmLocks this r "" dst;
            match err with
            | Some e => mret (status, Some e)
            | None =>
                defer (call release) (
                  let hdr := http.Get (http.Header r) "Depth" in
                  let depth :=
                    if decide (hdr ≠ "") then parseDepth hdr
                    else infiniteDepth in
                  if decide (hdr ≠ "" ∧ depth ≠ 0 ∧ depth ≠ infiniteDepth)
                  then mret (StatusBadRequest, Some errInvalidDepth)
                  else
                    call_copyFiles src dst
                      (bool_decide
                         (http.Get (http.Header r) "Overwrite" ≠ "F"))
                      depth 0)
            end
          else
            '(release, status, err) ← confirmLocks this r src dst;
            match err with
            | Some e => mret (status, Some e)
            | None =>
                defer (call release) (
                  let hdr := http.Get (http.Header r) "Depth" in
                  if decide (hdr ≠ "" ∧ parseDepth hdr ≠ infiniteDepth)
                  then mret (StatusBadRequest, Some errInvalidDepth)
                  else
                    call_moveFiles src dst
                      (bool_decide
                         (http.Get (http.Header r) "Overwrite" = "T")))
            end
          end
          end
    end.

(** The end of [handleLock], common to the refresh and the create case:
    the Content-Type header, the 201 status line of a created resource and
    the lock-discovery body. *)
Definition handleLock_respond (token : string) (ld : LockDetails)
    (created : bool) : M (Z * option error) :=
  emit (EvHeaderSet "Content-Type" "application/xml; charset=utf-8");;
  (if created then emit (EvWriteHeader StatusCreated) else mret tt);;
  emit (EvWriteLockInfo token ld);;
  mret (0, None).

Definition handleLock (this : Handler) (r : http.Request)
  : M (Z * option error) :=
  match parseTimeout (http.Get (http.Header r) "Timeout") with
  | Err e => mret (StatusBadRequest, Some e)
  | Ok duration =>
      let '(li, status, err) := ReadLockInfo (http.Body r) in
      match err with
      | Some e => mret (status, Some e)
      | None =>
          now ← time_Now;
          if decide (li = LockInfo_zero) then
            match parseIfHeader (http.Get (http.Header r) "If") with
            | None => mret (StatusBadRequest, Some errInvalidIfHeader)
            | Some ih =>
                let token :=
                  match lists ih with
                  | [l] =>
                      match conditions l with
                      | [c] => Token c
                      | _ => ""
                      end
                  | _ => ""
                  end in
                if decide (token = "")
                then mret (StatusBadRequest, Some errInvalidLockToken)
                else
                  ld ← LockSystem_Refresh now token duration;
                  match ld with
                  | Err e =>
                      if decide (e = ErrNoSuchLock)
                      then mret (StatusPreconditionFailed, Some e)
                      else mret (StatusInternalServerError, Some e)
                  | Ok ld => handleLock_respond token ld false
                  end
            end
          else
            let hdr := http.Get (http.Header r) "Depth" in
            let depth :=
              if decide (hdr ≠ "") then parseDepth hdr else infiniteDepth in
            if decide (hdr ≠ "" ∧ depth ≠ 0 ∧ depth ≠ infiniteDepth)
            then mret (StatusBadRequest, Some errInvalidDepth)
            else
              let '(reqPath, status, err) :=
                stripPrefix this (url.Path (http.URL r)) in
              match err with
              | Some e => mret (status, Some e)
              | None =>
                  let ld :=
                    {| Root := reqPath; Duration := duration;
                       OwnerXML := InnerXML (Owner li);
                       ZeroDepth := bool_decide (depth = 0) |} in
                  token ← LockSystem_Create now ld;
                  match token with
                  | Err e =>
                      if decide (e = ErrLocked)
                      then mret (StatusLocked, Some e)
                      else mret (StatusInternalServerError, Some e)
                  | Ok token =>
                      '(retStatus, retErr) ← (
                        fi ← FileSystem_Stat reqPath;
                        created ←
                          match fi with
                          | Err _ =>
                              f ← FileSystem_OpenFile reqPath
                                    (Z.lor (Z.lor O_RDWR O_CREATE) O_TRUNC)
                                    438;
                              match f with
                              | Err e => mret (Err e)
                              | Ok f => File_Close_ f;; mret (Ok true)
                              end
                          | Ok _ => mret (Ok false)
                          end;
                        match created with
                        | Err e => mret (StatusInternalServerError, Some e)
                        | Ok created =>
                            emit (EvHeaderSet "Lock-Token"
                                    ("<" +:+ token +:+ ">"));;
                            handleLock_respond token ld created
                        end);
                      (* the deferred rollback, keyed on retErr *)
                      (if decide (retErr ≠ None)
                       then LockSystem_Unlock now token;; mret tt
                       else mret tt);;
                      mret (retStatus, retErr)
                  end
              end
      end
  end.

Definition handleUnlock (this : Handler) (r : http.Request)
  : M (Z * option error) :=
  let t := http.Get (http.Header r) "Lock-Token" in
  if decide ((String.length t < 2)%nat
             ∨ String.get 0 t ≠ Some "<"%char
             ∨ String.get (String.length t - 1) t ≠ Some ">"%char)
  then mret (StatusBadRequest, Some errInvalidLockToken)
  else
    let t := String.substring 1 (String.length t - 2) t in
    now ← time_Now;
    err ← LockSystem_Unlock now t;
    match err with
    | None => mret (StatusNoContent, err)
    | Some e =>
        if decide (e = ErrForbidden) then mret (StatusForbidden, err)
        else if decide (e = ErrLocked) then mret (StatusLocked, err)
        else if decide (e = ErrNoSuchLock) then mret (StatusConflict, err)
        else mret (StatusInternalServerError, err)
    end.

End handlers.

#[global] Existing Instance M_ret.
#[global] Existing Instance M_bind.

(** ** Sample collaborators

    A small in-memory lock store, a flat file system and stand-ins for the
    package's helpers, on which the handlers run to a value. *)

Module Sample.

(** The lock store: a token counter, the locks by token, and a switch that
    makes every call fail as a backend that is down. *)
Record Store : Type := {
  gen : nat;
  byToken : list (string * LockDetails);
  down : bool
}.

Fixpoint token_of (n : nat) : string :=
  match n with
  | O => "urn:lock"
  | S k => token_of k +:+ "'"
  end.

Definition holds (s : Store) (token : string) : bool :=
  existsb (fun e => bool_decide (fst e = token)) (byToken s).

Definition rooted (s : Store) (root : string) : bool :=
  existsb (fun e => bool_decide (Root (snd e) = root)) (byToken s).

Definition backendDown : error := errorString "lock store: backend down".

#[global] Instance store_LockSystem : LockSystem Store := {
  Confirm now name0 name1 conds s :=
    if down s then (Err backendDown, s)
    else if forallb (fun c => holds s (Token c)) conds
    then (Ok (fun s' => s'), s)
    else (Err ErrConfirmationFailed, s);
  Create now details s :=
    if down s then (Err backendDown, s)
    else if rooted s (Root details) then (Err ErrLocked, s)
    else
      (Ok (token_of (gen s)),
       {| gen := S (gen s);
          byToken := (token_of (gen s), details) :: byToken s;
          down := down s |});
  Refresh now token duration s :=
    if down s then (Err backendDown, s)
    else
      match List.find (fun e => bool_decide (fst e = token)) (byToken s) with
      | Some (_, ld) =>
          (Ok {| Root := Root ld; Duration := duration;
                 OwnerXML := OwnerXML ld; ZeroDepth := ZeroDepth ld |}, s)
      | None => (Err ErrNoSuchLock, s)
      end;
  Unlock now token s :=
    if down s then (Some backendDown, s)
    else if holds s token
    then
      (None,
       {| gen := gen s;
          byToken :=
            List.filter (fun e => negb (bool_decide (fst e = token)))
              (byToken s);
          down := down s |})
    else (Some ErrNoSuchLock, s)
}.

(** The file system: the entries by name, and a switch that makes every
    write fail. *)
Record Disk : Type := {
  entries : list (string * FileInfo);
  readOnly : bool
}.

Definition lookup_entry (d : Disk) (name : string) : option FileInfo :=
  snd <$> List.find (fun e => bool_decide (fst e = name)) (entries d).

Definition readOnlyDisk : error := errorString "disk: read-only".

#[global] Instance disk_FileSystem : FileSystem Disk (option FileInfo) := {
  Mkdir name perm d :=
    if readOnly d then (Some readOnlyDisk, d)
    else
      (None,
       {| entries :=
            (name, {| Name := name; Size := 0; ModTime := 0;
                      IsDir := true |}) :: entries d;
          readOnly := readOnly d |});
  OpenFile name flag perm d :=
    match lookup_entry d name with
    | Some fi => (Ok (Some fi), d)
    | None =>
        if Z.testbit flag 6 then
          if readOnly d then (Err readOnlyDisk, d)
          else
            let fi := {| Name := name; Size := 0; ModTime := 0;
                         IsDir := false |} in
            (Ok (Some fi),
             {| entries := (name, fi) :: entries d;
                readOnly := readOnly d |})
        else (Err (PathError "open" name ErrNotExist), d)
    end;
  Stat name d :=
    match lookup_entry d name with
    | Some fi => (Ok fi, d)
    | None => (Err (PathError "stat" name ErrNotExist), d)
    end;
  File_Stat f d :=
    match f with
    | Some fi => (Ok fi, d)
    | None => (Err (errorString "file: closed"), d)
    end;
  File_Close f d := (None, d)
}.

(** [url.Parse] for URLs of the form [http://host/path]. *)
Definition parse_http_url (s : string) : result url.URL :=
  if String.prefix "http://" s then
    let rest := String.substring 7 (String.length s - 7) s in
    match String.index 0 "/" rest with
    | Some i =>
        Ok {| url.Host := String.substring 0 i rest;
              url.Path := String.substring i (String.length rest - i) rest |}
    | None => Ok {| url.Host := rest; url.Path := "" |}
    end
  else Err (errorString "parse: not an http URL").

(** The helpers, given a table for the If-header tokenizer and an ETag
    function. *)
Definition package (ifs : list (string * ifHeader))
    (etag : FileInfo -> result string) : Package Store Disk := {|
  infiniteTimeout := -1;
  parseIfHeader hdr :=
    snd <$> List.find (fun e => bool_decide (fst e = hdr)) ifs;
  parseTimeout hdr :=
    if decide (hdr = "" ∨ hdr = "Infinite") then Ok (-1)
    else if decide (hdr = "Second-60") then Ok 60000000000
    else Err errInvalidTimeout;
  ReadLockInfo body :=
    if decide (body = "") then (LockInfo_zero, 0, None)
    else
      ({| Exclusive := true; Shared := false; Write := true;
          Owner := {| InnerXML := body |} |}, 0, None);
  findETag _ _ _ fi := etag fi;
  copyFiles src dst overwrite depth recursion d := ((StatusCreated, None), d);
  moveFiles src dst overwrite d := ((StatusCreated, None), d);
  url_Parse := parse_http_url;
  wallclock n := 1000 + Z.of_nat n
|}.

Definition etag_ok (fi : FileInfo) : result string := Ok "etag".

Definition etag_fails (fi : FileInfo) : result string :=
  Err (errorString "etag: not available").

Definition world (s : Store) (d : Disk) : @World Store Disk :=
  {| locks := s; files := d; ticks := O; trace := [] |}.

Definition emptyStore : Store := {| gen := O; byToken := []; down := false |}.

Definition emptyDisk : Disk := {| entries := []; readOnly := false |}.

Definition request (method path : string) (headers : list (string * string))
    (body : string) (len : Z) : http.Request :=
  {| http.Method := method;
     http.URL := {| url.Host := ""; url.Path := path |};
     http.Host := "dav.example";
     http.Header := list_to_map (prod_map id (fun v => [v]) <$> headers);
     http.Body := body;
     http.ContentLength := len |}.

(** *** Sample requests and worlds *)

Definition handler : Handler := {| Prefix := "/dav" |}.

Definition tokenCondition (token : string) : Condition :=
  {| Not := false; Token := token; ETag := "" |}.

(** The If headers the sample tokenizer knows. *)
Definition ifTable : list (string * ifHeader) :=
  [ ("(<urn:lock>)",
     {| lists := [ {| resourceTag := "";
                      conditions := [tokenCondition "urn:lock"] |} ] |});
    ("(<urn:stale>) (<urn:gone>)",
     {| lists := [ {| resourceTag := "";
                      conditions := [tokenCondition "urn:stale"] |};
                   {| resourceTag := "";
                      conditions := [tokenCondition "urn:gone"] |} ] |});
    ("<http://dav.example/other/x> (<urn:lock>)",
     {| lists := [ {| resourceTag := "http://dav.example/other/x";
                      conditions := [tokenCondition "urn:lock"] |};
                   {| resourceTag := "";
                      conditions := [tokenCondition "urn:lock"] |} ] |}) ].

Definition pkg : Package Store Disk := package ifTable etag_ok.

Definition pkgNoETag : Package Store Disk := package ifTable etag_fails.

(** A store in which another client holds a lock on [/b]. *)
Definition heldStore : Store :=
  {| gen := 1;
     byToken := [ ("urn:lock",
                   {| Root := "/b"; Duration := -1; OwnerXML := "";
                      ZeroDepth := true |}) ];
     down := false |}.

Definition fileA : FileInfo :=
  {| Name := "a"; Size := 3; ModTime := 5; IsDir := false |}.

Definition diskA : Disk :=
  {| entries := [("/a", fileA)]; readOnly := false |}.

Definition readOnlyEmptyDisk : Disk := {| entries := []; readOnly := true |}.

Definition destinationB : list (string * string) :=
  [("Destination", "http://dav.example/dav/b")].

Definition moveRequest : http.Request :=
  request "MOVE" "/dav/a" destinationB "" 0.

Definition copyRequest : http.Request :=
  request "COPY" "/dav/a" destinationB "" 0.

Definition copyDepth1Request : http.Request :=
  request "COPY" "/dav/a" (("Depth", "1") :: destinationB) "" 0.

Definition staleRequest : http.Request :=
  request "PUT" "/dav/a" [("If", "(<urn:stale>) (<urn:gone>)")] "" 0.

Definition taggedRequest : http.Request :=
  request "PUT" "/dav/a"
    [("If", "<http://dav.example/other/x> (<urn:lock>)")] "" 0.

Definition lockRequest : http.Request :=
  request "LOCK" "/dav/a" [] "<owner/>" 8.

Definition refreshRequest : http.Request :=
  request "LOCK" "/dav/b" [("If", "(<urn:lock>)")] "" 0.

Definition unlockRequest : http.Request :=
  request "UNLOCK" "/dav/b" [("Lock-Token", "<urn:lock>")] "" 0.

Definition mkcolRequest : http.Request :=
  request "MKCOL" "/dav/c" [] "" (-1).

Definition getRequest : http.Request := request "GET" "/dav/a" [] "" 0.

End Sample.

(** ** Vocabulary of the statements *)

Section vocabulary.

Context {LS FS File : Type}.
Context {lockSystem : LockSystem LS} {fileSystem : FileSystem FS File}.
Context {package : Package LS FS}.

(** The details of a temporary lock: rooted at the path, of infinite
    duration and zero depth. *)
Definition temporaryLock (root : string) : LockDetails :=
  {| Root := root; Duration := infiniteTimeout; OwnerXML := "";
     ZeroDepth := true |}.

(** The status that goes with a refused [Create]. *)
Definition lockStatus (e : error) : Z :=
  if decide (e = ErrLocked) then StatusLocked else StatusInternalServerError.

(** The world [w] after one reading of the clock, with the lock store [s]
    and the calls [tr] added to its trace. *)
Definition ticked (w : @World LS FS) (s : LS) (tr : list Event)
  : @World LS FS :=
  {| locks := s; files := files w; ticks := S (ticks w);
     trace := trace w ++ tr |}.

(** An If-header list aborts the request: its resource tag parses, names
    the request's host, and its path does not start with the prefix. *)
Definition aborts (this : Handler) (r : http.Request) (l : ifList) : Prop :=
  resourceTag l ≠ "" ∧
  ∃ u, url_Parse (resourceTag l) = Ok u ∧ url.Host u = http.Host r ∧
       snd (stripPrefix this (url.Path u)) ≠ None.

(** An If-header list is confirmed against the path [lsrc]: the request's
    own path when the list has no resource tag, the stripped path of the
    tag when the tag parses and names the request's host. *)
Definition confirmsAt (this : Handler) (r : http.Request) (src : string)
    (l : ifList) (lsrc : string) : Prop :=
  (resourceTag l = "" ∧ lsrc = src) ∨
  (resourceTag l ≠ "" ∧
   ∃ u, url_Parse (resourceTag l) = Ok u ∧ url.Host u = http.Host r ∧
        stripPrefix this (url.Path u) = (lsrc, StatusOK, None)).

(** The lists [pre] all fail, in order, from the world [w], and leave the
    world [w1]: each one either is passed over without a call (its resource
    tag does not parse, or parses to another host), or reaches [Confirm],
    which answers [ErrConfirmationFailed]. *)
Fixpoint passesOver (this : Handler) (r : http.Request) (src dst : string)
    (pre : list ifList) (w w1 : @World LS FS) : Prop :=
  match pre with
  | [] => w1 = w
  | l :: rest =>
      (resourceTag l ≠ "" ∧
       (∀ u, url_Parse (resourceTag l) = Ok u → url.Host u ≠ http.Host r) ∧
       passesOver this r src dst rest w w1)
      ∨ (∃ lsrc s,
           confirmsAt this r src l lsrc ∧
           Confirm (wallclock (ticks w)) lsrc dst (conditions l) (locks w)
           = (Err ErrConfirmationFailed, s) ∧
           passesOver this r src dst rest
             (ticked w s
                [EvConfirm (wallclock (ticks w)) lsrc dst (conditions l)])
             w1)
  end.

(** The release closure of a successful [Confirm], as a step of a
    request. *)
Definition released (release : LS -> LS) : @M LS FS unit :=
  fun w =>
    (tt, {| locks := release (locks w); files := files w;
            ticks := ticks w; trace := trace w |}).

(** A step of a request that leaves the file system alone and only adds
    to the trace. *)
Definition quiet {A : Type} (m : @M LS FS A) : Prop :=
  ∀ w, files (snd (m w)) = files w ∧ ∃ tr, trace (snd (m w)) = trace w ++ tr.

(** What [confirmLocks] can return: a failure with one of five statuses, or
    status 0 with a release closure that is quiet. *)
Definition confirmLocks_result
    (res : option (@M LS FS unit) * Z * option error) : Prop :=
  match res with
  | (release, status, Some _) =>
      status = StatusLocked ∨ status = StatusInternalServerError ∨
      status = StatusBadRequest ∨ status = StatusNotFound ∨
      status = StatusPreconditionFailed
  | (release, status, None) =>
      status = 0 ∧ ∃ f, release = Some f ∧ quiet f
  end.

End vocabulary.

Section requests.

Context {LS FS File : Type}.
Context {lockSystem : LockSystem LS} {fileSystem : FileSystem FS File}.
Context {package : Package LS FS}.

(** A COPY or MOVE request passes the shared preamble with source [src]
    and destination [dst]: the Destination header parses to a URL on the
    request's host, both paths start with the prefix, and the destination
    is neither empty nor the source. *)
Definition copyMoveTarget (this : Handler) (r : http.Request)
    (src dst : string) : Prop :=
  http.Get (http.Header r) "Destination" ≠ "" ∧
  ∃ u, url_Parse (http.Get (http.Header r) "Destination") = Ok u ∧
       url.Host u = http.Host r ∧
       stripPrefix this (url.Path (http.URL r)) = (src, StatusOK, None) ∧
       stripPrefix this (url.Path u) = (dst, StatusOK, None) ∧
       dst ≠ "" ∧ dst ≠ src.

(** A LOCK request is a refresh with the given duration: its Timeout
    header parses and its body is empty. *)
Definition lockRefresh (r : http.Request) (duration : time_Duration)
  : Prop :=
  parseTimeout (http.Get (http.Header r) "Timeout") = Ok duration ∧
  ∃ status, ReadLockInfo (http.Body r) = (LockInfo_zero, status, None).

(** A LOCK request asks for the creation of the lock [ld]: its Timeout
    header parses, its body is a lock-info, its Depth header is absent,
    0 or infinity, and its path starts with the prefix. *)
Definition lockCreate (this : Handler) (r : http.Request)
    (ld : LockDetails) : Prop :=
  ∃ duration li status reqPath,
    parseTimeout (http.Get (http.Header r) "Timeout") = Ok duration ∧
    ReadLockInfo (http.Body r) = (li, status, None) ∧
    li ≠ LockInfo_zero ∧
    (let hdr := http.Get (http.Header r) "Depth" in
     let depth := if decide (hdr ≠ "") then parseDepth hdr
                  else infiniteDepth in
     ¬ (hdr ≠ "" ∧ depth ≠ 0 ∧ depth ≠ infiniteDepth) ∧
     stripPrefix this (url.Path (http.URL r)) = (reqPath, StatusOK, None) ∧
     ld = {| Root := reqPath; Duration := duration;
             OwnerXML := InnerXML (Owner li);
             ZeroDepth := bool_decide (depth = 0) |}).

End requests.

(** ** Kinds of calls *)

Definition isCreate (e : Event) : Prop :=
  match e with EvCreate _ _ => True | _ => False end.

Definition isUnlock (e : Event) : Prop :=
  match e with EvUnlock _ _ => True | _ => False end.

Definition isConfirm (e : Event) : Prop :=
  match e with EvConfirm _ _ _ _ => True | _ => False end.

(** ** The rest of the handler file: data *)

Module xml.
(** Go's [xml.Name]. *)
Record Name : Type := { Space : string; Local : string }.
End xml.

(** Modelled from the spec: the declaration of the parsed PROPFIND body is
    outside the handler file; it has the three modes of the spec, of which
    the handler tests [Propname] and [Allprop] against nil and reads
    [Prop]. *)
Record PropfindRequest : Type := {
  pf_Allprop : bool;
  pf_Propname : bool;
  pf_Prop : list xml.Name
}.

Module Propstat.
(** Modelled from the spec: the declaration of [Propstat] is outside the
    handler file; the fields are those the handler reads and writes. *)
Record t (Property : Type) : Type := {
  Status : Z;
  Props : list Property;
  XMLError : string;
  ResponseDescription : string
}.
Arguments Status {Property} _.
Arguments Props {Property} _.
Arguments XMLError {Property} _.
Arguments ResponseDescription {Property} _.
End Propstat.

Module XmlError.
Record t : Type := { InnerXML : string }.
End XmlError.

Module SubPropstat.
(** Modelled from the spec: a propstat group of a response, with the
    fields [makePropstatResponse] fills. *)
Record t (Property : Type) : Type := {
  Status : string;
  Prop_ : list Property;
  ResponseDescription : string;
  Error : option XmlError.t
}.
Arguments Status {Property} _.
Arguments Prop_ {Property} _.
Arguments ResponseDescription {Property} _.
Arguments Error {Property} _.
End SubPropstat.

Module Response.
(** Modelled from the spec: one response of a Multi-Status body, with the
    fields [makePropstatResponse] fills. *)
Record t (Property : Type) : Type := {
  Href : list string;
  Propstat_ : list (SubPropstat.t Property)
}.
Arguments Href {Property} _.
Arguments Propstat_ {Property} _.
End Response.

(** [fmt.Sprintf("%d", n)]. *)
Definition Sprintf_d (n : Z) : string := NilZero.string_of_int (Z.to_int n).

(** ** The rest of the handler file: collaborators *)

(** The call of [FileSystem], and the call of Go's library on a [File],
    that the handlers above do not make. *)
Class FileSystemMore (FS File : Type) : Type := {
  RemoveAll : string -> FS -> option error * FS;
  io_Copy : File -> string -> FS -> option error * FS
}.

(** What the handlers call of Go's library besides [url.Parse]. *)
Class GoLibrary : Type := {
  http_StatusText : Z -> string;
  path_Join : string -> string -> string;
  url_EscapedPath : string -> string
}.

(** The property engine and the XML layer, declared in the package's
    other files.  [Property] and [Proppatch] are their types of a property
    and of a patch, [MSW] the state of a [MultiStatusWriter]. *)
Class PropertyEngine (LS FS Property Proppatch MSW : Type) : Type := {
  Property_XMLName : xml.Name -> Property;
  ReadPropfind : string -> PropfindRequest * Z * option error;
  ReadProppatch : string -> list Proppatch * Z * option error;
  Propnames : string -> LS -> FS -> result (list xml.Name) * FS;
  allprop : string -> list xml.Name -> LS -> FS ->
            result (list (Propstat.t Property)) * FS;
  props : string -> list xml.Name -> LS -> FS ->
          result (list (Propstat.t Property)) * FS;
  patch : string -> list Proppatch -> LS -> FS ->
          result (list (Propstat.t Property)) * FS;
  MultiStatusWriter_new : MSW;
  MultiStatusWriter_Write : Response.t Property -> MSW -> option error * MSW;
  MultiStatusWriter_Close : MSW -> option error * MSW
}.

(** The calls the trace of a [World] has no entry for. *)
Inductive Call (Property Proppatch : Type) : Type :=
  | CallRemoveAll (name : string)
  | CallCopy (body : string)
  | CallPropnames (name : string)
  | CallAllprop (name : string) (pnames : list xml.Name)
  | CallProps (name : string) (pnames : list xml.Name)
  | CallPatch (name : string) (patches : list Proppatch)
  | CallWalkFS (depth : Z) (name : string) (info : FileInfo)
  | CallPrintf (name : string) (info : FileInfo)
  | CallMultiStatusWrite (resp : Response.t Property)
  | CallMultiStatusClose
  | CallWrite (body : string)
  | CallLogger (err : option error).
Arguments CallRemoveAll {Property Proppatch} name.
Arguments CallCopy {Property Proppatch} body.
Arguments CallPropnames {Property Proppatch} name.
Arguments CallAllprop {Property Proppatch} name pnames.
Arguments CallProps {Property Proppatch} name pnames.
Arguments CallPatch {Property Proppatch} name patches.
Arguments CallWalkFS {Property Proppatch} depth name info.
Arguments CallPrintf {Property Proppatch} name info.
Arguments CallMultiStatusWrite {Property Proppatch} resp.
Arguments CallMultiStatusClose {Property Proppatch}.
Arguments CallWrite {Property Proppatch} body.
Arguments CallLogger {Property Proppatch} err.

(** Which of the handler's optional fields are set. *)
Record Fields : Type := {
  FileSystem_set : bool;
  LockSystem_set : bool;
  Logger_set : bool
}.

Section site.

Context {LS FS File Property Proppatch MSW : Type}.
Context {lockSystem : LockSystem LS} {fileSystem : FileSystem FS File}.
Context {package : Package LS FS}.

(** The world of a whole request: the [World] of the handlers above, the
    request's [MultiStatusWriter], and the journal of the other calls, each
    with the length of the trace when it was made, which places it among
    the calls of the trace. *)
Record Site : Type := {
  base : @World LS FS;
  writer : MSW;
  journal : list (nat * Call Property Proppatch)
}.

Definition M2 (A : Type) : Type := Site -> A * Site.

#[local] Instance M2_ret : MRet M2 := fun A a s => (a, s).

#[local] Instance M2_bind : MBind M2 :=
  fun A B k m s => let '(a, s') := m s in k a s'.

(** A step of the handlers above, as a step of the whole request. *)
Definition lift {A : Type} (m : @M LS FS A) : M2 A :=
  fun s =>
    let '(a, w) := m (base s) in
    (a, {| base := w; writer := writer s; journal := journal s |}).

(** An entry of the journal. *)
Definition note (c : Call Property Proppatch) : M2 unit :=
  fun s =>
    (tt, {| base := base s; writer := writer s;
            journal := journal s ++ [(length (trace (base s)), c)] |}).

(** A call on the file system that has no entry in the trace. *)
Definition call_files2 {A : Type} (c : Call Property Proppatch)
    (f : FS -> A * FS) : M2 A :=
  fun s =>
    let '(a, d) := f (files (base s)) in
    (a, {| base := {| locks := locks (base s); files := d;
                       ticks := ticks (base s);
                       trace := trace (base s) |};
           writer := writer s;
           journal := journal s ++ [(length (trace (base s)), c)] |}).

(** A call on the request's [MultiStatusWriter]. *)
Definition call_writer {A : Type} (c : Call Property Proppatch)
    (f : MSW -> A * MSW) : M2 A :=
  fun s =>
    let '(a, m) := f (writer s) in
    (a, {| base := base s; writer := m;
           journal := journal s ++ [(length (trace (base s)), c)] |}).

Definition defer2 {A B : Type} (cleanup : M2 B) (body : M2 A) : M2 A :=
  a ← body; cleanup;; mret a.

(** ** The rest of the handler file: handlers *)

Context {fileSystemMore : FileSystemMore FS File} {goLibrary : GoLibrary}.
Context {propertyEngine : PropertyEngine LS FS Property Proppatch MSW}.

Definition handleOptions (this : Handler) (r : http.Request)
  : @M LS FS (Z * option error) :=
  let '(reqPath, status, err) := stripPrefix this (url.Path (http.URL r)) in
  match err with
  | Some e => mret (status, Some e)
  | None =>
      fi ← FileSystem_Stat reqPath;
      let allow :=
        match fi with
        | Ok fi =>
            if IsDir fi
            then "OPTIONS, LOCK, DELETE, PROPPATCH, COPY, MOVE, UNLOCK, PROPFIND"
            else "OPTIONS, LOCK, GET, HEAD, POST, DELETE, PROPPATCH, COPY, MOVE, UNLOCK, PROPFIND, PUT"
        | Err _ => "OPTIONS, LOCK, PUT, MKCOL"
        end in
      emit (EvHeaderSet "Allow" allow);;
      emit (EvHeaderSet "DAV" "1, 2");;
      emit (EvHeaderSet "MS-Author-Via" "DAV");;
      mret (0, None)
  end.

Definition FileSystem_RemoveAll (name : string) : M2 (option error) :=
  call_files2 (CallRemoveAll name) (RemoveAll name).

Definition call_io_Copy (f : File) (body : string) : M2 (option error) :=
  call_files2 (CallCopy body) (io_Copy f body).

Definition handleDelete (this : Handler) (r : http.Request)
  : M2 (Z * option error) :=
  let '(reqPath, status, err) := stripPrefix this (url.Path (http.URL r)) in
  match err with
  | Some e => mret (status, Some e)
  | None =>
      '(release, status, err) ← lift (confirmLocks this r reqPath "");
      match err with
      | Some e => mret (status, Some e)
      | None =>
          defer2 (lift (call release)) (
            fi ← lift (FileSystem_Stat reqPath);
            match fi with
            | Err e =>
                if os_IsNotExist e then mret (StatusNotFound, Some e)
                else mret (StatusMethodNotAllowed, Some e)
            | Ok _ =>
                err ← FileSystem_RemoveAll reqPath;
                match err with
                | Some e => mret (StatusMethodNotAllowed, Some e)
                | None => mret (StatusNoContent, None)
                end
            end)
      end
  end.

Definition handlePut (this : Handler) (r : http.Request)
  : M2 (Z * option error) :=
  let '(reqPath, status, err) := stripPrefix this (url.Path (http.URL r)) in
  match err with
  | Some e => mret (status, Some e)
  | None =>
      '(release, status, err) ← lift (confirmLocks this r reqPath "");
      match err with
      | Some e => mret (status, Some e)
      | None =>
          defer2 (lift (call release)) (
            f ← lift (FileSystem_OpenFile reqPath
                        (Z.lor (Z.lor O_RDWR O_CREATE) O_TRUNC) 438);
            match f with
            | Err e => mret (StatusNotFound, Some e)
            | Ok f =>
                copyErr ← call_io_Copy f (http.Body r);
                fi ← lift (File_Stat_ f);
                closeErr ← lift (File_Close_ f);
                match copyErr with
                | Some e => mret (StatusMethodNotAllowed, Some e)
                | None =>
                match fi with
                | Err e => mret (StatusMethodNotAllowed, Some e)
                | Ok fi =>
                match closeErr with
                | Some e => mret (StatusMethodNotAllowed, Some e)
                | None =>
                    etag ← lift (call_findETag reqPath fi);
                    match etag with
                    | Err e => mret (StatusInternalServerError, Some e)
                    | Ok etag =>
                        lift (emit (EvHeaderSet "ETag" etag));;
                        mret (StatusCreated, None)
                    end
                end
                end
                end
            end)
      end
  end.

Definition StatusText (code : Z) : string :=
  if decide (code = StatusMulti) then "Multi-Status"
  else if decide (code = StatusUnprocessableEntity)
  then "Unprocessable Entity"
  else if decide (code = StatusLocked) then "Locked"
  else if decide (code = StatusFailedDependency) then "Failed Dependency"
  else if decide (code = StatusInsufficientStorage)
  then "Insufficient Storage"
  else http_StatusText code.

Definition makePropstatResponse (href : string)
    (pstats : list (Propstat.t Property)) : Response.t Property :=
  {| Response.Href := [url_EscapedPath href];
     Response.Propstat_ :=
       List.map
         (fun p =>
            {| SubPropstat.Status :=
                 "HTTP/1.1 " +:+ Sprintf_d (Propstat.Status p) +:+ " "
                 +:+ StatusText (Propstat.Status p);
               SubPropstat.Prop_ := Propstat.Props p;
               SubPropstat.ResponseDescription :=
                 Propstat.ResponseDescription p;
               SubPropstat.Error :=
                 if decide (Propstat.XMLError p ≠ "")
                 then Some {| XmlError.InnerXML := Propstat.XMLError p |}
                 else None |})
         pstats |}.

(** [MultiStatusWriter{Writer: w}]: a fresh writer for the request. *)
Definition MultiStatusWriter_make : M2 unit :=
  fun s =>
    (tt, {| base := base s; writer := MultiStatusWriter_new;
            journal := journal s |}).

Definition MultiStatusWriter_Write_ (resp : Response.t Property)
  : M2 (option error) :=
  call_writer (CallMultiStatusWrite resp) (MultiStatusWriter_Write resp).

Definition MultiStatusWriter_Close_ : M2 (option error) :=
  call_writer CallMultiStatusClose MultiStatusWriter_Close.

(** A call of the property engine: it reads the lock store and may act on
    the file system. *)
Definition call_engine {A : Type} (c : Call Property Proppatch)
    (f : LS -> FS -> A * FS) : M2 A :=
  fun s => call_files2 c (f (locks (base s))) s.

Definition handleProppatch (this : Handler) (r : http.Request)
  : M2 (Z * option error) :=
  let '(reqPath, status, err) := stripPrefix this (url.Path (http.URL r)) in
  match err with
  | Some e => mret (status, Some e)
  | None =>
      '(release, status, err) ← lift (confirmLocks this r reqPath "");
      match err with
      | Some e => mret (status, Some e)
      | None =>
          defer2 (lift (call release)) (
            fi ← lift (FileSystem_Stat reqPath);
            match fi with
            | Err e =>
                if os_IsNotExist e then mret (StatusNotFound, Some e)
                else mret (StatusMethodNotAllowed, Some e)
            | Ok _ =>
                let '(patches, status, err) :=
                  ReadProppatch (http.Body r) in
                match err with
                | Some e => mret (status, Some e)
                | None =>
                    pstats ← call_engine (CallPatch reqPath patches)
                               (patch reqPath patches);
                    match pstats with
                    | Err e => mret (StatusInternalServerError, Some e)
                    | Ok pstats =>
                        MultiStatusWriter_make;;
                        writeErr ← MultiStatusWriter_Write_
                          (makePropstatResponse (url.Path (http.URL r))
                             pstats);
                        closeErr ← MultiStatusWriter_Close_;
                        match writeErr with
                        | Some e => mret (StatusInternalServerError, Some e)
                        | None =>
                        match closeErr with
                        | Some e => mret (StatusInternalServerError, Some e)
                        | None => mret (0, None)
                        end
                        end
                    end
                end
            end)
      end
  end.

(** The walk function of [handlePropfind], a closure over the handler,
    the parsed body and the request's writer. *)
Definition handlePropfind_walkFn (this : Handler) (pf : PropfindRequest)
    (reqPath : string) (info : result FileInfo) : M2 (option error) :=
  match info with
  | Err err => mret (Some err)
  | Ok info =>
      note (CallPrintf reqPath info);;
      propstats ←
        (if pf_Propname pf then
           pnames ← call_engine (CallPropnames reqPath) (Propnames reqPath);
           match pnames with
           | Err e => mret (Err e)
           | Ok pnames =>
               mret (Ok [ {| Propstat.Status := StatusOK;
                             Propstat.Props :=
                               List.map Property_XMLName pnames;
                             Propstat.XMLError := "";
                             Propstat.ResponseDescription := "" |} ])
           end
         else if pf_Allprop pf then
           call_engine (CallAllprop reqPath (pf_Prop pf))
             (allprop reqPath (pf_Prop pf))
         else
           call_engine (CallProps reqPath (pf_Prop pf))
             (props reqPath (pf_Prop pf)));
      match propstats with
      | Err e => mret (Some e)
      | Ok propstats =>
          let href := path_Join (Prefix this) reqPath in
          let href := if IsDir info then href +:+ "/" else href in
          MultiStatusWriter_Write_ (makePropstatResponse href propstats)
      end
  end.

(** [walkFS], declared in the package's file-system file: the walk of the
    tree under a resource, to a depth, with a function called at each
    resource. *)
Class Walker : Type := {
  walkFS : Z -> string -> FileInfo ->
           (string -> result FileInfo -> M2 (option error)) ->
           M2 (option error)
}.

Context {walker : Walker}.

Definition handlePropfind (this : Handler) (request : http.Request)
  : M2 (Z * option error) :=
  let '(reqPath, status, err) :=
    stripPrefix this (url.Path (http.URL request)) in
  match err with
  | Some e => mret (status, Some e)
  | None =>
      fileInfo ← lift (FileSystem_Stat reqPath);
      match fileInfo with
      | Err e =>
          if os_IsNotExist e then mret (StatusNotFound, Some e)
          else mret (StatusMethodNotAllowed, Some e)
      | Ok fileInfo =>
          let hdr := http.Get (http.Header request) "Depth" in
          let depth :=
            if decide (hdr ≠ "") then parseDepth hdr else infiniteDepth in
          if decide (hdr ≠ "" ∧ depth = invalidDepth)
          then mret (StatusBadRequest, Some errInvalidDepth)
          else
            let '(pf, status, err) := ReadPropfind (http.Body request) in
            match err with
            | Some e => mret (status, Some e)
            | None =>
                MultiStatusWriter_make;;
                walkErr ← (note (CallWalkFS depth reqPath fileInfo);;
                           walkFS depth reqPath fileInfo
                             (handlePropfind_walkFn this pf));
                closeErr ← MultiStatusWriter_Close_;
                match walkErr with
                | Some e => mret (StatusInternalServerError, Some e)
                | None =>
                match closeErr with
                | Some e => mret (StatusInternalServerError, Some e)
                | None => mret (0, None)
                end
                end
            end
      end
  end.

Definition ServeHTTP (this : Handler) (fields : Fields) (r : http.Request)
  : M2 unit :=
  '(status, err) ←
    (if negb (FileSystem_set fields)
     then mret (StatusInternalServerError, Some errNoFileSystem)
     else if negb (LockSystem_set fields)
     then mret (StatusInternalServerError, Some errNoLockSystem)
     else
       let m := http.Method r in
       if decide (m = "OPTIONS") then lift (handleOptions this r)
       else if decide (m = "GET" ∨ m = "HEAD" ∨ m = "POST")
       then lift (handleGetHeadPost this r)
       else if decide (m = "DELETE") then handleDelete this r
       else if decide (m = "PUT") then handlePut this r
       else if decide (m = "MKCOL") then lift (handleMkcol this r)
       else if decide (m = "COPY" ∨ m = "MOVE")
       then lift (handleCopyMove this r)
       else if decide (m = "LOCK") then lift (handleLock this r)
       else if decide (m = "UNLOCK") then lift (handleUnlock this r)
       else if decide (m = "PROPFIND") then handlePropfind this r
       else if decide (m = "PROPPATCH") then handleProppatch this r
       else mret (StatusBadRequest, Some errUnsupportedMethod));
  (if decide (status ≠ 0) then
     lift (emit (EvWriteHeader status));;
     (if decide (status ≠ StatusNoContent)
      then note (CallWrite (StatusText status))
      else mret tt)
   else mret tt);;
  (if Logger_set fields then note (CallLogger err) else mret tt).

End site.

#[global] Existing Instance M2_ret.
#[global] Existing Instance M2_bind.

Section routing.

Context {LS FS File Property Proppatch MSW : Type}.
Context {lockSystem : LockSystem LS} {fileSystem : FileSystem FS File}.
Context {package : Package LS FS}.
Context {fileSystemMore : FileSystemMore FS File} {goLibrary : GoLibrary}.
Context {propertyEngine : PropertyEngine LS FS Property Proppatch MSW}.
Context {walker : @Walker LS FS Property Proppatch MSW}.

(** The routing table of the handler: the step that answers a request of a
    given method.  A method outside the table is answered 400 with
    errUnsupportedMethod by no handler at all. *)
Inductive route (this : Handler) (r : http.Request)
  : string → @M2 LS FS Property Proppatch MSW (Z * option error) → Prop :=
| route_options : route this r "OPTIONS" (lift (handleOptions this r))
| route_get : route this r "GET" (lift (handleGetHeadPost this r))
| route_head : route this r "HEAD" (lift (handleGetHeadPost this r))
| route_post : route this r "POST" (lift (handleGetHeadPost this r))
| route_delete : route this r "DELETE" (handleDelete this r)
| route_put : route this r "PUT" (handlePut this r)
| route_mkcol : route this r "MKCOL" (lift (handleMkcol this r))
| route_copy : route this r "COPY" (lift (handleCopyMove this r))
| route_move : route this r "MOVE" (lift (handleCopyMove this r))
| route_lock : route this r "LOCK" (lift (handleLock this r))
| route_unlock : route this r "UNLOCK" (lift (handleUnlock this r))
| route_propfind : route this r "PROPFIND" (handlePropfind this r)
| route_proppatch : route this r "PROPPATCH" (handleProppatch this r)
| route_none (m : string) :
    m ∉ ["OPTIONS"; "GET"; "HEAD"; "POST"; "DELETE"; "PUT"; "MKCOL";
         "COPY"; "MOVE"; "LOCK"; "UNLOCK"; "PROPFIND"; "PROPPATCH"] →
    route this r m (mret (StatusBadRequest, Some errUnsupportedMethod)).

End routing.

(** ** Sample collaborators for the rest of the handler file *)

Module Sample2.

Import Sample.

#[global] Instance disk_FileSystemMore
  : FileSystemMore Disk (option FileInfo) := {
  RemoveAll name d :=
    if readOnly d then (Some readOnlyDisk, d)
    else
      (None,
       {| entries :=
            List.filter
              (fun e => negb (String.prefix name (fst e))) (entries d);
          readOnly := readOnly d |});
  io_Copy f body d :=
    if readOnly d then (Some readOnlyDisk, d) else (None, d)
}.

#[global] Instance goLibrary : GoLibrary := {
  http_StatusText code :=
    if decide (code = 200) then "OK"
    else if decide (code = 201) then "Created"
    else if decide (code = 204) then "No Content"
    else if decide (code = 400) then "Bad Request"
    else if decide (code = 404) then "Not Found"
    else if decide (code = 405) then "Method Not Allowed"
    else if decide (code = 500) then "Internal Server Error"
    else "";
  path_Join a b := a +:+ b;
  url_EscapedPath p := p
}.

Definition displayname : xml.Name :=
  {| xml.Space := "DAV:"; xml.Local := "displayname" |}.

(** Properties are names with a value; a patch sets one.  The writer
    counts the responses it wrote. *)
#[global] Instance engine
  : PropertyEngine Store Disk (xml.Name * string) (xml.Name * string) nat := {
  Property_XMLName n := (n, "");
  ReadPropfind body :=
    if decide (body = "") then
      ({| pf_Allprop := true; pf_Propname := false; pf_Prop := [] |}, 0, None)
    else if decide (body = "<propname/>") then
      ({| pf_Allprop := false; pf_Propname := true; pf_Prop := [] |}, 0, None)
    else
      ({| pf_Allprop := false; pf_Propname := false; pf_Prop := [] |},
       StatusBadRequest, Some errInvalidPropfind);
  ReadProppatch body :=
    if decide (body = "") then ([], StatusBadRequest, Some errInvalidProppatch)
    else ([(displayname, body)], 0, None);
  Propnames name s d := (Ok [displayname], d);
  allprop name pnames s d :=
    (Ok [ {| Propstat.Status := StatusOK;
             Propstat.Props := [(displayname, name)];
             Propstat.XMLError := "";
             Propstat.ResponseDescription := "" |} ], d);
  props name pnames s d :=
    (Ok [ {| Propstat.Status := StatusNotFound;
             Propstat.Props := List.map (fun n => (n, "")) pnames;
             Propstat.XMLError := "";
             Propstat.ResponseDescription := "" |} ], d);
  patch name patches s d :=
    if readOnly d then (Err readOnlyDisk, d)
    else
      (Ok [ {| Propstat.Status := StatusOK;
               Propstat.Props := patches;
               Propstat.XMLError := "";
               Propstat.ResponseDescription := "" |} ], d);
  MultiStatusWriter_new := O;
  MultiStatusWriter_Write resp n := (None, S n);
  MultiStatusWriter_Close n := (None, n)
}.

(** A walk that stops at the resource it starts from. *)
#[global] Instance walker
  : @Walker Store Disk (xml.Name * string) (xml.Name * string) nat := {
  walkFS depth name info walkFn := walkFn name (Ok info)
}.

Definition site (s : Store) (d : Disk)
  : @Site Store Disk (xml.Name * string) (xml.Name * string) nat :=
  {| base := world s d; writer := O; journal := [] |}.

Definition allSet : Fields :=
  {| FileSystem_set := true; LockSystem_set := true; Logger_set := true |}.

Definition noFileSystem : Fields :=
  {| FileSystem_set := false; LockSystem_set := true; Logger_set := true |}.

Definition deleteRequest : http.Request :=
  request "DELETE" "/dav/a" [] "" 0.

Definition putRequest : http.Request :=
  request "PUT" "/dav/n" [] "hello" 5.

Definition optionsRequest : http.Request :=
  request "OPTIONS" "/dav/a" [] "" 0.

Definition proppatchRequest : http.Request :=
  request "PROPPATCH" "/dav/a" [] "<set/>" 6.

Definition propfindRequest : http.Request :=
  request "PROPFIND" "/dav/a" [("Depth", "1")] "<propname/>" 11.

Definition propfindBadDepth : http.Request :=
  request "PROPFIND" "/dav/a" [("Depth", "2")] "" 0.

Definition patchRequest : http.Request :=
  request "PATCH" "/dav/a" [] "" 0.

Definition unlockElsewhere : http.Request :=
  request "UNLOCK" "/elsewhere" [("Lock-Token", "<urn:lock>")] "" 0.

(** A lock system that hands out the empty token: it keeps the roots it
    has locked and knows no token. *)
Record Ledger : Type := { roots : list string }.

#[global] Instance ledger_LockSystem : LockSystem Ledger := {
  Confirm now name0 name1 conds s := (Err ErrConfirmationFailed, s);
  Create now details s := (Ok "", {| roots := Root details :: roots s |});
  Refresh now token duration s := (Err ErrNoSuchLock, s);
  Unlock now token s := (Some ErrNoSuchLock, s)
}.

Definition pkgLedger : Package Ledger Disk := {|
  infiniteTimeout := infiniteTimeout (Package := pkg);
  parseIfHeader := parseIfHeader (Package := pkg);
  parseTimeout := parseTimeout (Package := pkg);
  ReadLockInfo := ReadLockInfo (Package := pkg);
  findETag _ _ _ fi := etag_ok fi;
  copyFiles := copyFiles (Package := pkg);
  moveFiles := moveFiles (Package := pkg);
  url_Parse := url_Parse (Package := pkg);
  wallclock := wallclock (Package := pkg)
|}.

Definition ledgerWorld : @World Ledger Disk :=
  {| locks := {| roots := [] |}; files := emptyDisk; ticks := O;
     trace := [] |}.

End Sample2.

(** * Proofs *)

(** Unfolding of the monad and of the calls; the record projections are
    then reduced on the worlds that have been built. *)
Ltac run :=
  cbv [mbind mret M_bind M_ret time_Now lock emit defer call
       LockSystem_Create LockSystem_Unlock LockSystem_Refresh
       LockSystem_Confirm FileSystem_Mkdir FileSystem_OpenFile
       FileSystem_Stat File_Stat_ File_Close_ call_findETag
       call_copyFiles call_moveFiles call_locks call_files];
  cbn [locks files ticks trace fst snd].

Ltac same_world :=
  unfold ticked; run;
  repeat (match goal with
          | |- context [Unlock ?n ?t ?s] => destruct (Unlock n t s)
          end; run);
  rewrite <- ?app_assoc, ?app_nil_r; reflexivity.

(** ** Coded-URLs *)

Lemma append_cons (c : ascii) (s : string) : String c "" +:+ s = String c s.
Proof. reflexivity. Qed.

Lemma get_last_inv (t : string) (c : ascii) :
  t ≠ "" -> String.get (String.length t - 1) t = Some c ->
  exists s, t = s +:+ String c "".
Proof.
  induction t as [|a t IH]; intros Hne Hget; [congruence|].
  destruct t as [|b t].
  - simpl in Hget. injection Hget as ->. exists "". reflexivity.
  - replace (String.length (String a (String b t)) - 1)%nat
      with (S (String.length (String b t) - 1)) in Hget by (simpl; lia).
    simpl in Hget. destruct IH as [s Hs]; [congruence| |].
    + simpl. exact Hget.
    + exists (String a s). rewrite Hs. reflexivity.
Qed.

Lemma get_last_append (s : string) (c : ascii) :
  String.get (String.length (s +:+ String c "") - 1) (s +:+ String c "")
  = Some c.
Proof.
  induction s as [|a s IH]; [reflexivity|].
  replace (String.length (String a s +:+ String c "") - 1)%nat
    with (S (String.length (s +:+ String c "") - 1)).
  - simpl. exact IH.
  - simpl. destruct s; simpl; lia.
Qed.

Lemma substring_init (s : string) (c : ascii) :
  String.substring 0 (String.length (s +:+ String c "") - 1)
    (s +:+ String c "") = s.
Proof.
  induction s as [|a s IH]; [reflexivity|].
  replace (String.length (String a s +:+ String c "") - 1)%nat
    with (S (String.length (s +:+ String c "") - 1)).
  - simpl. simpl in IH. rewrite IH. reflexivity.
  - simpl. destruct s; simpl; lia.
Qed.

Lemma length_append_one (s : string) (c : ascii) :
  String.length (s +:+ String c "") = S (String.length s).
Proof. induction s; simpl; congruence. Qed.

(** A Lock-Token passes the handler's test exactly when it is a Coded-URL. *)
Lemma codedURL_test (t : string) :
  ¬ ((String.length t < 2)%nat
     ∨ String.get 0 t ≠ Some "<"%char
     ∨ String.get (String.length t - 1) t ≠ Some ">"%char)
  <-> exists s, t = "<" +:+ s +:+ ">".
Proof.
  split.
  - intros H.
    destruct t as [|a t]; [exfalso; apply H; left; simpl; lia|].
    destruct (decide (a = "<"%char)) as [->|Ha];
      [|exfalso; apply H; right; left; cbn; intros [=]; done].
    destruct t as [|b t]; [exfalso; apply H; left; simpl; lia|].
    destruct (decide (String.get (String.length (String b t) - 1) (String b t)
                      = Some ">"%char)) as [Hl|Hl].
    + assert (Hne : String b t ≠ "") by done.
      destruct (get_last_inv _ _ Hne Hl) as [s Hs].
      exists s. rewrite <- Hs. reflexivity.
    + exfalso. apply H. right. right.
      replace (String.length (String "<" (String b t)) - 1)%nat
        with (S (String.length (String b t) - 1)) by (simpl; lia).
      exact Hl.
  - intros [s ->] [H|[H|H]].
    + rewrite append_cons in H. simpl in H. rewrite length_append_one in H. lia.
    + apply H. reflexivity.
    + apply H. rewrite append_cons.
      replace (String.length (String "<" (s +:+ ">")) - 1)%nat
        with (S (String.length (s +:+ ">") - 1))
        by (simpl; rewrite length_append_one; lia).
      simpl. apply get_last_append.
Qed.

Lemma codedURL_strip (s : string) :
  String.substring 1 (String.length ("<" +:+ s +:+ ">") - 2)
    ("<" +:+ s +:+ ">") = s.
Proof.
  rewrite append_cons.
  replace (String.length (String "<" (s +:+ ">")) - 2)%nat
    with (String.length (s +:+ ">") - 1)%nat by (simpl; lia).
  simpl. apply substring_init.
Qed.

Section proofs.

Context {LS FS File : Type}.
Context {lockSystem : LockSystem LS} {fileSystem : FileSystem FS File}.
Context {package : Package LS FS}.

(** ** The loop of [confirmLocks] over the lists of the If header *)

(** One turn of the loop on a list that reaches [Confirm]. *)
Lemma confirmLocks_lists_confirm (this : Handler) (r : http.Request)
    (src dst lsrc : string) (l : ifList) (rest : list ifList)
    (w : @World LS FS) :
  confirmsAt this r src l lsrc →
  confirmLocks_lists this r src dst (l :: rest) w
  = let now := wallclock (ticks w) in
    let '(c, s) := Confirm now lsrc dst (conditions l) (locks w) in
    let w' := ticked w s [EvConfirm now lsrc dst (conditions l)] in
    match c with
    | Err err =>
        if decide (err = ErrConfirmationFailed)
        then confirmLocks_lists this r src dst rest w'
        else ((None, StatusInternalServerError, Some err), w')
    | Ok release => ((Some (released release), 0, None), w')
    end.
Proof.
  intros [[Htag ->]|[Htag (u & Hu & Hhost & Hstrip)]]; cbn [confirmLocks_lists].
  - rewrite Htag. destruct (decide ("" = "")) as [_|?]; [|done]. run.
    destruct (Confirm _ _ _ _ _) as [[rel|err] s]; [reflexivity|].
    destruct (decide _); reflexivity.
  - destruct (decide (resourceTag l = "")); [done|].
    rewrite Hu. destruct (decide _) as [?|_]; [done|]. rewrite Hstrip. run.
    destruct (Confirm _ _ _ _ _) as [[rel|err] s]; [reflexivity|].
    destruct (decide _); reflexivity.
Qed.

(** One turn of the loop on a list that does not reach [Confirm]. *)
Lemma confirmLocks_lists_skip (this : Handler) (r : http.Request)
    (src dst : string) (l : ifList) (rest : list ifList) (w : @World LS FS) :
  resourceTag l ≠ "" →
  (∀ u, url_Parse (resourceTag l) = Ok u → url.Host u ≠ http.Host r) →
  confirmLocks_lists this r src dst (l :: rest) w
  = confirmLocks_lists this r src dst rest w.
Proof.
  intros Htag Hu. cbn [confirmLocks_lists].
  destruct (decide _); [done|].
  destruct (url_Parse _) as [u|e] eqn:E; [|reflexivity].
  destruct (decide _) as [|Hn]; [reflexivity|].
  destruct Hn. apply Hu. reflexivity.
Qed.

Lemma stripPrefix_error (this : Handler) (p : string) :
  snd (stripPrefix this p) ≠ None →
  stripPrefix this p = (p, StatusNotFound, Some errPrefixMismatch).
Proof.
  unfold stripPrefix. repeat case_decide; cbn; done.
Qed.

Lemma stripPrefix_ok (this : Handler) (p : string) :
  snd (stripPrefix this p) = None →
  ∃ q, stripPrefix this p = (q, StatusOK, None).
Proof.
  unfold stripPrefix. repeat case_decide; cbn; eauto; done.
Qed.

Lemma confirmLocks_lists_abort (this : Handler) (r : http.Request)
    (src dst : string) (l : ifList) (rest : list ifList) (w : @World LS FS) :
  aborts this r l →
  confirmLocks_lists this r src dst (l :: rest) w
  = ((None, StatusNotFound, Some errPrefixMismatch), w).
Proof.
  intros (Htag & u & Hu & Hhost & Hstrip). cbn [confirmLocks_lists].
  destruct (decide _); [done|]. rewrite Hu.
  destruct (decide _); [done|].
  rewrite (stripPrefix_error _ _ Hstrip). reflexivity.
Qed.

(** Every list either reaches [Confirm] at some path, is skipped, or aborts
    the request. *)
Lemma ifList_cases (this : Handler) (r : http.Request) (src : string)
    (l : ifList) :
  (∃ lsrc, confirmsAt this r src l lsrc)
  ∨ (resourceTag l ≠ "" ∧
     ∀ u, url_Parse (resourceTag l) = Ok u → url.Host u ≠ http.Host r)
  ∨ aborts this r l.
Proof.
  unfold confirmsAt, aborts.
  destruct (decide (resourceTag l = "")) as [Htag|Htag]; [left; eauto|].
  destruct (url_Parse (resourceTag l)) as [u|e] eqn:Hu;
    [|right; left; split; [done|]; intros; congruence].
  destruct (decide (url.Host u = http.Host r)) as [Hh|Hh];
    [|right; left; split; [done|]; intros u' [= <-]; done].
  destruct (snd (stripPrefix this (url.Path u))) as [e|] eqn:Hs.
  - right; right. split; [done|]. exists u. rewrite Hs. done.
  - destruct (stripPrefix_ok _ _ Hs) as [q Hq]. left. exists q. right.
    split; [done|]. eauto.
Qed.

(** Lists that fail in their turn are passed over. *)
Lemma confirmLocks_lists_passesOver (this : Handler) (r : http.Request)
    (src dst : string) (pre rest : list ifList) :
  ∀ w w1 : @World LS FS,
    passesOver this r src dst pre w w1 →
    confirmLocks_lists this r src dst (pre ++ rest) w
    = confirmLocks_lists this r src dst rest w1.
Proof.
  induction pre as [|l pre IH]; intros w w1 Hp; [by rewrite Hp|].
  rewrite <- app_comm_cons.
  destruct Hp as [(Htag & Hu & Hp)|(lsrc & s & Hc & HC & Hp)].
  - rewrite confirmLocks_lists_skip by done. by apply IH.
  - rewrite (confirmLocks_lists_confirm _ _ _ _ _ _ _ _ Hc). cbv zeta.
    rewrite HC. destruct (decide _); [|done]. by apply IH.
Qed.

Lemma confirmLocks_with_header (this : Handler) (r : http.Request)
    (src dst : string) (w : @World LS FS) (ih : ifHeader) :
  http.Get (http.Header r) "If" ≠ "" →
  parseIfHeader (http.Get (http.Header r) "If") = Some ih →
  confirmLocks this r src dst w
  = confirmLocks_lists this r src dst (lists ih) w.
Proof.
  intros Hne Hih. unfold confirmLocks.
  destruct (decide _); [done|]. rewrite Hih. reflexivity.
Qed.

(** C2.  With a well-formed If header, [confirmLocks] runs the loop over
    the header's lists from the first one on.  A turn on a list that
    reaches [Confirm] goes on with the next list when [Confirm] answers
    [ErrConfirmationFailed], returns 500 with the error on any other error,
    and returns the release closure of [Confirm] with status 0 on success.
    Lists that fail are passed over in order, and when every list fails the
    result is 412 with [ErrLocked]. *)
Theorem confirmLocks_if_header (this : Handler) (r : http.Request)
    (src dst : string) (w : @World LS FS) (ih : ifHeader) :
  http.Get (http.Header r) "If" ≠ "" →
  parseIfHeader (http.Get (http.Header r) "If") = Some ih →
  confirmLocks this r src dst w
  = confirmLocks_lists this r src dst (lists ih) w
  ∧ (∀ l rest lsrc (w0 : @World LS FS) c s,
       confirmsAt this r src l lsrc →
       Confirm (wallclock (ticks w0)) lsrc dst (conditions l) (locks w0)
       = (c, s) →
       let w' :=
         ticked w0 s
           [EvConfirm (wallclock (ticks w0)) lsrc dst (conditions l)] in
       (c = Err ErrConfirmationFailed →
          confirmLocks_lists this r src dst (l :: rest) w0
          = confirmLocks_lists this r src dst rest w')
       ∧ (∀ e, c = Err e → e ≠ ErrConfirmationFailed →
            confirmLocks_lists this r src dst (l :: rest) w0
            = ((None, StatusInternalServerError, Some e), w'))
       ∧ (∀ release, c = Ok release →
            confirmLocks_lists this r src dst (l :: rest) w0
            = ((Some (released release), 0, None), w')))
  ∧ (∀ pre rest w1,
       lists ih = pre ++ rest → passesOver this r src dst pre w w1 →
       confirmLocks this r src dst w
       = confirmLocks_lists this r src dst rest w1)
  ∧ (∀ w1, passesOver this r src dst (lists ih) w w1 →
       confirmLocks this r src dst w
       = ((None, StatusPreconditionFailed, Some ErrLocked), w1)).
Proof.
  intros Hne Hih.
  pose proof (confirmLocks_with_header this r src dst w ih Hne Hih) as Hrun.
  split; [exact Hrun|]. split; [|split].
  - intros l rest lsrc w0 c s Hc HC w'.
    rewrite (confirmLocks_lists_confirm _ _ _ _ _ _ rest _ Hc). cbv zeta.
    rewrite HC. fold w'. repeat split.
    + intros ->. destruct (decide _); done.
    + intros e -> He. destruct (decide _); done.
    + intros release ->. reflexivity.
  - intros pre rest w1 Hl Hpre. rewrite Hrun, Hl.
    by apply confirmLocks_lists_passesOver.
  - intros w1 Hall. rewrite Hrun.
    rewrite <- (app_nil_r (lists ih)).
    by rewrite (confirmLocks_lists_passesOver _ _ _ _ _ [] _ _ Hall).
Qed.

(** C8.  In the loop of [confirmLocks], a list whose resource tag does not
    parse as a URL, or parses to another host than the request's, is passed
    over and the loop goes on with the next list in the same world; a list
    whose tag parses and names the host while its path does not start with
    the prefix ends the request with 404 at once, in the same world and
    whatever the lists after it. *)
Theorem confirmLocks_resource_tag (this : Handler) (r : http.Request)
    (src dst : string) (l : ifList) (rest : list ifList)
    (w : @World LS FS) :
  resourceTag l ≠ "" →
  (∀ e, url_Parse (resourceTag l) = Err e →
     confirmLocks_lists this r src dst (l :: rest) w
     = confirmLocks_lists this r src dst rest w)
  ∧ (∀ u, url_Parse (resourceTag l) = Ok u → url.Host u ≠ http.Host r →
     confirmLocks_lists this r src dst (l :: rest) w
     = confirmLocks_lists this r src dst rest w)
  ∧ (∀ u, url_Parse (resourceTag l) = Ok u → url.Host u = http.Host r →
     snd (stripPrefix this (url.Path u)) ≠ None →
     confirmLocks_lists this r src dst (l :: rest) w
     = ((None, StatusNotFound, Some errPrefixMismatch), w)
     ∧ ∀ ih, http.Get (http.Header r) "If" ≠ "" →
             parseIfHeader (http.Get (http.Header r) "If") = Some ih →
             lists ih = l :: rest →
             confirmLocks this r src dst w
             = ((None, StatusNotFound, Some errPrefixMismatch), w)).
Proof.
  intros Htag. split; [|split].
  - intros e He. apply confirmLocks_lists_skip; [done|]. congruence.
  - intros u Hu Hh. apply confirmLocks_lists_skip; [done|]. congruence.
  - intros u Hu Hh Hs.
    assert (Ha : aborts this r l) by (split; [done|]; eauto).
    split; [by apply confirmLocks_lists_abort|].
    intros ih Hne Hih Hl.
    rewrite (confirmLocks_with_header _ _ _ _ _ _ Hne Hih), Hl.
    by apply confirmLocks_lists_abort.
Qed.

(** ** What [confirmLocks] returns *)

Lemma quiet_released (release : LS → LS) :
  quiet (released release : @M LS FS unit).
Proof.
  intros w. split; [reflexivity|]. exists []. cbn. by rewrite app_nil_r.
Qed.

Lemma confirmLocks_lists_result (this : Handler) (r : http.Request)
    (src dst : string) (ls : list ifList) (w : @World LS FS) :
  confirmLocks_result (fst (confirmLocks_lists this r src dst ls w)).
Proof.
  revert w. induction ls as [|l ls IH]; intros w.
  - cbn. auto.
  - destruct (ifList_cases this r src l) as [[lsrc Hc]|[[Htag Hu]|Ha]].
    + rewrite (confirmLocks_lists_confirm _ _ _ _ _ _ _ _ Hc). cbv zeta.
      destruct (Confirm _ _ _ _ _) as [[rel|e] s].
      * cbn. split; [done|]. eexists. split; [done|]. apply quiet_released.
      * destruct (decide _); [apply IH|]. cbn. auto.
    + rewrite confirmLocks_lists_skip by done. apply IH.
    + rewrite confirmLocks_lists_abort by done. cbn. auto.
Qed.

Lemma confirmLocks_returns (this : Handler) (r : http.Request)
    (src dst : string) (w : @World LS FS) :
  confirmLocks_result (fst (confirmLocks this r src dst w)).
Proof.
  unfold confirmLocks. destruct (decide _) as [_|_].
  - run.
    repeat (first
      [ match goal with
        | |- context [Create ?a ?b ?c] =>
            destruct (Create a b c) as [[?|?] ?]
        | |- context [Unlock ?a ?b ?c] => destruct (Unlock a b c)
        end
      | case_decide ]; run);
    cbn; auto; (split; [done|]); (eexists; split; [done|]);
    intros w0; run;
    repeat (match goal with
            | |- context [Unlock ?a ?b ?c] => destruct (Unlock a b c)
            end; run);
    (split; [reflexivity|]); rewrite <- ?app_assoc;
    first [eexists; reflexivity | exists []; symmetry; apply app_nil_r].
  - destruct (parseIfHeader _); [apply confirmLocks_lists_result|].
    cbn. auto.
Qed.

(** ** Temporary locks *)

(** C3.  With no If header, [confirmLocks] creates a temporary lock
    (zero depth, infinite duration) on each non-empty path among the source
    and the destination, the source first.  A refused source lock ends
    the call before the destination is tried.  When the destination lock
    is refused after the source lock was granted with a non-empty token,
    the source token is unlocked, as the last call, before the failure is
    returned.  On success the release closure unlocks the destination
    token and then the source token. *)
Theorem confirmLocks_temporary_locks (this : Handler) (r : http.Request)
    (src dst : string) (w : @World LS FS) :
  http.Get (http.Header r) "If" = "" →
  let now := wallclock (ticks w) in
  (src ≠ "" → ∀ e s1,
     Create now (temporaryLock src) (locks w) = (Err e, s1) →
     confirmLocks this r src dst w
     = ((None, lockStatus e, Some e),
        ticked w s1 [EvCreate now (temporaryLock src)]))
  ∧ (src ≠ "" → dst ≠ "" → ∀ ts s1 e s2,
     Create now (temporaryLock src) (locks w) = (Ok ts, s1) → ts ≠ "" →
     Create now (temporaryLock dst) s1 = (Err e, s2) →
     confirmLocks this r src dst w
     = ((None, lockStatus e, Some e),
        ticked w (snd (Unlock now ts s2))
          [EvCreate now (temporaryLock src);
           EvCreate now (temporaryLock dst); EvUnlock now ts]))
  ∧ (src ≠ "" → dst ≠ "" → ∀ ts s1 td s2,
     Create now (temporaryLock src) (locks w) = (Ok ts, s1) → ts ≠ "" →
     Create now (temporaryLock dst) s1 = (Ok td, s2) → td ≠ "" →
     ∃ release,
       confirmLocks this r src dst w
       = ((Some release, 0, None),
          ticked w s2 [EvCreate now (temporaryLock src);
                       EvCreate now (temporaryLock dst)])
       ∧ ∀ w', release w'
               = (tt, {| locks := snd (Unlock now ts
                                         (snd (Unlock now td (locks w'))));
                         files := files w'; ticks := ticks w';
                         trace := trace w' ++ [EvUnlock now td;
                                               EvUnlock now ts] |}))
  ∧ (src = "" → dst ≠ "" →
     (∀ e s1,
        Create now (temporaryLock dst) (locks w) = (Err e, s1) →
        confirmLocks this r src dst w
        = ((None, lockStatus e, Some e),
           ticked w s1 [EvCreate now (temporaryLock dst)]))
     ∧ (∀ td s1,
        Create now (temporaryLock dst) (locks w) = (Ok td, s1) → td ≠ "" →
        ∃ release,
          confirmLocks this r src dst w
          = ((Some release, 0, None),
             ticked w s1 [EvCreate now (temporaryLock dst)])
          ∧ ∀ w', release w'
                  = (tt, {| locks := snd (Unlock now td (locks w'));
                            files := files w'; ticks := ticks w';
                            trace := trace w' ++ [EvUnlock now td] |})))
  ∧ (src ≠ "" → dst = "" → ∀ ts s1,
     Create now (temporaryLock src) (locks w) = (Ok ts, s1) → ts ≠ "" →
     ∃ release,
       confirmLocks this r src dst w
       = ((Some release, 0, None),
          ticked w s1 [EvCreate now (temporaryLock src)])
       ∧ ∀ w', release w'
               = (tt, {| locks := snd (Unlock now ts (locks w'));
                         files := files w'; ticks := ticks w';
                         trace := trace w' ++ [EvUnlock now ts] |}))
  ∧ (src = "" → dst = "" →
     ∃ release,
       confirmLocks this r src dst w
       = ((Some release, 0, None), ticked w (locks w) [])
       ∧ ∀ w', release w' = (tt, w')).
Proof.
  intros HIf now. unfold confirmLocks. rewrite HIf.
  destruct (decide ("" = "")) as [_|?]; [|done].
  split; [|split; [|split; [|split; [|split]]]].
  - intros Hs e s1 H1. run.
    destruct (decide (src ≠ "")); [|done]. run. fold now.
    unfold temporaryLock in H1. rewrite H1. unfold lockStatus.
    destruct (decide (e = ErrLocked)); same_world.
  - intros Hs Hd ts s1 e s2 H1 Hts H2. run.
    destruct (decide (src ≠ "")); [|done]. run. fold now.
    unfold temporaryLock in *. rewrite H1.
    destruct (decide (dst ≠ "")); [|done]. run. rewrite H2.
    unfold lockStatus.
    destruct (decide (e = ErrLocked)); destruct (decide (ts ≠ "")); try done;
      same_world.
  - intros Hs Hd ts s1 td s2 H1 Hts H2 Htd. run.
    destruct (decide (src ≠ "")); [|done]. run. fold now.
    unfold temporaryLock in *. rewrite H1.
    destruct (decide (dst ≠ "")); [|done]. run. rewrite H2.
    eexists. split; [same_world|].
    intros w'. destruct (decide (td ≠ "")); [|done].
    destruct (decide (ts ≠ "")); [|done]. same_world.
  - intros -> Hd. split.
    + intros e s1 H1. run.
    destruct (decide ("" ≠ "")); [done|]. run. fold now.
    destruct (decide (dst ≠ "")); [|done]. run.
    unfold temporaryLock in *. rewrite H1. unfold lockStatus.
    destruct (decide (e = ErrLocked)); destruct (decide ("" ≠ "")); try done;
      same_world.
    + intros td s1 H1 Htd. run.
    destruct (decide ("" ≠ "")); [done|]. run. fold now.
    destruct (decide (dst ≠ "")); [|done]. run.
    unfold temporaryLock in *. rewrite H1.
    eexists. split; [same_world|].
    intros w'. destruct (decide (td ≠ "")); [|done].
    destruct (decide ("" ≠ "")); [done|]. same_world.
  - intros Hs -> ts s1 H1 Hts. run.
    destruct (decide (src ≠ "")); [|done]. run. fold now.
    unfold temporaryLock in *. rewrite H1.
    destruct (decide ("" ≠ "")); [done|]. run.
    eexists. split; [same_world|].
    intros w'. destruct (decide ("" ≠ "")); [done|].
    destruct (decide (ts ≠ "")); [|done]. same_world.
  - intros -> ->. run.
    destruct (decide ("" ≠ "")); [done|]. run.
    eexists. split; [same_world|].
    intros w'. destruct (decide ("" ≠ "")); [done|]. run.
    destruct w'; reflexivity.
Qed.

(** ** MKCOL and GET, HEAD, POST *)

Lemma stripPrefix_cases (this : Handler) (p : string) :
  (∃ q, stripPrefix this p = (q, StatusOK, None))
  ∨ stripPrefix this p = (p, StatusNotFound, Some errPrefixMismatch).
Proof. unfold stripPrefix. repeat case_decide; eauto. Qed.

(** C9.  [handleMkcol] answers 415 only for a request whose ContentLength
    is above 0.  Once the path is stripped and the locks are confirmed, a
    request with ContentLength above 0 is answered 415 without a call of
    Mkdir, and any other request (ContentLength 0, or -1 for an unknown
    length) reaches Mkdir on the stripped path with mode 0777 and is
    answered by Mkdir's outcome. *)
Theorem handleMkcol_content_length (this : Handler) (r : http.Request)
    (w : @World LS FS) :
  (fst (fst (handleMkcol this r w)) = StatusUnsupportedMediaType →
   http.ContentLength r > 0)
  ∧ (∀ reqPath release status w1,
       stripPrefix this (url.Path (http.URL r)) = (reqPath, StatusOK, None) →
       confirmLocks this r reqPath "" w = ((release, status, None), w1) →
       (http.ContentLength r > 0 →
          handleMkcol this r w
          = ((StatusUnsupportedMediaType, None), snd (call release w1)))
       ∧ (¬ http.ContentLength r > 0 →
          ∀ err d, Mkdir reqPath 511 (files w1) = (err, d) →
            let w2 := {| locks := locks w1; files := d; ticks := ticks w1;
                         trace := trace w1 ++ [EvMkdir reqPath 511] |} in
            handleMkcol this r w
            = ((match err with
                | None => StatusCreated
                | Some e => if os_IsNotExist e then StatusConflict
                            else StatusMethodNotAllowed
                end, err), snd (call release w2))
            ∧ In (EvMkdir reqPath 511) (trace (snd (handleMkcol this r w))))).
Proof.
  split.
  - unfold handleMkcol.
    destruct (stripPrefix_cases this (url.Path (http.URL r))) as [[q ->]| ->];
      [|cbn; discriminate].
    run. pose proof (confirmLocks_returns this r q "" w) as Hres.
    destruct (confirmLocks this r q "" w) as [[[rel st] [e|]] w1];
      cbn [fst] in Hres.
    + cbn. unfold StatusUnsupportedMediaType. cbv in Hres. intros ->.
      repeat destruct Hres as [Hres|Hres]; discriminate.
    + destruct (decide (http.ContentLength r > 0)) as [Hlen|Hlen]; [done|].
      cbn in Hres. destruct Hres as [_ (f & -> & _)].
      run. destruct (Mkdir q 511 (files w1)) as [[e|] d];
        [destruct (os_IsNotExist e)|];
        match goal with
        | |- context [f ?x] => destruct (f x)
        end; cbn; discriminate.
  - intros reqPath release status w1 Hstrip Hlocks. unfold handleMkcol.
    rewrite Hstrip. run. rewrite Hlocks.
    pose proof (confirmLocks_returns this r reqPath "" w) as Hres.
    rewrite Hlocks in Hres. cbn in Hres. destruct Hres as [_ (f & -> & Hq)].
    split.
    + intros Hlen. destruct (decide _); [|done].
      cbn. destruct (f w1) as [[] w2]. reflexivity.
    + intros Hlen err d Hmk. destruct (decide _); [done|].
      run. rewrite Hmk.
      set (w2 := {| locks := locks w1; files := d; ticks := ticks w1;
                    trace := trace w1 ++ [EvMkdir reqPath 511] |}).
      assert (Hin : In (EvMkdir reqPath 511) (trace (snd (f w2)))).
      { destruct (Hq w2) as [_ [tr ->]]. apply in_or_app. left.
        apply in_or_app. right. left. reflexivity. }
      cbn [call]. destruct err as [e|]; [destruct (os_IsNotExist e)|];
        destruct (f w2) as [[] w3]; cbn in *; done.
Qed.

(** C10, as amended.  Once the path is stripped, [handleGetHeadPost]
    answers 404 with the error for every failure of OpenFile and for every
    failure of the Stat that follows, whatever the error.  Its status is
    always one of 0, 404, 405 and 500; it is 405 only when the opened
    resource is a directory, and 500 only when both calls succeeded on a
    resource that is not a directory and findETag failed. *)
Theorem handleGetHeadPost_status (this : Handler) (r : http.Request)
    (w : @World LS FS) :
  (∀ reqPath, stripPrefix this (url.Path (http.URL r))
              = (reqPath, StatusOK, None) →
     (∀ e d, OpenFile reqPath O_RDONLY 0 (files w) = (Err e, d) →
        fst (handleGetHeadPost this r w) = (StatusNotFound, Some e))
     ∧ (∀ f d e d', OpenFile reqPath O_RDONLY 0 (files w) = (Ok f, d) →
        File_Stat f d = (Err e, d') →
        fst (handleGetHeadPost this r w) = (StatusNotFound, Some e))
     ∧ (fst (fst (handleGetHeadPost this r w)) = StatusMethodNotAllowed →
        ∃ f d fi d', OpenFile reqPath O_RDONLY 0 (files w) = (Ok f, d) ∧
                     File_Stat f d = (Ok fi, d') ∧ IsDir fi = true)
     ∧ (fst (fst (handleGetHeadPost this r w)) = StatusInternalServerError →
        ∃ f d fi d' e,
          OpenFile reqPath O_RDONLY 0 (files w) = (Ok f, d) ∧
          File_Stat f d = (Ok fi, d') ∧ IsDir fi = false ∧
          findETag d' (locks w) reqPath fi = Err e ∧
          snd (fst (handleGetHeadPost this r w)) = Some e))
  ∧ (let status := fst (fst (handleGetHeadPost this r w)) in
     status = 0 ∨ status = StatusNotFound ∨
     status = StatusMethodNotAllowed ∨ status = StatusInternalServerError).
Proof.
  unfold handleGetHeadPost.
  destruct (stripPrefix_cases this (url.Path (http.URL r))) as [[q ->]| ->].
  2: { split; [intros ? [=]|]. cbn. auto. }
  run. destruct (OpenFile q O_RDONLY 0 (files w)) as [[f|e] d] eqn:HO; run.
  2: { split; [|cbn; auto]. intros ? [= <-].
       split; [|split; [|split]]; cbn [fst snd]; try discriminate;
         intros; congruence. }
  destruct (File_Stat f d) as [[fi|e] d'] eqn:HS; run.
  2: { destruct (File_Close f d') as [? ?] eqn:HC; run.
       split; [|cbn; auto]. intros ? [= <-].
       split; [|split; [|split]]; cbn [fst snd]; try discriminate;
         intros; simplify_eq; congruence. }
  destruct (IsDir fi) eqn:HD; run.
  { destruct (File_Close f d') as [? ?] eqn:HC; run.
    split; [|cbn; auto]. intros ? [= <-].
    split; [|split; [|split]]; cbn [fst snd]; try discriminate;
      intros; simplify_eq; try congruence.
    exists f, d, fi, d'. done. }
  destruct (findETag d' (locks w) q fi) as [etag|e] eqn:HE; run.
  - destruct (File_Close f d') as [? ?] eqn:HC; run.
    split; [|cbn; auto]. intros ? [= <-].
    split; [|split; [|split]]; cbn [fst snd]; try discriminate;
      intros; simplify_eq; congruence.
  - destruct (File_Close f d') as [? ?] eqn:HC; run.
    split; [|cbn; auto]. intros ? [= <-].
    split; [|split; [|split]]; cbn [fst snd]; try discriminate;
      intros; simplify_eq; try congruence.
    exists f, d, fi, d', e. done.
Qed.

(** ** COPY and MOVE *)

Lemma parseDepth_table :
  parseDepth "0" = 0 ∧ parseDepth "1" = 1
  ∧ parseDepth "infinity" = infiniteDepth
  ∧ ∀ s, s ≠ "0" → s ≠ "1" → s ≠ "infinity" → parseDepth s = invalidDepth.
Proof.
  repeat split; try reflexivity.
  intros s H0 H1 H2. unfold parseDepth. repeat case_decide; done.
Qed.

(** A COPY that passes the preamble and the lock confirmation ends with
    the depth check and the call of the engine, then the release. *)
Lemma handleCopyMove_copy (this : Handler) (r : http.Request)
    (src dst : string) (release : option (M unit)) (status : Z)
    (w w1 : @World LS FS) :
  copyMoveTarget this r src dst →
  http.Method r = "COPY" →
  confirmLocks this r "" dst w = ((release, status, None), w1) →
  handleCopyMove this r w
  = defer (call release)
      (let hdr := http.Get (http.Header r) "Depth" in
       let depth := if decide (hdr ≠ "") then parseDepth hdr
                    else infiniteDepth in
       if decide (hdr ≠ "" ∧ depth ≠ 0 ∧ depth ≠ infiniteDepth)
       then mret (StatusBadRequest, Some errInvalidDepth)
       else call_copyFiles src dst
              (bool_decide (http.Get (http.Header r) "Overwrite" ≠ "F"))
              depth 0) w1.
Proof.
  intros (Hd & u & Hu & Hh & Hs & Ht & Hne & Hds) Hm Hl.
  unfold handleCopyMove.
  destruct (decide _); [done|]. rewrite Hu.
  destruct (decide _); [done|]. rewrite Hs, Ht.
  destruct (decide _); [done|]. destruct (decide _); [done|].
  destruct (decide _); [|done].
  unfold mbind at 1. unfold M_bind at 1. rewrite Hl. reflexivity.
Qed.

Lemma handleCopyMove_move (this : Handler) (r : http.Request)
    (src dst : string) (release : option (M unit)) (status : Z)
    (w w1 : @World LS FS) :
  copyMoveTarget this r src dst →
  http.Method r ≠ "COPY" →
  confirmLocks this r src dst w = ((release, status, None), w1) →
  handleCopyMove this r w
  = defer (call release)
      (let hdr := http.Get (http.Header r) "Depth" in
       if decide (hdr ≠ "" ∧ parseDepth hdr ≠ infiniteDepth)
       then mret (StatusBadRequest, Some errInvalidDepth)
       else call_moveFiles src dst
              (bool_decide (http.Get (http.Header r) "Overwrite" = "T")))
      w1.
Proof.
  intros (Hd & u & Hu & Hh & Hs & Ht & Hne & Hds) Hm Hl.
  unfold handleCopyMove.
  destruct (decide _); [done|]. rewrite Hu.
  destruct (decide _); [done|]. rewrite Hs, Ht.
  destruct (decide _); [done|]. destruct (decide _); [done|].
  destruct (decide _); [done|].
  unfold mbind at 1. unfold M_bind at 1. rewrite Hl. reflexivity.
Qed.

(** C1, on the code.  For a request with no Depth header that passes the
    preamble and the lock confirmation, COPY hands the engine the flag
    (Overwrite is not "F") and MOVE hands it the flag (Overwrite is "T").
    The two flags differ for every Overwrite value other than "T" and "F",
    the absent header among them: COPY overwrites, MOVE does not. *)
Theorem handleCopyMove_overwrite_flag (this : Handler) (r : http.Request)
    (src dst : string) (release : option (M unit)) (status : Z)
    (w w1 : @World LS FS) :
  copyMoveTarget this r src dst →
  http.Get (http.Header r) "Depth" = "" →
  let overwrite := http.Get (http.Header r) "Overwrite" in
  (http.Method r = "COPY" →
   confirmLocks this r "" dst w = ((release, status, None), w1) →
   handleCopyMove this r w
   = defer (call release)
       (call_copyFiles src dst (bool_decide (overwrite ≠ "F"))
          infiniteDepth 0) w1)
  ∧ (http.Method r = "MOVE" →
     confirmLocks this r src dst w = ((release, status, None), w1) →
     handleCopyMove this r w
     = defer (call release)
         (call_moveFiles src dst (bool_decide (overwrite = "T"))) w1)
  ∧ (overwrite ≠ "T" → overwrite ≠ "F" →
     bool_decide (overwrite ≠ "F") = true
     ∧ bool_decide (overwrite = "T") = false).
Proof.
  intros Hpre Hdepth overwrite. split; [|split].
  - intros Hm Hl.
    rewrite (handleCopyMove_copy _ _ _ _ _ _ _ _ Hpre Hm Hl).
    cbv zeta. rewrite Hdepth.
    destruct (decide ("" ≠ "")) as [?|_]; [done|].
    destruct (decide _) as [[? _]|_]; [done|]. reflexivity.
  - intros Hm Hl.
    assert (Hnc : http.Method r ≠ "COPY") by (rewrite Hm; done).
    rewrite (handleCopyMove_move _ _ _ _ _ _ _ _ Hpre Hnc Hl).
    cbv zeta. rewrite Hdepth.
    destruct (decide _) as [[? _]|_]; [done|]. reflexivity.
  - intros HT HF. split.
    + by apply bool_decide_eq_true.
    + by apply bool_decide_eq_false.
Qed.

(** C7.  A COPY that passes the preamble and the lock confirmation calls
    the engine with depth infinity when it has no Depth header and with the
    parsed depth when the header parses to 0 or infinity; any other Depth
    header, "1" and malformed values among them, is answered 400.  A MOVE
    that passes them calls the engine when the Depth header is absent or
    parses to infinity, and is answered 400 for any other Depth header.  In
    each case the locks are released afterwards. *)
Theorem handleCopyMove_depth (this : Handler) (r : http.Request)
    (src dst : string) (release : option (M unit)) (status : Z)
    (w w1 : @World LS FS) :
  copyMoveTarget this r src dst →
  let hdr := http.Get (http.Header r) "Depth" in
  let badDepth := ((StatusBadRequest, Some errInvalidDepth),
                   snd (call release w1)) in
  (http.Method r = "COPY" →
   confirmLocks this r "" dst w = ((release, status, None), w1) →
   let copy depth :=
     defer (call release)
       (call_copyFiles src dst
          (bool_decide (http.Get (http.Header r) "Overwrite" ≠ "F"))
          depth 0) w1 in
   (hdr = "" → handleCopyMove this r w = copy infiniteDepth)
   ∧ (hdr ≠ "" → parseDepth hdr = 0 ∨ parseDepth hdr = infiniteDepth →
      handleCopyMove this r w = copy (parseDepth hdr))
   ∧ (hdr ≠ "" → parseDepth hdr ≠ 0 → parseDepth hdr ≠ infiniteDepth →
      handleCopyMove this r w = badDepth)
   ∧ (hdr = "1" ∨ (hdr ≠ "" ∧ parseDepth hdr = invalidDepth) →
      handleCopyMove this r w = badDepth))
  ∧ (http.Method r = "MOVE" →
     confirmLocks this r src dst w = ((release, status, None), w1) →
     let move :=
       defer (call release)
         (call_moveFiles src dst
            (bool_decide (http.Get (http.Header r) "Overwrite" = "T")))
         w1 in
     (hdr = "" ∨ parseDepth hdr = infiniteDepth →
      handleCopyMove this r w = move)
     ∧ (hdr ≠ "" → parseDepth hdr ≠ infiniteDepth →
        handleCopyMove this r w = badDepth)
     ∧ (hdr = "0" ∨ hdr = "1" ∨ (hdr ≠ "" ∧ parseDepth hdr = invalidDepth) →
        handleCopyMove this r w = badDepth)).
Proof.
  intros Hpre hdr badDepth.
  assert (Hbad :
    defer (call release) (mret (StatusBadRequest, Some errInvalidDepth)) w1
    = badDepth).
  { unfold defer, badDepth. cbv [mbind mret M_bind M_ret].
    destruct (call release w1) as [[] w2]. reflexivity. }
  split.
  - intros Hm Hl copy.
    rewrite (handleCopyMove_copy _ _ _ _ _ _ _ _ Hpre Hm Hl).
    cbv zeta. fold hdr. unfold copy.
    assert (H400 : hdr ≠ "" → parseDepth hdr ≠ 0 →
                   parseDepth hdr ≠ infiniteDepth →
                   defer (call release)
                     (if decide (hdr ≠ "" ∧
                          (if decide (hdr ≠ "") then parseDepth hdr
                           else infiniteDepth) ≠ 0 ∧
                          (if decide (hdr ≠ "") then parseDepth hdr
                           else infiniteDepth) ≠ infiniteDepth)
                      then mret (StatusBadRequest, Some errInvalidDepth)
                      else call_copyFiles src dst
                             (bool_decide
                                (http.Get (http.Header r) "Overwrite" ≠ "F"))
                             (if decide (hdr ≠ "") then parseDepth hdr
                              else infiniteDepth) 0) w1 = badDepth).
    { intros H1 H2 H3. destruct (decide (hdr ≠ "")); [|done].
      destruct (decide _) as [_|Hn]; [exact Hbad|].
      destruct Hn. done. }
    split; [|split; [|split]].
    + intros He. destruct (decide (hdr ≠ "")); [done|].
      destruct (decide _) as [[? _]|_]; [done|]. reflexivity.
    + intros Hne Hv. destruct (decide (hdr ≠ "")); [|done].
      destruct (decide _) as [(_ & H0 & H1)|_]; [|reflexivity].
      destruct Hv; done.
    + exact H400.
    + intros [H1|[Hne Hinv]].
      * apply H400; rewrite H1; done.
      * apply H400; [done| |]; rewrite Hinv; done.
  - intros Hm Hl move.
    assert (Hnc : http.Method r ≠ "COPY") by (rewrite Hm; done).
    rewrite (handleCopyMove_move _ _ _ _ _ _ _ _ Hpre Hnc Hl).
    cbv zeta. fold hdr. unfold move.
    assert (H400 : hdr ≠ "" → parseDepth hdr ≠ infiniteDepth →
                   defer (call release)
                     (if decide (hdr ≠ "" ∧ parseDepth hdr ≠ infiniteDepth)
                      then mret (StatusBadRequest, Some errInvalidDepth)
                      else call_moveFiles src dst
                             (bool_decide
                                (http.Get (http.Header r) "Overwrite" = "T")))
                     w1 = badDepth).
    { intros H1 H2. destruct (decide _) as [_|Hn]; [exact Hbad|].
      destruct Hn. done. }
    split; [|split].
    + intros Hv. destruct (decide _) as [[H1 H2]|_]; [|reflexivity].
      destruct Hv; done.
    + exact H400.
    + intros [H0|[H1|[Hne Hinv]]].
      * apply H400; rewrite H0; done.
      * apply H400; rewrite H1; done.
      * apply H400; [done|]. rewrite Hinv. done.
Qed.

(** ** LOCK and UNLOCK *)

(** C4.  In a LOCK request that creates a lock and whose Create succeeds
    with [token], every return with a non-nil error comes after a call of
    Unlock on [token], the last call of the request, and leaves the store
    as that Unlock left it; a return with a nil error leaves the store as
    Create left it.  The return with an error is the one where Stat and
    then OpenFile fail: it is answered 500. *)
Theorem handleLock_rollback (this : Handler) (r : http.Request)
    (w : @World LS FS) (ld : LockDetails) (token : string) (s1 : LS) :
  lockCreate this r ld →
  let now := wallclock (ticks w) in
  Create now ld (locks w) = (Ok token, s1) →
  (∀ status e w', handleLock this r w = ((status, Some e), w') →
     locks w' = snd (Unlock now token s1)
     ∧ ∃ tr, trace w' = trace w ++ EvCreate now ld :: tr
                        ++ [EvUnlock now token])
  ∧ (∀ status w', handleLock this r w = ((status, None), w') →
     locks w' = s1
     ∧ ¬ In (EvUnlock now token) (skipn (length (trace w)) (trace w')))
  ∧ (∀ e1 d1 e2 d2,
       Stat (Root ld) (files w) = (Err e1, d1) →
       OpenFile (Root ld) (Z.lor (Z.lor O_RDWR O_CREATE) O_TRUNC) 438 d1
       = (Err e2, d2) →
       handleLock this r w
       = ((StatusInternalServerError, Some e2),
          ticked {| locks := locks w; files := d2; ticks := ticks w;
                    trace := trace w |}
            (snd (Unlock now token s1))
            [EvCreate now ld; EvStat (Root ld);
             EvOpenFile (Root ld) (Z.lor (Z.lor O_RDWR O_CREATE) O_TRUNC)
               438;
             EvUnlock now token])).
Proof.
  intros (duration & li & st & reqPath & Htime & Hread & Hli & Hrest) now HC.
  cbv zeta in Hrest. destruct Hrest as (Hdepth & Hstrip & ->).
  cbn [Root]. unfold handleLock. rewrite Htime, Hread.
  run. fold now. destruct (decide (li = LockInfo_zero)); [done|].
  destruct (decide (_ ∧ _)) as [Hd|_]; [by destruct Hdepth|].
  rewrite Hstrip. run. rewrite HC. run.
  unfold handleLock_respond. run.
  destruct (Stat reqPath (files w)) as [[fi|e1] d1] eqn:HS; run.
  { destruct (decide (None ≠ None)); [done|]. run.
    split; [|split].
    - intros ? ? ? [=].
    - intros ? ? [= <- <-]. cbn. split; [done|].
      rewrite <- !app_assoc, drop_app_length. cbn.
      intuition discriminate.
    - intros ? ? ? ? [=]. }
  destruct (OpenFile reqPath _ 438 d1) as [[f|e2] d2] eqn:HO; run.
  { destruct (File_Close f d2) as [? d3]; run.
    destruct (decide (None ≠ None)); [done|]. run.
    split; [|split].
    - intros ? ? ? [=].
    - intros ? ? [= <- <-]. cbn. split; [reflexivity|].
      rewrite <- !app_assoc, drop_app_length. cbn.
      intuition discriminate.
    - intros ? ? ? ? [= <- <-]. rewrite HO. intros [=]. }
  destruct (decide (Some e2 ≠ None)) as [_|Hn]; [|by destruct Hn]. run.
  destruct (Unlock now token s1) as [? s2] eqn:HU; run.
  split; [|split].
  - intros ? ? ? [= <- <- <-]. cbn. split; [done|].
    exists [EvStat reqPath;
            EvOpenFile reqPath (Z.lor (Z.lor O_RDWR O_CREATE) O_TRUNC) 438].
    rewrite <- !app_assoc. reflexivity.
  - intros ? ? [=].
  - intros ? ? ? ? [= <- <-]. rewrite HO. intros [= <- <-].
    unfold ticked. cbn. rewrite <- !app_assoc. reflexivity.
Qed.

(** C5.  In a LOCK request that is a refresh, a header that does not parse
    and a header that is not one list of one condition with a non-empty
    token are answered 400 without a call on the lock store.  With such a
    token Refresh is called on it with the parsed duration: ErrNoSuchLock
    is answered 412, any other error 500, and on success the refreshed
    details are written with the token as the response body, with status
    0. *)
Theorem handleLock_refresh (this : Handler) (r : http.Request)
    (w : @World LS FS) (duration : time_Duration) :
  lockRefresh r duration →
  let now := wallclock (ticks w) in
  let hdr := http.Get (http.Header r) "If" in
  (parseIfHeader hdr = None →
     handleLock this r w
     = ((StatusBadRequest, Some errInvalidIfHeader), ticked w (locks w) []))
  ∧ (∀ ih, parseIfHeader hdr = Some ih →
       (¬ ∃ l c, lists ih = [l] ∧ conditions l = [c] ∧ Token c ≠ "") →
       handleLock this r w
       = ((StatusBadRequest, Some errInvalidLockToken),
          ticked w (locks w) []))
  ∧ (∀ ih l c res s1,
       parseIfHeader hdr = Some ih →
       lists ih = [l] → conditions l = [c] → Token c ≠ "" →
       Refresh now (Token c) duration (locks w) = (res, s1) →
       (res = Err ErrNoSuchLock →
          handleLock this r w
          = ((StatusPreconditionFailed, Some ErrNoSuchLock),
             ticked w s1 [EvRefresh now (Token c) duration]))
       ∧ (∀ e, res = Err e → e ≠ ErrNoSuchLock →
          handleLock this r w
          = ((StatusInternalServerError, Some e),
             ticked w s1 [EvRefresh now (Token c) duration]))
       ∧ (∀ ld, res = Ok ld →
          handleLock this r w
          = ((0, None),
             ticked w s1
               [EvRefresh now (Token c) duration;
                EvHeaderSet "Content-Type" "application/xml; charset=utf-8";
                EvWriteLockInfo (Token c) ld]))).
Proof.
  intros (Htime & st & Hread) now hdr.
  unfold handleLock. rewrite Htime, Hread. run. fold now hdr.
  destruct (decide (LockInfo_zero = LockInfo_zero)) as [_|?]; [|done].
  split; [|split].
  - intros ->. unfold ticked. cbn. by rewrite app_nil_r.
  - intros ih -> Hno.
    destruct (decide _) as [_|Hne];
      [unfold ticked; cbn; by rewrite app_nil_r|].
    destruct Hno. destruct (lists ih) as [|l [|]]; try done.
    destruct (conditions l) as [|c [|]] eqn:Hc; try done.
    exists l, c. done.
  - intros ih l c res s1 -> -> -> Htok HR.
    destruct (decide _) as [?|_]; [done|]. run. rewrite HR.
    split; [|split].
    + intros ->. destruct (decide _) as [_|?]; [|done]. reflexivity.
    + intros err -> He. destruct (decide _); [done|]. reflexivity.
    + intros ld ->. unfold handleLock_respond, ticked. run.
      rewrite <- !app_assoc. reflexivity.
Qed.

(** C6.  [handleUnlock] answers 400, without a call on the lock store,
    when the Lock-Token header is not a Coded-URL.  Otherwise it calls
    Unlock on the header stripped of its angle brackets and answers 204
    for a nil error, 403 for [ErrForbidden], 423 for [ErrLocked], 409 for
    [ErrNoSuchLock] and 500 for any other error. *)
Theorem handleUnlock_status (this : Handler) (r : http.Request)
    (w : @World LS FS) :
  let t := http.Get (http.Header r) "Lock-Token" in
  let now := wallclock (ticks w) in
  ((∀ s, t ≠ "<" +:+ s +:+ ">") →
     handleUnlock this r w
     = ((StatusBadRequest, Some errInvalidLockToken), w))
  ∧ (∀ s err store,
       t = "<" +:+ s +:+ ">" →
       Unlock now s (locks w) = (err, store) →
       ∃ status,
         handleUnlock this r w
         = ((status, err),
            {| locks := store; files := files w; ticks := S (ticks w);
               trace := trace w ++ [EvUnlock now s] |})
         ∧ (err = None → status = StatusNoContent)
         ∧ (err = Some ErrForbidden → status = StatusForbidden)
         ∧ (err = Some ErrLocked → status = StatusLocked)
         ∧ (err = Some ErrNoSuchLock → status = StatusConflict)
         ∧ (∀ e, err = Some e → e ≠ ErrForbidden → e ≠ ErrLocked →
                 e ≠ ErrNoSuchLock → status = StatusInternalServerError)).
Proof.
  intros t now. split.
  - intros Hbad. unfold handleUnlock. fold t.
    destruct (decide _) as [_|Hok]; [reflexivity|].
    apply codedURL_test in Hok as [s Hs]. destruct (Hbad s Hs).
  - intros s err store Ht HU. unfold handleUnlock. fold t.
    destruct (decide _) as [Hbad|_].
    { exfalso. revert Hbad. apply codedURL_test. eauto. }
    rewrite Ht, codedURL_strip.
    cbv [mbind mret M_bind M_ret time_Now LockSystem_Unlock call_locks].
    cbn [locks files ticks trace].
    fold now. rewrite HU.
    destruct err as [e|].
    + destruct (decide (e = ErrForbidden)) as [->|H1];
        [eexists; split; [reflexivity|]; repeat split; congruence|].
      destruct (decide (e = ErrLocked)) as [->|H2];
        [eexists; split; [reflexivity|]; repeat split; congruence|].
      destruct (decide (e = ErrNoSuchLock)) as [->|H3];
        [eexists; split; [reflexivity|]; repeat split; congruence|].
      eexists; split; [reflexivity|]. repeat split; try congruence.
    + eexists; split; [reflexivity|]. repeat split; congruence.
Qed.

End proofs.

(** * More of the handler file *)

(** ** Prefix stripping *)

(** ** Prefixes *)

Lemma string_length_app (a b : string) :
  String.length (a +:+ b) = (String.length a + String.length b)%nat.
Proof. induction a as [|c a IH]; [reflexivity|simpl; congruence]. Qed.

Lemma prefix_app (a b : string) : String.prefix a (a +:+ b) = true.
Proof.
  induction a as [|c a IH]; [by destruct b|]. simpl.
  destruct (ascii_dec c c); [exact IH|done].
Qed.

Lemma substring_whole (s : string) :
  String.substring 0 (String.length s) s = s.
Proof. induction s as [|c s IH]; [reflexivity|simpl; congruence]. Qed.

Lemma substring_app_drop (a b : string) :
  String.substring (String.length a)
    (String.length (a +:+ b) - String.length a) (a +:+ b) = b.
Proof.
  rewrite string_length_app. replace (_ + _ - _)%nat with (String.length b) by lia.
  induction a as [|c a IH]; [apply substring_whole|simpl; exact IH].
Qed.

Lemma prefix_split (a s : string) :
  String.prefix a s = true →
  s = a +:+ String.substring (String.length a)
              (String.length s - String.length a) s.
Proof.
  revert s. induction a as [|c a IH]; intros s H.
  - change ("" +:+ ?x) with x. simpl. rewrite Nat.sub_0_r.
    by rewrite substring_whole.
  - destruct s as [|d s]; [done|]. simpl in H.
    destruct (ascii_dec c d) as [->|]; [|done].
    simpl. change (String d a +:+ ?x) with (String d (a +:+ x)).
    f_equal. by apply IH.
Qed.

Lemma TrimPrefix_app (a b : string) : TrimPrefix (a +:+ b) a = b.
Proof. unfold TrimPrefix. rewrite prefix_app. apply substring_app_drop. Qed.

(** X1.  A path made of the handler's prefix followed by [p] strips to
    [p], with status 200 and no error, whatever the prefix (empty or not)
    and whatever [p] (empty or not). *)
Theorem stripPrefix_under_prefix (this : Handler) (p : string) :
  stripPrefix this (Prefix this +:+ p) = (p, StatusOK, None).
Proof.
  unfold stripPrefix. destruct (decide (Prefix this = "")) as [->|Hne];
    [reflexivity|].
  rewrite TrimPrefix_app, string_length_app.
  destruct (decide _) as [_|Hn]; [reflexivity|].
  destruct Hn. destruct (Prefix this); [done|simpl; lia].
Qed.

(** X2.  What [stripPrefix] returns determines its input: on success the
    status is 200 and the path is the prefix followed by the result; on
    failure the prefix is not empty, the path does not start with it, and
    the path comes back unchanged with 404 and [errPrefixMismatch]. *)
Theorem stripPrefix_inversion (this : Handler) (p q : string) (status : Z)
    (err : option error) :
  stripPrefix this p = (q, status, err) →
  (err = None → status = StatusOK ∧ p = Prefix this +:+ q)
  ∧ (err ≠ None →
     q = p ∧ status = StatusNotFound ∧ err = Some errPrefixMismatch ∧
     Prefix this ≠ "" ∧ ∀ q', p ≠ Prefix this +:+ q').
Proof.
  unfold stripPrefix. destruct (decide (Prefix this = "")) as [He|Hne].
  - intros [= <- <- <-]. split; [|done]. intros _. by rewrite He.
  - destruct (decide _) as [Hlt|Hge]; intros [= <- <- <-].
    + split; [|done]. intros _. split; [done|].
      unfold TrimPrefix in *. destruct (String.prefix _ _) eqn:Hp; [|lia].
      by apply prefix_split.
    + split; [done|]. intros _. repeat split; try done.
      intros q' ->. apply Hge. rewrite TrimPrefix_app, string_length_app.
      destruct (Prefix this); [done|simpl; lia].
Qed.

(** ** Lock confirmation, GET, COPY, MOVE and LOCK *)

Section more_proofs.

Context {LS FS File : Type}.
Context {lockSystem : LockSystem LS} {fileSystem : FileSystem FS File}.
Context {package : Package LS FS}.

(** The loop over the lists of the If header: what it returns and what it
    calls. *)
Lemma confirmLocks_lists_outcome (this : Handler) (r : http.Request)
    (src dst : string) (ls : list ifList) :
  ∀ w : @World LS FS,
    let '(release, status, err) :=
      fst (confirmLocks_lists this r src dst ls w) in
    let w' := snd (confirmLocks_lists this r src dst ls w) in
    ((err = None ∧ status = 0 ∧ ∃ f, release = Some f ∧ quiet f)
     ∨ (release = None ∧
        ((status = StatusNotFound ∧ err = Some errPrefixMismatch)
         ∨ (status = StatusPreconditionFailed ∧ err = Some ErrLocked)
         ∨ (status = StatusInternalServerError ∧ err ≠ None
            ∧ err ≠ Some ErrConfirmationFailed))))
    ∧ files w' = files w ∧
    ∃ tr, trace w' = trace w ++ tr ∧ Forall isConfirm tr
          ∧ (length tr ≤ length ls)%nat.
Proof.
  induction ls as [|l ls IH]; intros w.
  - cbn. split; [right; split; [done|]; right; left; done|].
    split; [done|]. exists []. rewrite app_nil_r.
    split; [done|]. split; [constructor|cbn; lia].
  - destruct (ifList_cases this r src l) as [[lsrc Hc]|[[Htag Hu]|Ha]].
    + rewrite (confirmLocks_lists_confirm _ _ _ _ _ _ _ _ Hc). cbv zeta.
      destruct (Confirm _ _ _ _ _) as [[rel|e] s].
      * cbn. split.
        { left. repeat split. eexists. split; [done|].
          apply quiet_released. }
        split; [done|]. eexists. split; [reflexivity|].
        split; [repeat constructor|cbn; lia].
      * destruct (decide (e = ErrConfirmationFailed)) as [->|Hne].
        -- specialize (IH (ticked w s
             [EvConfirm (wallclock (ticks w)) lsrc dst (conditions l)])).
           destruct (confirmLocks_lists this r src dst ls _)
             as [[[rel st] err] w'].
           cbn in *. destruct IH as (Hout & Hf & tr & Htr & Hall & Hlen).
           split; [exact Hout|]. split; [exact Hf|].
           eexists. rewrite Htr, <- app_assoc. split; [reflexivity|].
           split; [constructor; [exact I|exact Hall]|cbn; lia].
        -- cbn. split.
           { right. split; [done|]. right; right. repeat split; congruence. }
           split; [done|]. eexists.
           split; [reflexivity|]. split; [repeat constructor|cbn; lia].
    + rewrite confirmLocks_lists_skip by done. specialize (IH w).
      destruct (confirmLocks_lists this r src dst ls w)
        as [[[rel st] err] w'].
      cbn in *. destruct IH as (Hout & Hf & tr & Htr & Hall & Hlen).
      split; [exact Hout|]. split; [exact Hf|]. exists tr.
      split; [done|]. split; [done|]. lia.
    + rewrite confirmLocks_lists_abort by done. cbn.
      split; [right; split; [done|]; left; done|].
      split; [done|]. exists []. rewrite app_nil_r.
      split; [done|]. split; [constructor|cbn; lia].
Qed.

(** Without an If header: what [confirmLocks] returns and what it calls. *)
Lemma confirmLocks_temporary_outcome (this : Handler) (r : http.Request)
    (src dst : string) (w : @World LS FS) :
  http.Get (http.Header r) "If" = "" →
  let '(release, status, err) := fst (confirmLocks this r src dst w) in
  let w' := snd (confirmLocks this r src dst w) in
  ((err = None ∧ status = 0 ∧ ∃ f, release = Some f ∧ quiet f)
   ∨ (release = None ∧
      ((status = StatusLocked ∧ err = Some ErrLocked)
       ∨ (status = StatusInternalServerError ∧ err ≠ None
          ∧ err ≠ Some ErrLocked))))
  ∧ files w' = files w ∧ ticks w' = S (ticks w) ∧
  ∃ tr, trace w' = trace w ++ tr
        ∧ Forall (λ e, isCreate e ∨ isUnlock e) tr ∧ (length tr ≤ 3)%nat.
Proof.
  intros HIf. unfold confirmLocks. rewrite HIf.
  destruct (decide ("" = "")) as [_|?]; [|done]. run.
  repeat (first
    [ match goal with
      | |- context [Create ?a ?b ?c] =>
          destruct (Create a b c) as [[?|?] ?]
      | |- context [Unlock ?a ?b ?c] => destruct (Unlock a b c)
      end
    | case_decide ]; run);
  cbn [fst snd locks files ticks trace];
  (split;
   [ first
       [ left; split; [done|]; split; [done|]; eexists; split; [done|];
         intros w0; run;
         repeat (match goal with
                 | |- context [Unlock ?a ?b ?c] => destruct (Unlock a b c)
                 end; run);
         (split; [reflexivity|]); rewrite <- ?app_assoc;
         first [eexists; reflexivity | exists []; symmetry; apply app_nil_r]
       | right; split; [done|]; left; split; congruence
       | right; split; [done|]; right; repeat split; congruence ]
   | split; [done|]; split; [done|]; rewrite <- ?app_assoc;
     first [ eexists; split; [reflexivity|]
           | exists []; split; [symmetry; apply app_nil_r|] ];
     split;
       [ cbn [app];
         repeat (apply List.Forall_cons; [first [by left|by right]|]);
         apply List.Forall_nil
       | cbn; lia ] ]).
Qed.

(** X3.  [confirmLocks] returns either no error, status 0 and a release
    closure that leaves the file system alone, or an error and no closure.
    Without an If header the failure is 423 with [ErrLocked] or 500 with
    another error of Create; with an If header it is 400 for a header that
    does not parse, 404 for a resource tag outside the prefix, 412 with
    [ErrLocked] when no list is confirmed, or 500 with an error of Confirm
    other than [ErrConfirmationFailed].  So 423 is never the answer to a
    request that cites locks, and 412 never the answer to one that does
    not. *)
Theorem confirmLocks_outcome (this : Handler) (r : http.Request)
    (src dst : string) (w : @World LS FS) (release : option (M unit))
    (status : Z) (err : option error) :
  fst (confirmLocks this r src dst w) = (release, status, err) →
  (err = None → status = 0 ∧ ∃ f, release = Some f ∧ quiet f)
  ∧ (err ≠ None →
     release = None ∧
     ((http.Get (http.Header r) "If" = "" ∧
       ((status = StatusLocked ∧ err = Some ErrLocked)
        ∨ (status = StatusInternalServerError ∧ err ≠ Some ErrLocked)))
      ∨ (http.Get (http.Header r) "If" ≠ "" ∧
         ((status = StatusBadRequest ∧ err = Some errInvalidIfHeader)
          ∨ (status = StatusNotFound ∧ err = Some errPrefixMismatch)
          ∨ (status = StatusPreconditionFailed ∧ err = Some ErrLocked)
          ∨ (status = StatusInternalServerError
             ∧ err ≠ Some ErrConfirmationFailed))))).
Proof.
  intros Hres.
  destruct (decide (http.Get (http.Header r) "If" = "")) as [HIf|HIf].
  - pose proof (confirmLocks_temporary_outcome this r src dst w HIf) as H.
    rewrite Hres in H. destruct H as [[(He & Hs & Hf)|(Hr & Hc)] _].
    + split; [done|]. intros Hn. by destruct Hn.
    + split.
      * intros ->. destruct Hc as [[_ ?]|(_ & ? & _)]; done.
      * intros _. split; [done|]. left. split; [done|].
        destruct Hc as [[? ?]|(? & _ & ?)]; auto.
  - unfold confirmLocks in Hres. destruct (decide _) as [|_]; [done|].
    destruct (parseIfHeader _) as [ih|].
    + pose proof (confirmLocks_lists_outcome this r src dst (lists ih) w)
        as H.
      rewrite Hres in H. destruct H as [[(He & Hs & Hf)|(Hr & Hc)] _].
      * split; [done|]. intros Hn. by destruct Hn.
      * split.
        -- intros ->. destruct Hc as [[_ ?]|[[_ ?]|(_ & ? & _)]]; done.
        -- intros _. split; [done|]. right. split; [done|].
           destruct Hc as [[? ?]|[[? ?]|(? & _ & ?)]]; auto.
    + injection Hres as <- <- <-. split; [done|]. intros _.
      split; [done|]. right. split; [done|]. left. done.
Qed.

(** X4.  [confirmLocks] never calls the file system.  Without an If header
    it reads the clock once and makes at most three calls, each a Create
    or an Unlock; with an If header it makes only Confirm calls, at most
    one per list of the header, and never creates or unlocks a lock; with
    an If header that does not parse it leaves the world as it was. *)
Theorem confirmLocks_footprint (this : Handler) (r : http.Request)
    (src dst : string) (w : @World LS FS) :
  let hdr := http.Get (http.Header r) "If" in
  let w' := snd (confirmLocks this r src dst w) in
  files w' = files w
  ∧ (hdr = "" →
     ticks w' = S (ticks w) ∧
     ∃ tr, trace w' = trace w ++ tr
           ∧ Forall (λ e, isCreate e ∨ isUnlock e) tr
           ∧ (length tr ≤ 3)%nat)
  ∧ (∀ ih, hdr ≠ "" → parseIfHeader hdr = Some ih →
     ∃ tr, trace w' = trace w ++ tr ∧ Forall isConfirm tr
           ∧ (length tr ≤ length (lists ih))%nat)
  ∧ (hdr ≠ "" → parseIfHeader hdr = None → w' = w).
Proof.
  intros hdr w'. subst w'.
  destruct (decide (hdr = "")) as [HIf|HIf].
  - pose proof (confirmLocks_temporary_outcome this r src dst w HIf) as H.
    destruct (fst (confirmLocks this r src dst w)) as [[rel st] err].
    destruct H as (_ & Hf & Ht & Htr).
    split; [done|]. split; [done|]. split; intros; done.
  - unfold confirmLocks. fold hdr. destruct (decide _) as [|_]; [done|].
    destruct (parseIfHeader hdr) as [ih|].
    + pose proof (confirmLocks_lists_outcome this r src dst (lists ih) w)
        as H.
      destruct (fst (confirmLocks_lists this r src dst (lists ih) w))
        as [[rel st] err].
      destruct H as (_ & Hf & Htr).
      split; [done|]. split; [done|]. split; [|done].
      intros ? _ [= <-]. exact Htr.
    + cbn. split; [done|]. split; [done|]. split; done.
Qed.

(** X5.  [handleGetHeadPost] never calls the lock system and never reads
    the clock.  When OpenFile succeeds the file is closed exactly once, as
    the last call of the handler, on every return path (Stat failure,
    directory, ETag failure, success); when the path does not strip or
    OpenFile fails, nothing is closed. *)
Theorem handleGetHeadPost_closes_file (this : Handler) (r : http.Request)
    (w : @World LS FS) :
  let w' := snd (handleGetHeadPost this r w) in
  locks w' = locks w ∧ ticks w' = ticks w
  ∧ (snd (stripPrefix this (url.Path (http.URL r))) ≠ None → w' = w)
  ∧ (∀ reqPath,
       stripPrefix this (url.Path (http.URL r)) = (reqPath, StatusOK, None) →
       (∀ e d, OpenFile reqPath O_RDONLY 0 (files w) = (Err e, d) →
          trace w' = trace w ++ [EvOpenFile reqPath O_RDONLY 0])
       ∧ (∀ f d, OpenFile reqPath O_RDONLY 0 (files w) = (Ok f, d) →
          ∃ tr, trace w'
                = trace w ++ EvOpenFile reqPath O_RDONLY 0 :: tr
                  ++ [EvFileClose]
                ∧ ¬ In EvFileClose tr)).
Proof.
  unfold handleGetHeadPost.
  destruct (stripPrefix_cases this (url.Path (http.URL r))) as [[q ->]| ->].
  2: { cbn. split; [done|]. split; [done|]. split; [done|]. intros ? [=]. }
  run. destruct (OpenFile q O_RDONLY 0 (files w)) as [[f|e] d] eqn:HO; run.
  2: { cbn [snd]. split; [done|]. split; [done|]. split; [done|].
       intros ? [= <-]. split; [intros; reflexivity|]. intros; congruence. }
  assert (Hend : ∀ tr : list Event,
    ¬ In EvFileClose tr →
    ∀ reqPath, (q, StatusOK, @None error) = (reqPath, StatusOK, None) →
    (∀ e d2, OpenFile reqPath O_RDONLY 0 (files w) = (Err e, d2) →
       trace w ++ EvOpenFile q O_RDONLY 0 :: tr ++ [EvFileClose]
       = trace w ++ [EvOpenFile reqPath O_RDONLY 0])
    ∧ (∀ f0 d2, OpenFile reqPath O_RDONLY 0 (files w) = (Ok f0, d2) →
       ∃ tr0, trace w ++ EvOpenFile q O_RDONLY 0 :: tr ++ [EvFileClose]
              = trace w ++ EvOpenFile reqPath O_RDONLY 0 :: tr0
                ++ [EvFileClose]
              ∧ ¬ In EvFileClose tr0)).
  { intros tr Hno ? [= <-]. split; [intros; congruence|].
    intros ? ? _. exists tr. done. }
  destruct (File_Stat f d) as [[fi|e] d'] eqn:HS; run.
  2: { destruct (File_Close f d') as [o d1] eqn:HC; run.
       cbn [snd]. split; [done|]. split; [done|]. split; [done|].
       rewrite <- !app_assoc. cbn [app]. apply (Hend [EvFileStat]).
       cbn. intuition discriminate. }
  destruct (IsDir fi) eqn:HD; run.
  { destruct (File_Close f d') as [o d1] eqn:HC; run.
    cbn [snd]. split; [done|]. split; [done|]. split; [done|].
    rewrite <- !app_assoc. cbn [app]. apply (Hend [EvFileStat]).
    cbn. intuition discriminate. }
  destruct (findETag d' (locks w) q fi) as [etag|e] eqn:HE; run.
  - destruct (File_Close f d') as [o d1] eqn:HC; run.
    cbn [snd]. split; [done|]. split; [done|]. split; [done|].
    rewrite <- !app_assoc. cbn [app].
    apply (Hend [EvFileStat; EvFindETag q; EvHeaderSet "ETag" etag;
                 EvServeContent q (ModTime fi)]).
    cbn. intuition discriminate.
  - destruct (File_Close f d') as [o d1] eqn:HC; run.
    cbn [snd]. split; [done|]. split; [done|]. split; [done|].
    rewrite <- !app_assoc. cbn [app].
    apply (Hend [EvFileStat; EvFindETag q]).
    cbn. intuition discriminate.
Qed.

(** X6.  A GET, HEAD or POST that succeeds: once the path strips, OpenFile
    and Stat succeed on a resource that is not a directory and findETag
    answers [etag], the handler sets the ETag header to [etag], then
    serves the content under the stripped name with the file's
    modification time, then closes the file, and returns status 0 with no
    error, for the dispatcher to write nothing more. *)
Theorem handleGetHeadPost_success (this : Handler) (r : http.Request)
    (w : @World LS FS) (reqPath : string) (f : File) (d d' : FS)
    (fi : FileInfo) (etag : string) :
  stripPrefix this (url.Path (http.URL r)) = (reqPath, StatusOK, None) →
  OpenFile reqPath O_RDONLY 0 (files w) = (Ok f, d) →
  File_Stat f d = (Ok fi, d') →
  IsDir fi = false →
  findETag d' (locks w) reqPath fi = Ok etag →
  handleGetHeadPost this r w
  = ((0, None),
     {| locks := locks w; files := snd (File_Close f d'); ticks := ticks w;
        trace := trace w ++
                 [EvOpenFile reqPath O_RDONLY 0; EvFileStat;
                  EvFindETag reqPath; EvHeaderSet "ETag" etag;
                  EvServeContent reqPath (ModTime fi); EvFileClose] |}).
Proof.
  intros Hs HO HS HD HE. unfold handleGetHeadPost. rewrite Hs. run.
  rewrite HO. run. rewrite HS. run. rewrite HD. run. rewrite HE. run.
  destruct (File_Close f d') as [o d1]. run.
  rewrite <- !app_assoc. reflexivity.
Qed.

(** X7.  The preamble of [handleCopyMove] fails without a call on the lock
    system or the file system, and leaves the world as it was: 400 for a
    Destination header that is absent or does not parse, 502 for another
    host than the request's, 404 when the request path or the destination
    path does not start with the prefix, 502 when the destination strips
    to the empty path, 403 when it strips to the source. *)
Theorem handleCopyMove_preamble (this : Handler) (r : http.Request)
    (w : @World LS FS) :
  let hdr := http.Get (http.Header r) "Destination" in
  let answer status err := handleCopyMove this r w = ((status, Some err), w) in
  (hdr = "" → answer StatusBadRequest errInvalidDestination)
  ∧ (∀ e, hdr ≠ "" → url_Parse hdr = Err e →
       answer StatusBadRequest errInvalidDestination)
  ∧ (∀ u, hdr ≠ "" → url_Parse hdr = Ok u →
       (url.Host u ≠ http.Host r →
          answer StatusBadGateway errInvalidDestination)
       ∧ (url.Host u = http.Host r →
          (snd (stripPrefix this (url.Path (http.URL r))) ≠ None →
             answer StatusNotFound errPrefixMismatch)
          ∧ (∀ src, stripPrefix this (url.Path (http.URL r))
                    = (src, StatusOK, None) →
               (snd (stripPrefix this (url.Path u)) ≠ None →
                  answer StatusNotFound errPrefixMismatch)
               ∧ (stripPrefix this (url.Path u) = ("", StatusOK, None) →
                  answer StatusBadGateway errInvalidDestination)
               ∧ (src ≠ "" →
                  stripPrefix this (url.Path u) = (src, StatusOK, None) →
                  answer StatusForbidden errDestinationEqualsSource)))).
Proof.
  intros hdr answer. unfold answer, handleCopyMove. fold hdr.
  split; [|split].
  - intros ->. reflexivity.
  - intros e Hne ->. destruct (decide _); done.
  - intros u Hne ->. destruct (decide (hdr = "")); [done|]. split.
    + intros Hh. destruct (decide _); done.
    + intros Hh. destruct (decide (url.Host u ≠ http.Host r)); [done|].
      split.
      * intros Hs. rewrite (stripPrefix_error _ _ Hs). reflexivity.
      * intros src ->. split; [|split].
        -- intros Hs. rewrite (stripPrefix_error _ _ Hs). reflexivity.
        -- intros ->. reflexivity.
        -- intros Hsrc ->. destruct (decide (src = "")); [done|].
           destruct (decide (src = src)); done.
Qed.

(** [confirmLocks] on a destination alone, without an If header. *)
Lemma confirmLocks_destination (this : Handler) (r : http.Request)
    (dst : string) (w : @World LS FS) :
  http.Get (http.Header r) "If" = "" → dst ≠ "" →
  let now := wallclock (ticks w) in
  (∀ e s1, Create now (temporaryLock dst) (locks w) = (Err e, s1) →
     confirmLocks this r "" dst w
     = ((None, lockStatus e, Some e),
        ticked w s1 [EvCreate now (temporaryLock dst)]))
  ∧ (∀ td s1, Create now (temporaryLock dst) (locks w) = (Ok td, s1) →
     td ≠ "" →
     ∃ release,
       confirmLocks this r "" dst w
       = ((Some release, 0, None),
          ticked w s1 [EvCreate now (temporaryLock dst)])
       ∧ ∀ w', release w'
               = (tt, {| locks := snd (Unlock now td (locks w'));
                         files := files w'; ticks := ticks w';
                         trace := trace w' ++ [EvUnlock now td] |})).
Proof.
  intros HIf Hd now. unfold confirmLocks. rewrite HIf.
  destruct (decide ("" = "")) as [_|?]; [|done].
  unfold temporaryLock, lockStatus. split.
  - intros e s1 H1. run. destruct (decide ("" ≠ "")); [done|]. run.
    destruct (decide (dst ≠ "")); [|done]. run. fold now. rewrite H1.
    destruct (decide (e = ErrLocked)); destruct (decide ("" ≠ ""));
      try done; reflexivity.
  - intros td s1 H1 Htd. run. destruct (decide ("" ≠ "")); [done|]. run.
    destruct (decide (dst ≠ "")); [|done]. run. fold now. rewrite H1.
    eexists. split; [reflexivity|]. intros w'.
    destruct (decide (td ≠ "")); [|done].
    destruct (decide ("" ≠ "")); [done|]. run.
    destruct (Unlock now td (locks w')). reflexivity.
Qed.

(** [confirmLocks] on a source and a destination, without an If header,
    when both locks are granted. *)
Lemma confirmLocks_both (this : Handler) (r : http.Request)
    (src dst : string) (w : @World LS FS) (ts td : string) (s1 s2 : LS) :
  http.Get (http.Header r) "If" = "" → src ≠ "" → dst ≠ "" →
  let now := wallclock (ticks w) in
  Create now (temporaryLock src) (locks w) = (Ok ts, s1) → ts ≠ "" →
  Create now (temporaryLock dst) s1 = (Ok td, s2) → td ≠ "" →
  ∃ release,
    confirmLocks this r src dst w
    = ((Some release, 0, None),
       ticked w s2 [EvCreate now (temporaryLock src);
                    EvCreate now (temporaryLock dst)])
    ∧ ∀ w', release w'
            = (tt, {| locks := snd (Unlock now ts
                                      (snd (Unlock now td (locks w'))));
                      files := files w'; ticks := ticks w';
                      trace := trace w' ++ [EvUnlock now td;
                                            EvUnlock now ts] |}).
Proof.
  intros HIf Hs Hd now H1 Hts H2 Htd. unfold confirmLocks. rewrite HIf.
  destruct (decide ("" = "")) as [_|?]; [|done].
  unfold temporaryLock in *. run.
  destruct (decide (src ≠ "")); [|done]. run. fold now. rewrite H1.
  destruct (decide (dst ≠ "")); [|done]. run. rewrite H2.
  eexists. split; [same_world|].
  intros w'. destruct (decide (td ≠ "")); [|done].
  destruct (decide (ts ≠ "")); [|done]. same_world.
Qed.

(** X8.  A COPY without an If header locks the destination only.  When
    the preamble passes and the Depth header is absent, 0 or infinity: if
    the temporary lock on the destination is refused, the engine is not
    called and the answer is 423 for [ErrLocked], 500 otherwise; if it is
    granted, the handler calls the engine once, with the flag (Overwrite
    is not "F") and the parsed depth, returns what the engine returns, and
    unlocks the destination as its last call.  No lock is ever taken on
    the source. *)
Theorem handleCopyMove_copy_run (this : Handler) (r : http.Request)
    (src dst : string) (w : @World LS FS) :
  copyMoveTarget this r src dst →
  http.Method r = "COPY" →
  http.Get (http.Header r) "If" = "" →
  let hdr := http.Get (http.Header r) "Depth" in
  let depth := if decide (hdr ≠ "") then parseDepth hdr else infiniteDepth in
  hdr = "" ∨ depth = 0 ∨ depth = infiniteDepth →
  let now := wallclock (ticks w) in
  let overwrite :=
    bool_decide (http.Get (http.Header r) "Overwrite" ≠ "F") in
  (∀ e s1, Create now (temporaryLock dst) (locks w) = (Err e, s1) →
     handleCopyMove this r w
     = ((lockStatus e, Some e),
        ticked w s1 [EvCreate now (temporaryLock dst)]))
  ∧ (∀ td s1, Create now (temporaryLock dst) (locks w) = (Ok td, s1) →
     td ≠ "" →
     handleCopyMove this r w
     = (fst (copyFiles src dst overwrite depth 0 (files w)),
        {| locks := snd (Unlock now td s1);
           files := snd (copyFiles src dst overwrite depth 0 (files w));
           ticks := S (ticks w);
           trace := trace w ++
                    [EvCreate now (temporaryLock dst);
                     EvCopyFiles src dst overwrite depth 0;
                     EvUnlock now td] |})).
Proof.
  intros Hpre Hm HIf hdr depth Hdepth now overwrite.
  assert (Hd : dst ≠ "") by (destruct Hpre as (_ & u & _ & _ & _ & _ & ? & _);
                             done).
  destruct (confirmLocks_destination this r dst w HIf Hd) as [Hno Hyes].
  split.
  - intros e s1 HC. specialize (Hno e s1 HC).
    destruct Hpre as (Hdst & u & Hu & Hh & Hs & Ht & Hne & Hds).
    unfold handleCopyMove.
    destruct (decide (http.Get (http.Header r) "Destination" = ""));
      [done|]. rewrite Hu.
    destruct (decide (url.Host u ≠ http.Host r)); [done|]. rewrite Hs, Ht.
    destruct (decide (dst = "")); [done|].
    destruct (decide (dst = src)); [done|].
    destruct (decide (http.Method r = "COPY")); [|done].
    unfold mbind at 1. unfold M_bind at 1. rewrite Hno. reflexivity.
  - intros td s1 HC Htd. destruct (Hyes td s1 HC Htd) as (rel & Hrun & Hrel).
    rewrite (handleCopyMove_copy _ _ _ _ _ _ _ _ Hpre Hm Hrun).
    cbv zeta. fold hdr. fold depth. fold overwrite.
    destruct (decide (hdr ≠ "" ∧ depth ≠ 0 ∧ depth ≠ infiniteDepth))
      as [(Hne & H0 & H1)|_].
    { destruct Hdepth as [?|[?|?]]; done. }
    unfold defer, call, ticked. run.
    destruct (copyFiles src dst overwrite depth 0 (files w)) as [res d].
    rewrite Hrel. run. rewrite <- !app_assoc. reflexivity.
Qed.

(** X9.  A MOVE without an If header locks the source, then the
    destination.  When the preamble passes, the source is not the empty
    path, the Depth header is absent or infinity and both temporary locks
    are granted, the handler calls the engine once, with the flag
    (Overwrite is "T"), returns what the engine returns, and unlocks the
    destination and then the source as its last two calls. *)
Theorem handleCopyMove_move_run (this : Handler) (r : http.Request)
    (src dst : string) (w : @World LS FS) (ts td : string) (s1 s2 : LS) :
  copyMoveTarget this r src dst →
  http.Method r = "MOVE" →
  http.Get (http.Header r) "If" = "" →
  src ≠ "" →
  let hdr := http.Get (http.Header r) "Depth" in
  hdr = "" ∨ parseDepth hdr = infiniteDepth →
  let now := wallclock (ticks w) in
  let overwrite := bool_decide (http.Get (http.Header r) "Overwrite" = "T") in
  Create now (temporaryLock src) (locks w) = (Ok ts, s1) → ts ≠ "" →
  Create now (temporaryLock dst) s1 = (Ok td, s2) → td ≠ "" →
  handleCopyMove this r w
  = (fst (moveFiles src dst overwrite (files w)),
     {| locks := snd (Unlock now ts (snd (Unlock now td s2)));
        files := snd (moveFiles src dst overwrite (files w));
        ticks := S (ticks w);
        trace := trace w ++
                 [EvCreate now (temporaryLock src);
                  EvCreate now (temporaryLock dst);
                  EvMoveFiles src dst overwrite;
                  EvUnlock now td; EvUnlock now ts] |}).
Proof.
  intros Hpre Hm HIf Hsrc hdr Hdepth now overwrite H1 Hts H2 Htd.
  assert (Hd : dst ≠ "") by (destruct Hpre as (_ & u & _ & _ & _ & _ & ? & _);
                             done).
  destruct (confirmLocks_both this r src dst w ts td s1 s2 HIf Hsrc Hd
              H1 Hts H2 Htd) as (rel & Hrun & Hrel).
  assert (Hnc : http.Method r ≠ "COPY") by (rewrite Hm; done).
  rewrite (handleCopyMove_move _ _ _ _ _ _ _ _ Hpre Hnc Hrun).
  cbv zeta. fold hdr. fold overwrite.
  destruct (decide (hdr ≠ "" ∧ parseDepth hdr ≠ infiniteDepth))
    as [(Hne & H0)|_].
  { destruct Hdepth; done. }
  unfold defer, call, ticked. run.
  destruct (moveFiles src dst overwrite (files w)) as [res d].
  rewrite Hrel. run. rewrite <- !app_assoc. reflexivity.
Qed.

(** X10.  A LOCK request that is refused before or by Create never calls
    the file system and never unlocks anything.  A Timeout header that
    does not parse is answered 400 and a body that does not read is
    answered with the reader's status, both in the world as it was; with a
    lock-info body, a Depth header other than 0 and infinity is answered
    400 and a path outside the prefix 404, after one reading of the clock
    and no call; a Create that fails is answered 423 for [ErrLocked] and
    500 otherwise, Create being the only call. *)
Theorem handleLock_refused (this : Handler) (r : http.Request)
    (w : @World LS FS) :
  let now := wallclock (ticks w) in
  (∀ e, parseTimeout (http.Get (http.Header r) "Timeout") = Err e →
     handleLock this r w = ((StatusBadRequest, Some e), w))
  ∧ (∀ duration li status e,
       parseTimeout (http.Get (http.Header r) "Timeout") = Ok duration →
       ReadLockInfo (http.Body r) = (li, status, Some e) →
       handleLock this r w = ((status, Some e), w))
  ∧ (∀ duration li status,
       parseTimeout (http.Get (http.Header r) "Timeout") = Ok duration →
       ReadLockInfo (http.Body r) = (li, status, None) →
       li ≠ LockInfo_zero →
       let hdr := http.Get (http.Header r) "Depth" in
       (hdr ≠ "" → parseDepth hdr ≠ 0 → parseDepth hdr ≠ infiniteDepth →
          handleLock this r w
          = ((StatusBadRequest, Some errInvalidDepth),
             ticked w (locks w) []))
       ∧ (hdr = "" ∨ parseDepth hdr = 0 ∨ parseDepth hdr = infiniteDepth →
          snd (stripPrefix this (url.Path (http.URL r))) ≠ None →
          handleLock this r w
          = ((StatusNotFound, Some errPrefixMismatch),
             ticked w (locks w) [])))
  ∧ (∀ ld e s1,
       lockCreate this r ld →
       Create now ld (locks w) = (Err e, s1) →
       handleLock this r w
       = ((lockStatus e, Some e), ticked w s1 [EvCreate now ld])).
Proof.
  intros now. unfold handleLock. split; [|split; [|split]].
  - intros e ->. reflexivity.
  - intros duration li status e -> ->. reflexivity.
  - intros duration li status -> -> Hli.
    set (hdr := http.Get (http.Header r) "Depth"). run. fold now hdr.
    destruct (decide (li = LockInfo_zero)); [done|]. split.
    + intros Hne H0 H1.
      destruct (decide (hdr ≠ "")) as [_|?]; [|done].
      destruct (decide (_ ∧ _)) as [_|Hn]; [|by destruct Hn].
      unfold ticked. cbn. by rewrite app_nil_r.
    + intros Hok Hs.
      destruct (decide (_ ∧ _)) as [(Hne & H0 & H1)|_].
      { destruct (decide (hdr ≠ "")); [|done].
        destruct Hok as [?|[?|?]]; done. }
      rewrite (stripPrefix_error _ _ Hs). unfold ticked. cbn.
      by rewrite app_nil_r.
  - intros ld e s1 (duration & li & st & reqPath & Htime & Hread & Hli & Hrest)
      HC.
    cbv zeta in Hrest. destruct Hrest as (Hdepth & Hstrip & ->).
    rewrite Htime, Hread. run. fold now.
    destruct (decide (li = LockInfo_zero)); [done|].
    destruct (decide (_ ∧ _)) as [Hd|_]; [by destruct Hdepth|].
    rewrite Hstrip. run. rewrite HC. unfold lockStatus, ticked.
    destruct (decide (e = ErrLocked)); reflexivity.
Qed.

(** X11.  A LOCK request whose Create succeeds with [token] and whose
    resource can be had keeps the lock and returns status 0 with no error,
    having written the response itself.  When Stat succeeds the handler
    sets the Lock-Token header to the token in angle brackets and the
    Content-Type header, and writes the lock details; no status line is
    written.  When Stat fails, whatever the error, it opens the resource
    with the flags read-write, create and truncate and mode 0666, closes
    it, and writes the status line 201 before the lock details. *)
Theorem handleLock_created (this : Handler) (r : http.Request)
    (w : @World LS FS) (ld : LockDetails) (token : string) (s1 : LS) :
  lockCreate this r ld →
  let now := wallclock (ticks w) in
  Create now ld (locks w) = (Ok token, s1) →
  let flags := Z.lor (Z.lor O_RDWR O_CREATE) O_TRUNC in
  let headers :=
    [EvHeaderSet "Lock-Token" ("<" +:+ token +:+ ">");
     EvHeaderSet "Content-Type" "application/xml; charset=utf-8"] in
  (∀ fi d, Stat (Root ld) (files w) = (Ok fi, d) →
     handleLock this r w
     = ((0, None),
        {| locks := s1; files := d; ticks := S (ticks w);
           trace := trace w ++ [EvCreate now ld; EvStat (Root ld)]
                    ++ headers ++ [EvWriteLockInfo token ld] |}))
  ∧ (∀ e d f d',
       Stat (Root ld) (files w) = (Err e, d) →
       OpenFile (Root ld) flags 438 d = (Ok f, d') →
       handleLock this r w
       = ((0, None),
          {| locks := s1; files := snd (File_Close f d');
             ticks := S (ticks w);
             trace := trace w ++
                      [EvCreate now ld; EvStat (Root ld);
                       EvOpenFile (Root ld) flags 438; EvFileClose]
                      ++ headers
                      ++ [EvWriteHeader StatusCreated;
                          EvWriteLockInfo token ld] |})).
Proof.
  intros (duration & li & st & reqPath & Htime & Hread & Hli & Hrest) now HC
    flags headers.
  cbv zeta in Hrest. destruct Hrest as (Hdepth & Hstrip & ->).
  cbn [Root]. unfold handleLock. rewrite Htime, Hread.
  run. fold now. destruct (decide (li = LockInfo_zero)); [done|].
  destruct (decide (_ ∧ _)) as [Hd|_]; [by destruct Hdepth|].
  rewrite Hstrip. run. rewrite HC. run.
  unfold handleLock_respond. split.
  - intros fi d ->. run.
    destruct (decide (None ≠ None)); [done|]. run.
    unfold headers. rewrite <- !app_assoc. reflexivity.
  - intros e d f d' -> . run. fold flags. intros ->. run.
    destruct (File_Close f d') as [o d1]. run.
    destruct (decide (None ≠ None)); [done|]. run.
    unfold headers. rewrite <- !app_assoc. reflexivity.
Qed.

(** X23.  A temporary lock whose token is the empty string is never
    released.  For a request without an If header on a source alone, when
    Create succeeds and hands back the empty token, [confirmLocks] returns
    status 0 with no error and a release closure that does nothing: it
    makes no call, and the lock that Create made stays in the lock
    system. *)
Theorem confirmLocks_empty_token (this : Handler) (r : http.Request)
    (src : string) (w : @World LS FS) (s1 : LS) :
  http.Get (http.Header r) "If" = "" → src ≠ "" →
  let now := wallclock (ticks w) in
  Create now (temporaryLock src) (locks w) = (Ok "", s1) →
  ∃ release,
    confirmLocks this r src "" w
    = ((Some release, 0, None),
       ticked w s1 [EvCreate now (temporaryLock src)])
    ∧ ∀ w', release w' = (tt, w').
Proof.
  intros HIf Hsrc now HC. unfold confirmLocks. rewrite HIf.
  destruct (decide ("" = "")) as [_|?]; [|done].
  unfold temporaryLock in *. run.
  destruct (decide (src ≠ "")); [|done]. run. fold now. rewrite HC. run.
  destruct (decide ("" ≠ "")); [done|]. run.
  eexists. split; [reflexivity|]. intros w'. run.
  destruct w'; reflexivity.
Qed.

(** X24.  [handleUnlock] looks at the Lock-Token header alone: it never
    strips the prefix and never reads the URL, so two requests with the
    same Lock-Token header are answered alike, whatever their paths and
    whatever the prefix of the handler; a path outside the prefix is not
    answered 404. *)
Theorem handleUnlock_header_only (this this' : Handler)
    (r r' : http.Request) (w : @World LS FS) :
  http.Get (http.Header r) "Lock-Token"
  = http.Get (http.Header r') "Lock-Token" →
  handleUnlock this r w = handleUnlock this' r' w
  ∧ fst (handleUnlock this r w) ≠ (StatusNotFound, Some errPrefixMismatch).
Proof.
  intros Ht. split.
  - unfold handleUnlock. rewrite Ht. reflexivity.
  - unfold handleUnlock. destruct (decide _) as [_|_]; [discriminate|].
    run. destruct (Unlock _ _ _) as [[e|] s1]; [|discriminate].
    repeat case_decide; subst; discriminate.
Qed.

End more_proofs.

(** ** The other handlers and the dispatcher *)

(** Unfolding of the monad of a whole request and of its calls. *)
Ltac run2 :=
  cbv [mbind mret M2_bind M2_ret M_bind M_ret lift note call_files2
       call_writer call_engine defer2 defer call emit time_Now
       FileSystem_RemoveAll call_io_Copy MultiStatusWriter_make
       MultiStatusWriter_Write_ MultiStatusWriter_Close_
       LockSystem_Create LockSystem_Unlock LockSystem_Refresh
       LockSystem_Confirm FileSystem_Mkdir FileSystem_OpenFile
       FileSystem_Stat File_Stat_ File_Close_ call_findETag
       call_copyFiles call_moveFiles call_locks call_files];
  cbn [locks files ticks trace base writer journal fst snd].

Section rest_proofs.

Context {LS FS File Property Proppatch MSW : Type}.
Context {lockSystem : LockSystem LS} {fileSystem : FileSystem FS File}.
Context {package : Package LS FS}.
Context {fileSystemMore : FileSystemMore FS File} {goLibrary : GoLibrary}.
Context {propertyEngine : PropertyEngine LS FS Property Proppatch MSW}.
Context {walker : @Walker LS FS Property Proppatch MSW}.

(** X12.  Once the path strips, [handleOptions] never fails: it calls
    Stat once, sets the headers Allow, DAV ("1, 2") and MS-Author-Via
    ("DAV") in that order, and returns status 0 with no error, without a
    call on the lock system.  The Allow header is the creation subset
    (OPTIONS, LOCK, PUT, MKCOL) whenever Stat fails, whatever the error;
    for a directory it lists no GET, HEAD, POST or PUT; for any other
    resource it lists the full set. *)
Theorem handleOptions_allow (this : Handler) (r : http.Request)
    (w : @World LS FS) (reqPath : string) (res : result FileInfo) (d : FS) :
  stripPrefix this (url.Path (http.URL r)) = (reqPath, StatusOK, None) →
  Stat reqPath (files w) = (res, d) →
  ∃ allow,
    handleOptions this r w
    = ((0, None),
       {| locks := locks w; files := d; ticks := ticks w;
          trace := trace w ++
                   [EvStat reqPath; EvHeaderSet "Allow" allow;
                    EvHeaderSet "DAV" "1, 2";
                    EvHeaderSet "MS-Author-Via" "DAV"] |})
    ∧ (∀ e, res = Err e → allow = "OPTIONS, LOCK, PUT, MKCOL")
    ∧ (∀ fi, res = Ok fi → IsDir fi = true →
         allow
         = "OPTIONS, LOCK, DELETE, PROPPATCH, COPY, MOVE, UNLOCK, PROPFIND")
    ∧ (∀ fi, res = Ok fi → IsDir fi = false →
         allow
         = "OPTIONS, LOCK, GET, HEAD, POST, DELETE, PROPPATCH, COPY, MOVE, UNLOCK, PROPFIND, PUT").
Proof.
  intros Hs HS. unfold handleOptions. rewrite Hs. run. rewrite HS. run.
  eexists. split; [rewrite <- !app_assoc; reflexivity|].
  split; [|split].
  - intros e ->. reflexivity.
  - intros fi -> ->. reflexivity.
  - intros fi -> ->. reflexivity.
Qed.

(** X13.  A mutating handler whose locks are not confirmed does nothing
    else: [handleDelete], [handlePut], [handleProppatch] and [handleMkcol]
    return the status and the error of [confirmLocks] and make no call of
    their own on the file system, the property engine or the response. *)
Theorem mutators_need_locks (this : Handler) (r : http.Request)
    (s : @Site LS FS Property Proppatch MSW) (reqPath : string)
    (release : option (M unit)) (status : Z) (e : error)
    (w1 : @World LS FS) :
  stripPrefix this (url.Path (http.URL r)) = (reqPath, StatusOK, None) →
  confirmLocks this r reqPath "" (base s) = ((release, status, Some e), w1) →
  let s1 := {| base := w1; writer := writer s; journal := journal s |} in
  handleDelete this r s = ((status, Some e), s1)
  ∧ handlePut this r s = ((status, Some e), s1)
  ∧ handleProppatch this r s = ((status, Some e), s1)
  ∧ handleMkcol this r (base s) = ((status, Some e), w1).
Proof.
  intros Hs Hl s1. unfold handleDelete, handlePut, handleProppatch,
    handleMkcol. rewrite Hs.
  cbv [mbind M2_bind M_bind lift]. rewrite Hl. repeat split.
Qed.

(** X14.  A DELETE whose locks are confirmed stats the resource before
    it removes it.  When Stat fails, RemoveAll is not called and the
    answer is 404 for a not-exist error and 405 for any other; when Stat
    succeeds, RemoveAll is called once on the stripped path and the answer
    is 204 with no error when it succeeds and 405 with its error when it
    fails.  On each of these paths the release closure runs last. *)
Theorem handleDelete_outcome (this : Handler) (r : http.Request)
    (s : @Site LS FS Property Proppatch MSW) (reqPath : string)
    (release : option (M unit)) (status : Z) (w1 : @World LS FS) :
  stripPrefix this (url.Path (http.URL r)) = (reqPath, StatusOK, None) →
  confirmLocks this r reqPath "" (base s) = ((release, status, None), w1) →
  let after (d : FS) :=
    snd (call release
           {| locks := locks w1; files := d; ticks := ticks w1;
              trace := trace w1 ++ [EvStat reqPath] |}) in
  (∀ e d, Stat reqPath (files w1) = (Err e, d) →
     handleDelete this r s
     = ((if os_IsNotExist e then StatusNotFound
         else StatusMethodNotAllowed, Some e),
        {| base := after d; writer := writer s; journal := journal s |}))
  ∧ (∀ fi d err d',
       Stat reqPath (files w1) = (Ok fi, d) →
       RemoveAll reqPath d = (err, d') →
       handleDelete this r s
       = ((match err with
           | None => StatusNoContent
           | Some _ => StatusMethodNotAllowed
           end, err),
          {| base := after d'; writer := writer s;
             journal := journal s ++
                        [(length (trace w1 ++ [EvStat reqPath]),
                          CallRemoveAll reqPath)] |})).
Proof.
  intros Hs Hl after. unfold handleDelete. rewrite Hs.
  cbv [mbind M2_bind lift defer2]. rewrite Hl. cbn [base writer journal].
  split.
  - intros e d HS. run2. rewrite HS. run2.
    destruct (os_IsNotExist e); run2; unfold after;
      destruct release as [f|]; cbn [call];
      [destruct (f _) as [[] w2]|run2|destruct (f _) as [[] w2]|run2];
      reflexivity.
  - intros fi d err d' HS HR. run2. rewrite HS. run2. rewrite HR. run2.
    destruct err as [e|]; run2; unfold after;
      destruct release as [f|]; cbn [call];
      [destruct (f _) as [[] w2]|run2|destruct (f _) as [[] w2]|run2];
      reflexivity.
Qed.

(** X15.  A PUT whose locks are confirmed opens the resource with the
    flags read-write, create and truncate and mode 0666; a failure of
    OpenFile, whatever the error, is answered 404 and nothing is copied.
    Once the file is open the handler copies the request body into it,
    then stats it, then closes it, all three whatever the outcome of the
    one before.  The answer is 405 with the first error among those of
    the copy, the Stat and the Close, in that order; with none, it is 500
    with the error of findETag, or 201 after the ETag header is set.  On
    each of these paths the release closure runs last. *)
Theorem handlePut_outcome (this : Handler) (r : http.Request)
    (s : @Site LS FS Property Proppatch MSW) (reqPath : string)
    (release : option (M unit)) (status : Z) (w1 : @World LS FS) :
  stripPrefix this (url.Path (http.URL r)) = (reqPath, StatusOK, None) →
  confirmLocks this r reqPath "" (base s) = ((release, status, None), w1) →
  let flags := Z.lor (Z.lor O_RDWR O_CREATE) O_TRUNC in
  let opened := trace w1 ++ [EvOpenFile reqPath flags 438] in
  let after (d : FS) (tr : list Event) :=
    snd (call release
           {| locks := locks w1; files := d; ticks := ticks w1;
              trace := tr |}) in
  (∀ e d, OpenFile reqPath flags 438 (files w1) = (Err e, d) →
     handlePut this r s
     = ((StatusNotFound, Some e),
        {| base := after d opened; writer := writer s;
           journal := journal s |}))
  ∧ (∀ f d copyErr d1 fi d2 closeErr d3,
       OpenFile reqPath flags 438 (files w1) = (Ok f, d) →
       io_Copy f (http.Body r) d = (copyErr, d1) →
       File_Stat f d1 = (fi, d2) →
       File_Close f d2 = (closeErr, d3) →
       let copied :=
         journal s ++ [(length opened, CallCopy (http.Body r))] in
       let closed := opened ++ [EvFileStat; EvFileClose] in
       let answer res tr :=
         handlePut this r s
         = (res, {| base := after d3 tr; writer := writer s;
                    journal := copied |}) in
       (∀ e, copyErr = Some e →
          answer (StatusMethodNotAllowed, Some e) closed)
       ∧ (∀ e, copyErr = None → fi = Err e →
          answer (StatusMethodNotAllowed, Some e) closed)
       ∧ (∀ e info, copyErr = None → fi = Ok info → closeErr = Some e →
          answer (StatusMethodNotAllowed, Some e) closed)
       ∧ (∀ e info, copyErr = None → fi = Ok info → closeErr = None →
          findETag d3 (locks w1) reqPath info = Err e →
          answer (StatusInternalServerError, Some e)
            (closed ++ [EvFindETag reqPath]))
       ∧ (∀ etag info, copyErr = None → fi = Ok info → closeErr = None →
          findETag d3 (locks w1) reqPath info = Ok etag →
          answer (StatusCreated, None)
            (closed ++ [EvFindETag reqPath; EvHeaderSet "ETag" etag]))).
Proof.
  intros Hs Hl flags opened after. unfold handlePut. rewrite Hs.
  cbv [mbind M2_bind lift defer2]. rewrite Hl. cbn [base writer journal].
  split.
  - intros e d HO. run2. fold flags. rewrite HO. run2.
    unfold after, opened. destruct release as [f|]; cbn [call];
      [destruct (f _) as [[] w2]|run2]; reflexivity.
  - intros f d copyErr d1 fi d2 closeErr d3 HO HC HS HX.
    unfold opened, after.
    run2. fold flags. rewrite HO. run2. rewrite HC. run2. rewrite HS. run2.
    rewrite HX. run2. split; [|split; [|split; [|split]]].
    + intros e ->. run2. rewrite <- !app_assoc.
      destruct release as [g|]; cbn [call];
        [destruct (g _) as [[] w2]|run2]; reflexivity.
    + intros e -> ->. run2. rewrite <- !app_assoc.
      destruct release as [g|]; cbn [call];
        [destruct (g _) as [[] w2]|run2]; reflexivity.
    + intros e info -> -> ->. run2. rewrite <- !app_assoc.
      destruct release as [g|]; cbn [call];
        [destruct (g _) as [[] w2]|run2]; reflexivity.
    + intros e info -> -> -> HE. run2. rewrite HE. run2.
      rewrite <- !app_assoc.
      destruct release as [g|]; cbn [call];
        [destruct (g _) as [[] w2]|run2]; reflexivity.
    + intros etag info -> -> -> HE. run2. rewrite HE. run2.
      rewrite <- !app_assoc.
      destruct release as [g|]; cbn [call];
        [destruct (g _) as [[] w2]|run2]; reflexivity.
Qed.

(** X16.  A PROPPATCH on an existing resource whose locks are confirmed
    reads the patches from the body; when the body does not parse, the
    status and the error of ReadProppatch are returned and the property
    engine is not called.  A failing [patch] is answered 500 and nothing
    is written.  When [patch] succeeds, a fresh multistatus writer gets
    one response, built from the unstripped URL path of the request, and
    is then closed whether or not the write failed; the answer is 500 with
    the write error, else 500 with the close error, else status 0 with no
    error.  On each of these paths the release closure runs last. *)
Theorem handleProppatch_outcome (this : Handler) (r : http.Request)
    (s : @Site LS FS Property Proppatch MSW) (reqPath : string)
    (release : option (M unit)) (status : Z) (w1 : @World LS FS)
    (fi : FileInfo) (d : FS) :
  stripPrefix this (url.Path (http.URL r)) = (reqPath, StatusOK, None) →
  confirmLocks this r reqPath "" (base s) = ((release, status, None), w1) →
  Stat reqPath (files w1) = (Ok fi, d) →
  let stated := trace w1 ++ [EvStat reqPath] in
  let after (d : FS) :=
    snd (call release
           {| locks := locks w1; files := d; ticks := ticks w1;
              trace := stated |}) in
  (∀ patches st e,
     ReadProppatch (http.Body r) = (patches, st, Some e) →
     handleProppatch this r s
     = ((st, Some e),
        {| base := after d; writer := writer s; journal := journal s |}))
  ∧ (∀ patches st e d',
       ReadProppatch (http.Body r) = (patches, st, None) →
       patch reqPath patches (locks w1) d = (Err e, d') →
       handleProppatch this r s
       = ((StatusInternalServerError, Some e),
          {| base := after d'; writer := writer s;
             journal := journal s ++
                        [(length stated, CallPatch reqPath patches)] |}))
  ∧ (∀ patches st pstats d' writeErr m1 closeErr m2,
       ReadProppatch (http.Body r) = (patches, st, None) →
       patch reqPath patches (locks w1) d = (Ok pstats, d') →
       MultiStatusWriter_Write
         (makePropstatResponse (url.Path (http.URL r)) pstats)
         MultiStatusWriter_new = (writeErr, m1) →
       MultiStatusWriter_Close m1 = (closeErr, m2) →
       handleProppatch this r s
       = (match writeErr, closeErr with
          | Some e, _ => (StatusInternalServerError, Some e)
          | None, Some e => (StatusInternalServerError, Some e)
          | None, None => (0, None)
          end,
          {| base := after d'; writer := m2;
             journal := journal s ++
                        [(length stated, CallPatch reqPath patches);
                         (length stated,
                          CallMultiStatusWrite
                            (makePropstatResponse (url.Path (http.URL r))
                               pstats));
                         (length stated, CallMultiStatusClose)] |})).
Proof.
  intros Hs Hl HS stated after. unfold handleProppatch. rewrite Hs.
  cbv [mbind M2_bind lift defer2]. rewrite Hl. cbn [base writer journal].
  unfold after, stated. split; [|split].
  - intros patches st e HR. run2. rewrite HS. run2. rewrite HR. run2.
    destruct release as [g|]; cbn [call];
      [destruct (g _) as [[] w2]|run2]; reflexivity.
  - intros patches st e d' HR HP. run2. rewrite HS. run2. rewrite HR. run2.
    rewrite HP. run2.
    destruct release as [g|]; cbn [call];
      [destruct (g _) as [[] w2]|run2]; reflexivity.
  - intros patches st pstats d' writeErr m1 closeErr m2 HR HP HW HC.
    run2. rewrite HS. run2. rewrite HR. run2. rewrite HP. run2.
    rewrite HW. run2. rewrite HC. run2. rewrite <- !app_assoc. cbn [app].
    destruct writeErr as [e|], closeErr as [e'|]; run2;
      (destruct release as [g|]; cbn [call];
       [destruct (g _) as [[] w2]|run2]; reflexivity).
Qed.

(** X17.  [handlePropfind] confirms no lock and, before the walk, touches
    only the file system, with one Stat.  A failing Stat is answered 404
    for a not-exist error and 405 for any other, before the Depth header is
    looked at; a Depth header that is present and not one of 0, 1 and
    infinity is answered 400 with errInvalidDepth, before the body is
    read; a body that does not parse is answered with the status and the
    error of ReadPropfind.  In each case no multistatus writer is made and
    nothing is walked. *)
Theorem handlePropfind_preamble (this : Handler) (request : http.Request)
    (s : @Site LS FS Property Proppatch MSW) (reqPath : string) :
  stripPrefix this (url.Path (http.URL request)) = (reqPath, StatusOK, None) →
  let hdr := http.Get (http.Header request) "Depth" in
  let stated (d : FS) :=
    {| base := {| locks := locks (base s); files := d;
                  ticks := ticks (base s);
                  trace := trace (base s) ++ [EvStat reqPath] |};
       writer := writer s; journal := journal s |} in
  (∀ e d, Stat reqPath (files (base s)) = (Err e, d) →
     handlePropfind this request s
     = ((if os_IsNotExist e then StatusNotFound
         else StatusMethodNotAllowed, Some e), stated d))
  ∧ (∀ fi d, Stat reqPath (files (base s)) = (Ok fi, d) →
       hdr ≠ "" → hdr ≠ "0" → hdr ≠ "1" → hdr ≠ "infinity" →
       handlePropfind this request s
       = ((StatusBadRequest, Some errInvalidDepth), stated d))
  ∧ (∀ fi d pf st e, Stat reqPath (files (base s)) = (Ok fi, d) →
       hdr = "" ∨ hdr = "0" ∨ hdr = "1" ∨ hdr = "infinity" →
       ReadPropfind (http.Body request) = (pf, st, Some e) →
       handlePropfind this request s = ((st, Some e), stated d)).
Proof.
  intros Hs hdr stated. unfold handlePropfind. rewrite Hs.
  fold hdr. unfold stated. split; [|split].
  - intros e d HS. run2. rewrite HS. run2.
    destruct (os_IsNotExist e); reflexivity.
  - intros fi d HS H H0 H1 Hi. run2. rewrite HS. run2.
    assert (Hp : parseDepth hdr = invalidDepth).
    { unfold parseDepth. repeat case_decide; congruence. }
    rewrite Hp.
    destruct (decide (hdr ≠ "")) as [_|Hn]; [|by destruct Hn].
    destruct (decide (hdr ≠ "" ∧ invalidDepth = invalidDepth)) as [_|Hn];
      [reflexivity|by destruct Hn].
  - intros fi d pf st e HS Hh HR. run2. rewrite HS. run2.
    destruct (decide (hdr ≠ "" ∧ _)) as [[Hne Hinv]|_].
    + exfalso. destruct (decide (hdr ≠ "")) as [_|Hn]; [|by destruct Hn].
      destruct Hh as [->|[->|[->| ->]]]; [done|..]; vm_compute in Hinv;
        discriminate.
    + rewrite HR. reflexivity.
Qed.

(** X18.  Once Stat has succeeded, the Depth header is acceptable and the
    body parses, [handlePropfind] walks the tree from the stripped path
    with a fresh multistatus writer, to the depth of the header, or to
    infinite depth when there is none, and then closes the writer whether
    or not the walk failed.  The answer is 500 with the error of the walk,
    else 500 with the error of the close, else status 0 with no error. *)
Theorem handlePropfind_walk (this : Handler) (request : http.Request)
    (s : @Site LS FS Property Proppatch MSW) (reqPath : string)
    (fi : FileInfo) (d : FS) (pf : PropfindRequest) (st : Z) :
  stripPrefix this (url.Path (http.URL request)) = (reqPath, StatusOK, None) →
  Stat reqPath (files (base s)) = (Ok fi, d) →
  ReadPropfind (http.Body request) = (pf, st, None) →
  let hdr := http.Get (http.Header request) "Depth" in
  hdr = "" ∨ hdr = "0" ∨ hdr = "1" ∨ hdr = "infinity" →
  let depth :=
    if decide (hdr = "") then infiniteDepth
    else if decide (hdr = "0") then 0
    else if decide (hdr = "1") then 1 else infiniteDepth in
  let stated := trace (base s) ++ [EvStat reqPath] in
  let s1 : @Site LS FS Property Proppatch MSW :=
    {| base := {| locks := locks (base s); files := d;
                  ticks := ticks (base s); trace := stated |};
       writer := MultiStatusWriter_new;
       journal := journal s ++
                  [(length stated, CallWalkFS depth reqPath fi)] |} in
  ∀ walkErr s2 closeErr m,
    walkFS depth reqPath fi (handlePropfind_walkFn this pf) s1
    = (walkErr, s2) →
    MultiStatusWriter_Close (writer s2) = (closeErr, m) →
    handlePropfind this request s
    = (match walkErr, closeErr with
       | Some e, _ => (StatusInternalServerError, Some e)
       | None, Some e => (StatusInternalServerError, Some e)
       | None, None => (0, None)
       end,
       {| base := base s2; writer := m;
          journal := journal s2 ++
                     [(length (trace (base s2)), CallMultiStatusClose)] |}).
Proof.
  intros Hs HS HR hdr Hh depth stated s1 walkErr s2 closeErr m HW HC.
  unfold handlePropfind. rewrite Hs. fold hdr. run2. rewrite HS. run2.
  assert (Hd : (if decide (hdr ≠ "") then parseDepth hdr else infiniteDepth)
               = depth ∧ depth ≠ invalidDepth).
  { unfold depth, parseDepth.
    destruct Hh as [->|[->|[->| ->]]]; vm_compute; split; congruence. }
  destruct Hd as [Hd Hv]. rewrite Hd.
  destruct (decide (hdr ≠ "" ∧ depth = invalidDepth)) as [[_ Hi]|_];
    [done|].
  rewrite HR. run2. fold stated. fold s1. rewrite HW. rewrite HC.
  destruct walkErr as [e|], closeErr as [e'|]; reflexivity.
Qed.

(** X19.  The walk function of [handlePropfind].  An error of the walk is
    handed back at once, with nothing printed, asked or written.  For a
    resource, the function prints it and then asks the property engine
    once: for the names when the body has propname, even if it also has
    allprop; else for all properties when it has allprop; else for the
    properties of the body.  An error of the engine is returned and
    nothing is written.  Otherwise one response is written and the result
    of the write is returned; its href is the handler's prefix joined with
    the walked path, with a slash appended for a directory; in the
    propname case it carries one propstat of status 200 with one property
    per name, in the order of the names. *)
Theorem handlePropfind_walkFn_outcome (this : Handler) (pf : PropfindRequest)
    (reqPath : string) (s : @Site LS FS Property Proppatch MSW) :
  (∀ e, handlePropfind_walkFn this pf reqPath (Err e) s = (Some e, s))
  ∧ (∀ info,
       let at_ := length (trace (base s)) in
       let href :=
         if IsDir info then path_Join (Prefix this) reqPath +:+ "/"
         else path_Join (Prefix this) reqPath in
       let asked (d : FS) : @World LS FS :=
         {| locks := locks (base s); files := d; ticks := ticks (base s);
            trace := trace (base s) |} in
       let failed c e d :=
         handlePropfind_walkFn this pf reqPath (Ok info) s
         = (Some e,
            {| base := asked d; writer := writer s;
               journal := journal s ++
                          [(at_, CallPrintf reqPath info); (at_, c)] |}) in
       let written c pstats d :=
         ∀ writeErr m,
           MultiStatusWriter_Write (makePropstatResponse href pstats)
             (writer s) = (writeErr, m) →
           handlePropfind_walkFn this pf reqPath (Ok info) s
           = (writeErr,
              {| base := asked d; writer := m;
                 journal := journal s ++
                            [(at_, CallPrintf reqPath info); (at_, c);
                             (at_, CallMultiStatusWrite
                                     (makePropstatResponse href pstats))] |})
       in
       let outcome c (res : result (list (Propstat.t Property))) d :=
         match res with
         | Err e => failed c e d
         | Ok pstats => written c pstats d
         end in
       (pf_Propname pf = true →
        ∀ res d,
          Propnames reqPath (locks (base s)) (files (base s)) = (res, d) →
          outcome (CallPropnames reqPath)
            (match res with
             | Err e => Err e
             | Ok pnames =>
                 Ok [ {| Propstat.Status := StatusOK;
                         Propstat.Props := List.map Property_XMLName pnames;
                         Propstat.XMLError := "";
                         Propstat.ResponseDescription := "" |} ]
             end) d)
       ∧ (pf_Propname pf = false → pf_Allprop pf = true →
          ∀ res d,
            allprop reqPath (pf_Prop pf) (locks (base s)) (files (base s))
            = (res, d) →
            outcome (CallAllprop reqPath (pf_Prop pf)) res d)
       ∧ (pf_Propname pf = false → pf_Allprop pf = false →
          ∀ res d,
            props reqPath (pf_Prop pf) (locks (base s)) (files (base s))
            = (res, d) →
            outcome (CallProps reqPath (pf_Prop pf)) res d)).
Proof.
  split; [reflexivity|].
  intros info at_ href asked failed written outcome.
  unfold outcome, failed, written, asked, href, at_.
  unfold handlePropfind_walkFn. split; [|split].
  - intros -> res d HE. run2. rewrite HE. run2.
    destruct res as [pnames|e]; run2.
    + intros writeErr m HW. rewrite <- !app_assoc. cbn [app].
      destruct (IsDir info); rewrite HW; reflexivity.
    + rewrite <- !app_assoc. reflexivity.
  - intros -> -> res d HE. run2. rewrite HE. run2.
    destruct res as [pstats|e]; run2.
    + intros writeErr m HW. rewrite <- !app_assoc. cbn [app].
      destruct (IsDir info); rewrite HW; reflexivity.
    + rewrite <- !app_assoc. reflexivity.
  - intros -> -> res d HE. run2. rewrite HE. run2.
    destruct res as [pstats|e]; run2.
    + intros writeErr m HW. rewrite <- !app_assoc. cbn [app].
      destruct (IsDir info); rewrite HW; reflexivity.
    + rewrite <- !app_assoc. reflexivity.
Qed.

(** X20.  [makePropstatResponse] gives a response with one href, the
    escaped form of its argument, and one entry per propstat, in the order
    given.  An entry keeps the properties and the description of its
    propstat; it carries an error element exactly when the XML error of
    the propstat is not empty, and then with that text; and its status
    line for the codes 207, 422, 423, 424 and 507, which the standard
    library does not name, is the WebDAV one. *)
Theorem makePropstatResponse_entries (href : string)
    (pstats : list (Propstat.t Property)) :
  let resp := makePropstatResponse href pstats in
  Response.Href resp = [url_EscapedPath href]
  ∧ length (Response.Propstat_ resp) = length pstats
  ∧ ∀ (i : nat) p, pstats !! i = Some p →
      ∃ sp, Response.Propstat_ resp !! i = Some sp
        ∧ SubPropstat.Prop_ sp = Propstat.Props p
        ∧ SubPropstat.ResponseDescription sp = Propstat.ResponseDescription p
        ∧ (SubPropstat.Error sp = None ↔ Propstat.XMLError p = "")
        ∧ (∀ x, SubPropstat.Error sp = Some x →
             XmlError.InnerXML x = Propstat.XMLError p)
        ∧ (Propstat.Status p = 207 →
             SubPropstat.Status sp = "HTTP/1.1 207 Multi-Status")
        ∧ (Propstat.Status p = 422 →
             SubPropstat.Status sp = "HTTP/1.1 422 Unprocessable Entity")
        ∧ (Propstat.Status p = 423 →
             SubPropstat.Status sp = "HTTP/1.1 423 Locked")
        ∧ (Propstat.Status p = 424 →
             SubPropstat.Status sp = "HTTP/1.1 424 Failed Dependency")
        ∧ (Propstat.Status p = 507 →
             SubPropstat.Status sp = "HTTP/1.1 507 Insufficient Storage").
Proof.
  intros resp. unfold resp, makePropstatResponse. cbn.
  split; [reflexivity|]. split; [apply List.length_map|].
  intros i p Hp. eexists. split.
  { rewrite list_lookup_fmap, Hp. reflexivity. }
  cbn. split; [reflexivity|]. split; [reflexivity|].
  split.
  { case_decide as Hx; split.
    - discriminate.
    - intros Hq. by destruct Hx.
    - intros _. destruct (decide (Propstat.XMLError p = "")) as [Hq|Hq];
        [exact Hq|by destruct Hx].
    - reflexivity. }
  split.
  { intros x. case_decide; [|discriminate]. intros [= <-]. reflexivity. }
  repeat split; intros ->; reflexivity.
Qed.

(** X21.  A handler without a file system, or with one and without a lock
    system, answers every request 500 whatever its method: no handler
    runs, the lock store and the file system are untouched, the header 500
    is written and then the text of the standard library for 500 as the
    body, and the logger, if there is one, is called last, with
    errNoFileSystem when the file system is missing and errNoLockSystem
    otherwise. *)
Theorem ServeHTTP_unconfigured (this : Handler) (fields : Fields)
    (r : http.Request) (s : @Site LS FS Property Proppatch MSW) :
  FileSystem_set fields = false ∨ LockSystem_set fields = false →
  let tr := trace (base s) ++ [EvWriteHeader StatusInternalServerError] in
  let err :=
    if FileSystem_set fields then errNoLockSystem else errNoFileSystem in
  ServeHTTP this fields r s
  = (tt,
     {| base := {| locks := locks (base s); files := files (base s);
                   ticks := ticks (base s); trace := tr |};
        writer := writer s;
        journal := journal s ++
                   (length tr,
                    CallWrite (http_StatusText StatusInternalServerError))
                   :: (if Logger_set fields
                       then [(length tr, CallLogger (Some err))]
                       else []) |}).
Proof.
  intros Hf tr err. unfold ServeHTTP, err, tr.
  assert (Hpre : negb (FileSystem_set fields) = true
                 ∨ (negb (FileSystem_set fields) = false
                    ∧ negb (LockSystem_set fields) = true)).
  { destruct (FileSystem_set fields); [right|by left].
    destruct Hf as [Hf| ->]; [discriminate|done]. }
  destruct Hpre as [H1|[H1 H2]]; rewrite H1, ?H2; run2;
    (replace (FileSystem_set fields)
       with (negb (negb (FileSystem_set fields)))
       by apply negb_involutive);
    rewrite H1; cbn [negb];
    rewrite decide_True by done; run2;
    rewrite decide_True by done; run2;
    unfold StatusText; rewrite !decide_False by done;
    destruct (Logger_set fields); run2; rewrite <- ?app_assoc;
    reflexivity.
Qed.

(** X22.  A handler with a file system and a lock system answers a
    request by the step its method has in the routing table, and then
    writes the answer.  With status 0 it writes nothing, the handler
    having written the response itself; with status 204 it writes the
    header alone; with any other status it writes the header and then the
    status text as the body.  The logger, if there is one, is called last,
    once, with the error of the step. *)
Theorem ServeHTTP_routes (this : Handler) (fields : Fields)
    (r : http.Request) (s s1 : @Site LS FS Property Proppatch MSW)
    (h : @M2 LS FS Property Proppatch MSW (Z * option error))
    (status : Z) (err : option error) :
  FileSystem_set fields = true →
  LockSystem_set fields = true →
  route this r (http.Method r) h →
  h s = ((status, err), s1) →
  let tr :=
    trace (base s1) ++
    (if decide (status = 0) then [] else [EvWriteHeader status]) in
  ServeHTTP this fields r s
  = (tt,
     {| base := {| locks := locks (base s1); files := files (base s1);
                   ticks := ticks (base s1); trace := tr |};
        writer := writer s1;
        journal := journal s1 ++
                   (if decide (status = 0 ∨ status = StatusNoContent)
                    then []
                    else [(length tr, CallWrite (StatusText status))]) ++
                   (if Logger_set fields
                    then [(length tr, CallLogger err)] else []) |}).
Proof.
  intros HF HL Hr Hh tr. unfold ServeHTTP. rewrite HF, HL. cbn [negb].
  cbv zeta.
  match goal with
  | |- mbind _ ?d _ = _ => assert (Hpre : d = h)
  end.
  { inversion Hr as [| | | | | | | | | | | | |m Hm]; subst;
      try (repeat first
             [rewrite decide_True
                by first [reflexivity|left; reflexivity
                         |right; left; reflexivity
                         |right; reflexivity
                         |right; right; reflexivity]
             |rewrite decide_False
                by first [discriminate
                         |intros [?|[?|?]]; discriminate
                         |intros [?|?]; discriminate]];
           reflexivity).
    rewrite !not_elem_of_cons in Hm.
    destruct Hm as (? & ? & ? & ? & ? & ? & ? & ? & ? & ? & ? & ? & ? & _).
    repeat rewrite decide_False
      by first [assumption
               |intros [?|[?|?]]; contradiction
               |intros [?|?]; contradiction].
    reflexivity. }
  rewrite Hpre. cbv [mbind M2_bind]. rewrite Hh.
  unfold tr. destruct s1 as [[l f t tr1] wr j]. cbn [base writer journal
    locks files ticks trace].
  destruct (decide (status = 0)) as [->|Hn].
  - rewrite decide_False by (intros Hx; by apply Hx).
    rewrite decide_True by (by left).
    run2. cbn. rewrite !app_nil_r.
    destruct (Logger_set fields); run2; rewrite ?app_nil_r; reflexivity.
  - rewrite decide_True by done. run2.
    destruct (decide (status = StatusNoContent)) as [->|Hc].
    + rewrite decide_False by (intros Hx; by apply Hx).
      rewrite decide_True by (by right). run2. cbn [app].
      destruct (Logger_set fields); run2; rewrite ?app_nil_r; reflexivity.
    + rewrite decide_True by done.
      rewrite decide_False by (intros [?|?]; done). run2.
      destruct (Logger_set fields); run2; rewrite <- ?app_assoc;
        rewrite ?app_nil_r; reflexivity.
Qed.

End rest_proofs.

(** * The handlers on the sample collaborators *)

Import Sample.

(** The failing input of C1: a MOVE and a COPY from [/a] to [/b] with no
    Overwrite header.  MOVE hands the engine overwrite = false, COPY hands
    it overwrite = true. *)
Lemma handleCopyMove_overwrite_flag_witness :
  copyMoveTarget (package := pkg) handler moveRequest "/a" "/b"
  ∧ http.Get (http.Header moveRequest) "Depth" = ""
  ∧ http.Get (http.Header moveRequest) "Overwrite" = ""
  ∧ http.Method moveRequest = "MOVE"
  ∧ trace (snd (handleCopyMove (package := pkg) handler moveRequest
                  (world emptyStore diskA)))
    = [EvCreate 1000 (temporaryLock (package := pkg) "/a");
       EvCreate 1000 (temporaryLock (package := pkg) "/b");
       EvMoveFiles "/a" "/b" false;
       EvUnlock 1000 "urn:lock'"; EvUnlock 1000 "urn:lock"]
  ∧ trace (snd (handleCopyMove (package := pkg) handler copyRequest
                  (world emptyStore diskA)))
    = [EvCreate 1000 (temporaryLock (package := pkg) "/b");
       EvCopyFiles "/a" "/b" true infiniteDepth 0;
       EvUnlock 1000 "urn:lock"].
Proof.
  assert (Hpre : copyMoveTarget (package := pkg) handler moveRequest
                   "/a" "/b").
  { split; [vm_compute; discriminate|].
    exists {| url.Host := "dav.example"; url.Path := "/dav/b" |}.
    repeat split; try (vm_compute; reflexivity); discriminate. }
  assert (Hd : http.Get (http.Header moveRequest) "Depth" = "")
    by (vm_compute; reflexivity).
  assert (Ho : http.Get (http.Header moveRequest) "Overwrite" = "")
    by (vm_compute; reflexivity).
  assert (Hm : http.Method moveRequest = "MOVE") by reflexivity.
  split; [exact Hpre|]. split; [exact Hd|]. split; [exact Ho|].
  split; [exact Hm|].
  destruct (confirmLocks (package := pkg) handler moveRequest "/a" "/b"
              (world emptyStore diskA)) as [[[release status] err] w1] eqn:HL.
  assert (Herr : err = None).
  { change err with (snd (fst (release, status, err, w1))). rewrite <- HL.
    vm_compute. reflexivity. }
  subst err.
  destruct (handleCopyMove_overwrite_flag (package := pkg) handler
              moveRequest "/a" "/b" release status (world emptyStore diskA)
              w1 Hpre Hd) as (_ & Hmove & _).
  split.
  - rewrite (Hmove Hm HL), Ho.
    assert (Hw1 : (release, status, None, w1)
                  = confirmLocks (package := pkg) handler moveRequest
                      "/a" "/b" (world emptyStore diskA))
      by (symmetry; exact HL).
    injection Hw1 as -> -> ->. vm_compute. reflexivity.
  - vm_compute. reflexivity.
Defined.

(** C10, as stated, fails: a GET on a regular file whose ETag cannot be
    computed is answered 500, after OpenFile and Stat have succeeded. *)
Lemma handleGetHeadPost_etag_failure :
  fst (handleGetHeadPost (package := pkgNoETag) handler getRequest
         (world emptyStore diskA))
  = (StatusInternalServerError, Some (errorString "etag: not available"))
  ∧ StatusInternalServerError ≠ StatusNotFound
  ∧ StatusInternalServerError ≠ StatusMethodNotAllowed.
Proof. vm_compute. done. Qed.

(** The amended statement at that GET: the 500 is the failure of findETag
    on the opened regular file. *)
Lemma handleGetHeadPost_status_witness :
  stripPrefix handler (url.Path (http.URL getRequest))
  = ("/a", StatusOK, None)
  ∧ fst (fst (handleGetHeadPost (package := pkgNoETag) handler getRequest
                (world emptyStore diskA))) = StatusInternalServerError
  ∧ ∃ f d fi d' e,
      OpenFile "/a" O_RDONLY 0 diskA = (Ok f, d) ∧
      File_Stat f d = (Ok fi, d') ∧ IsDir fi = false ∧
      findETag (Package := pkgNoETag) d' emptyStore "/a" fi = Err e ∧
      snd (fst (handleGetHeadPost (package := pkgNoETag) handler getRequest
                  (world emptyStore diskA))) = Some e.
Proof.
  assert (Hs : stripPrefix handler (url.Path (http.URL getRequest))
               = ("/a", StatusOK, None)) by (vm_compute; reflexivity).
  assert (H500 : fst (fst (handleGetHeadPost (package := pkgNoETag) handler
                             getRequest (world emptyStore diskA)))
                 = StatusInternalServerError) by (vm_compute; reflexivity).
  split; [exact Hs|]. split; [exact H500|].
  destruct (handleGetHeadPost_status (package := pkgNoETag) handler
              getRequest (world emptyStore diskA)) as [H _].
  destruct (H "/a" Hs) as (_ & _ & _ & H4).
  exact (H4 H500).
Defined.

(** An UNLOCK with the token of a held lock: 204. *)
Lemma handleUnlock_status_witness :
  http.Get (http.Header unlockRequest) "Lock-Token" = "<" +:+ "urn:lock" +:+ ">"
  ∧ Unlock 1000 "urn:lock" heldStore
    = (None, {| gen := 1; byToken := []; down := false |})
  ∧ fst (handleUnlock (package := pkg) handler unlockRequest
           (world heldStore emptyDisk)) = (StatusNoContent, None).
Proof.
  assert (Ht : http.Get (http.Header unlockRequest) "Lock-Token"
               = "<" +:+ "urn:lock" +:+ ">") by (vm_compute; reflexivity).
  assert (HU : Unlock 1000 "urn:lock" heldStore
               = (None, {| gen := 1; byToken := []; down := false |}))
    by (vm_compute; reflexivity).
  split; [exact Ht|]. split; [exact HU|].
  destruct (handleUnlock_status (package := pkg) handler unlockRequest
              (world heldStore emptyDisk)) as [_ H].
  destruct (H "urn:lock" None _ Ht HU) as (status & Hrun & H204 & _).
  rewrite Hrun, (H204 eq_refl). reflexivity.
Defined.

(** A MOVE from [/a] to [/b] while another client holds a lock on [/b]:
    the temporary lock on [/a] is taken, the one on [/b] is refused, the
    one on [/a] is given back, and the store holds the locks it held
    before. *)
Lemma confirmLocks_temporary_locks_witness :
  http.Get (http.Header moveRequest) "If" = ""
  ∧ fst (confirmLocks (package := pkg) handler moveRequest "/a" "/b"
           (world heldStore emptyDisk))
    = (None, StatusLocked, Some ErrLocked)
  ∧ trace (snd (confirmLocks (package := pkg) handler moveRequest "/a" "/b"
                  (world heldStore emptyDisk)))
    = [EvCreate 1000 (temporaryLock (package := pkg) "/a");
       EvCreate 1000 (temporaryLock (package := pkg) "/b");
       EvUnlock 1000 "urn:lock'"]
  ∧ byToken (locks (snd (confirmLocks (package := pkg) handler moveRequest
                           "/a" "/b" (world heldStore emptyDisk))))
    = byToken heldStore.
Proof.
  assert (HIf : http.Get (http.Header moveRequest) "If" = "")
    by (vm_compute; reflexivity).
  split; [exact HIf|].
  destruct (confirmLocks_temporary_locks (package := pkg) handler moveRequest
              "/a" "/b" (world heldStore emptyDisk) HIf) as (_ & H & _).
  assert (Hsrc : Create (wallclock (Package := pkg) 0)
                   (temporaryLock (package := pkg) "/a") heldStore
                 = (Ok "urn:lock'",
                    {| gen := 2;
                       byToken := ("urn:lock'",
                                   temporaryLock (package := pkg) "/a")
                                  :: byToken heldStore;
                       down := false |}))
    by (vm_compute; reflexivity).
  assert (Hdst : Create (wallclock (Package := pkg) 0)
                   (temporaryLock (package := pkg) "/b")
                   {| gen := 2;
                      byToken := ("urn:lock'",
                                  temporaryLock (package := pkg) "/a")
                                 :: byToken heldStore;
                      down := false |}
                 = (Err ErrLocked,
                    {| gen := 2;
                       byToken := ("urn:lock'",
                                   temporaryLock (package := pkg) "/a")
                                  :: byToken heldStore;
                       down := false |}))
    by (vm_compute; reflexivity).
  assert (Ha : "/a" ≠ "") by discriminate.
  assert (Hb : "/b" ≠ "") by discriminate.
  assert (Ht : "urn:lock'" ≠ "") by discriminate.
  rewrite (H Ha Hb _ _ _ _ Hsrc Ht Hdst).
  vm_compute. done.
Defined.

(** An If header of two lists with tokens the store does not hold: both
    lists are tried, in order, and the answer is 412. *)
Lemma confirmLocks_if_header_witness :
  http.Get (http.Header staleRequest) "If" ≠ ""
  ∧ parseIfHeader (Package := pkg) (http.Get (http.Header staleRequest) "If")
    = Some {| lists := [ {| resourceTag := "";
                            conditions := [tokenCondition "urn:stale"] |};
                         {| resourceTag := "";
                            conditions := [tokenCondition "urn:gone"] |} ] |}
  ∧ fst (confirmLocks (package := pkg) handler staleRequest "/a" ""
           (world heldStore emptyDisk))
    = (None, StatusPreconditionFailed, Some ErrLocked)
  ∧ trace (snd (confirmLocks (package := pkg) handler staleRequest "/a" ""
                  (world heldStore emptyDisk)))
    = [EvConfirm 1000 "/a" "" [tokenCondition "urn:stale"];
       EvConfirm 1001 "/a" "" [tokenCondition "urn:gone"]].
Proof.
  assert (Hne : http.Get (http.Header staleRequest) "If" ≠ "")
    by (vm_compute; discriminate).
  assert (Hih : parseIfHeader (Package := pkg)
                  (http.Get (http.Header staleRequest) "If")
                = Some {| lists :=
                     [ {| resourceTag := "";
                          conditions := [tokenCondition "urn:stale"] |};
                       {| resourceTag := "";
                          conditions := [tokenCondition "urn:gone"] |} ] |})
    by (vm_compute; reflexivity).
  split; [exact Hne|]. split; [exact Hih|].
  destruct (confirmLocks_if_header (package := pkg) handler staleRequest
              "/a" "" (world heldStore emptyDisk) _ Hne Hih)
    as (_ & _ & _ & H).
  rewrite (H {| locks := heldStore; files := emptyDisk; ticks := 2;
                trace := [EvConfirm 1000 "/a" "" [tokenCondition "urn:stale"];
                          EvConfirm 1001 "/a" ""
                            [tokenCondition "urn:gone"]] |}).
  - split; reflexivity.
  - right. exists "/a", heldStore. split; [by left|].
    split; [vm_compute; reflexivity|].
    right. exists "/a", heldStore. split; [by left|].
    split; [vm_compute; reflexivity|]. reflexivity.
Defined.

(** An If header whose first list is tagged with a URL on the request's
    host and outside the prefix: 404 at once, the second list is not
    tried. *)
Lemma confirmLocks_resource_tag_witness :
  resourceTag {| resourceTag := "http://dav.example/other/x";
                 conditions := [tokenCondition "urn:lock"] |} ≠ ""
  ∧ confirmLocks (package := pkg) handler taggedRequest "/a" ""
      (world heldStore emptyDisk)
    = ((None, StatusNotFound, Some errPrefixMismatch),
       world heldStore emptyDisk).
Proof.
  assert (Htag : resourceTag {| resourceTag := "http://dav.example/other/x";
                                conditions := [tokenCondition "urn:lock"] |}
                 ≠ "") by discriminate.
  split; [exact Htag|].
  destruct (confirmLocks_resource_tag (package := pkg) handler taggedRequest
              "/a" ""
              {| resourceTag := "http://dav.example/other/x";
                 conditions := [tokenCondition "urn:lock"] |}
              [ {| resourceTag := "";
                   conditions := [tokenCondition "urn:lock"] |} ]
              (world heldStore emptyDisk) Htag) as (_ & _ & H).
  destruct (H {| url.Host := "dav.example"; url.Path := "/other/x" |})
    as [_ Hrun].
  - vm_compute. reflexivity.
  - reflexivity.
  - vm_compute. discriminate.
  - apply (Hrun {| lists :=
        [ {| resourceTag := "http://dav.example/other/x";
             conditions := [tokenCondition "urn:lock"] |};
          {| resourceTag := "";
             conditions := [tokenCondition "urn:lock"] |} ] |}).
    + vm_compute. discriminate.
    + vm_compute. reflexivity.
    + reflexivity.
Defined.

(** A LOCK on a missing resource of a read-only disk: the lock is
    created, the null resource cannot be, and the lock is given back. *)
Lemma handleLock_rollback_witness :
  lockCreate (package := pkg) handler lockRequest
    {| Root := "/a"; Duration := -1; OwnerXML := "<owner/>";
       ZeroDepth := false |}
  ∧ fst (handleLock (package := pkg) handler lockRequest
           (world emptyStore readOnlyEmptyDisk))
    = (StatusInternalServerError, Some readOnlyDisk)
  ∧ byToken (locks (snd (handleLock (package := pkg) handler lockRequest
                           (world emptyStore readOnlyEmptyDisk)))) = []
  ∧ last (trace (snd (handleLock (package := pkg) handler lockRequest
                        (world emptyStore readOnlyEmptyDisk))))
    = Some (EvUnlock 1000 "urn:lock").
Proof.
  assert (Hreq : lockCreate (package := pkg) handler lockRequest
            {| Root := "/a"; Duration := -1; OwnerXML := "<owner/>";
               ZeroDepth := false |}).
  { exists (-1),
      {| Exclusive := true; Shared := false; Write := true;
         Owner := {| InnerXML := "<owner/>" |} |}, 0, "/a".
    split; [vm_compute; reflexivity|]. split; [vm_compute; reflexivity|].
    split; [discriminate|]. cbv zeta.
    split; [intros [H _]; apply H; vm_compute; reflexivity|].
    split; vm_compute; reflexivity. }
  split; [exact Hreq|].
  assert (HC : Create (wallclock (Package := pkg) 0)
                 {| Root := "/a"; Duration := -1; OwnerXML := "<owner/>";
                    ZeroDepth := false |} emptyStore
               = (Ok "urn:lock",
                  {| gen := 1;
                     byToken := [("urn:lock",
                                  {| Root := "/a"; Duration := -1;
                                     OwnerXML := "<owner/>";
                                     ZeroDepth := false |})];
                     down := false |}))
    by (vm_compute; reflexivity).
  destruct (handleLock_rollback (package := pkg) handler lockRequest
              (world emptyStore readOnlyEmptyDisk) _ _ _ Hreq HC)
    as (Hroll & _ & _).
  destruct (handleLock (package := pkg) handler lockRequest
              (world emptyStore readOnlyEmptyDisk))
    as [[status err] w'] eqn:Hrun.
  assert (Hres : (status, err)
                 = (StatusInternalServerError, Some readOnlyDisk)).
  { change (status, err) with (fst (status, err, w')). rewrite <- Hrun.
    vm_compute. reflexivity. }
  injection Hres as -> ->.
  destruct (Hroll _ _ _ eq_refl) as [Hlocks [tr Htr]].
  split; [reflexivity|]. cbn [snd]. rewrite Hlocks, Htr.
  split; [vm_compute; reflexivity|].
  change (trace (world emptyStore readOnlyEmptyDisk)) with (@nil Event).
  cbn [app]. rewrite app_comm_cons. apply last_snoc.
Defined.

(** A refresh of a held lock. *)
Lemma handleLock_refresh_witness :
  lockRefresh (package := pkg) refreshRequest (-1)
  ∧ handleLock (package := pkg) handler refreshRequest
      (world heldStore emptyDisk)
    = ((0, None),
       {| locks := heldStore; files := emptyDisk; ticks := 1;
          trace :=
            [EvRefresh 1000 "urn:lock" (-1);
             EvHeaderSet "Content-Type" "application/xml; charset=utf-8";
             EvWriteLockInfo "urn:lock"
               {| Root := "/b"; Duration := -1; OwnerXML := "";
                  ZeroDepth := true |}] |}).
Proof.
  assert (Hreq : lockRefresh (package := pkg) refreshRequest (-1)).
  { split; [vm_compute; reflexivity|]. exists 0. vm_compute. reflexivity. }
  split; [exact Hreq|].
  destruct (handleLock_refresh (package := pkg) handler refreshRequest
              (world heldStore emptyDisk) _ Hreq) as (_ & _ & H).
  destruct (H {| lists := [ {| resourceTag := "";
                               conditions := [tokenCondition "urn:lock"] |} ] |}
              {| resourceTag := "";
                 conditions := [tokenCondition "urn:lock"] |}
              (tokenCondition "urn:lock")
              (Ok {| Root := "/b"; Duration := -1; OwnerXML := "";
                     ZeroDepth := true |})
              heldStore) as (_ & _ & Hok).
  - vm_compute. reflexivity.
  - reflexivity.
  - reflexivity.
  - discriminate.
  - vm_compute. reflexivity.
  - rewrite (Hok _ eq_refl). reflexivity.
Defined.

(** A COPY with Depth: 1 is answered 400. *)
Lemma handleCopyMove_depth_witness :
  copyMoveTarget (package := pkg) handler copyDepth1Request "/a" "/b"
  ∧ http.Method copyDepth1Request = "COPY"
  ∧ http.Get (http.Header copyDepth1Request) "Depth" = "1"
  ∧ fst (handleCopyMove (package := pkg) handler copyDepth1Request
           (world emptyStore diskA))
    = (StatusBadRequest, Some errInvalidDepth).
Proof.
  assert (Hpre : copyMoveTarget (package := pkg) handler copyDepth1Request
                   "/a" "/b").
  { split; [vm_compute; discriminate|].
    exists {| url.Host := "dav.example"; url.Path := "/dav/b" |}.
    repeat split; try (vm_compute; reflexivity); discriminate. }
  assert (Hm : http.Method copyDepth1Request = "COPY") by reflexivity.
  assert (Hd : http.Get (http.Header copyDepth1Request) "Depth" = "1")
    by (vm_compute; reflexivity).
  split; [exact Hpre|]. split; [exact Hm|]. split; [exact Hd|].
  destruct (confirmLocks (package := pkg) handler copyDepth1Request "" "/b"
              (world emptyStore diskA)) as [[[release status] err] w1] eqn:HL.
  assert (Herr : err = None).
  { change err with (snd (fst (release, status, err, w1))). rewrite <- HL.
    vm_compute. reflexivity. }
  subst err.
  destruct (handleCopyMove_depth (package := pkg) handler copyDepth1Request
              "/a" "/b" release status (world emptyStore diskA) w1 Hpre)
    as [H _].
  destruct (H Hm HL) as (_ & _ & _ & H400).
  rewrite (H400 (or_introl Hd)). reflexivity.
Defined.

(** A MKCOL of unknown body length reaches Mkdir. *)
Lemma handleMkcol_content_length_witness :
  stripPrefix handler (url.Path (http.URL mkcolRequest))
  = ("/c", StatusOK, None)
  ∧ ¬ http.ContentLength mkcolRequest > 0
  ∧ fst (handleMkcol (package := pkg) handler mkcolRequest
           (world emptyStore emptyDisk)) = (StatusCreated, None)
  ∧ In (EvMkdir "/c" 511)
       (trace (snd (handleMkcol (package := pkg) handler mkcolRequest
                      (world emptyStore emptyDisk)))).
Proof.
  assert (Hs : stripPrefix handler (url.Path (http.URL mkcolRequest))
               = ("/c", StatusOK, None)) by (vm_compute; reflexivity).
  assert (Hlen : ¬ http.ContentLength mkcolRequest > 0)
    by (vm_compute; discriminate).
  split; [exact Hs|]. split; [exact Hlen|].
  destruct (confirmLocks (package := pkg) handler mkcolRequest "/c" ""
              (world emptyStore emptyDisk))
    as [[[release status] err] w1] eqn:HL.
  assert (Herr : err = None).
  { change err with (snd (fst (release, status, err, w1))). rewrite <- HL.
    vm_compute. reflexivity. }
  subst err.
  destruct (handleMkcol_content_length (package := pkg) handler mkcolRequest
              (world emptyStore emptyDisk)) as [_ H].
  destruct (H "/c" release status w1 Hs HL) as [_ Hmk].
  destruct (Mkdir "/c" 511 (files w1)) as [err d] eqn:HM.
  destruct (Hmk Hlen err d eq_refl) as [_ Hin].
  split; [vm_compute; reflexivity|]. exact Hin.
Defined.

(** * The rest of the handler file on the sample collaborators *)

Lemma stripPrefix_inversion_witness :
  stripPrefix Sample.handler "/other/x"
  = ("/other/x", StatusNotFound, Some errPrefixMismatch)
  ∧ ∀ q', "/other/x" ≠ Prefix Sample.handler +:+ q'.
Proof.
  assert (H : stripPrefix Sample.handler "/other/x"
              = ("/other/x", StatusNotFound, Some errPrefixMismatch))
    by (vm_compute; reflexivity).
  split; [exact H|].
  destruct (stripPrefix_inversion _ _ _ _ _ H) as [_ Hf].
  destruct Hf as (_ & _ & _ & _ & Hno); [done|]. exact Hno.
Defined.

Import Sample2.

(** A MKCOL without an If header gets a release closure that is quiet. *)
Lemma confirmLocks_outcome_witness :
  ∃ f, fst (confirmLocks (package := pkg) handler mkcolRequest "/c" ""
              (world emptyStore emptyDisk)) = (Some f, 0, None)
       ∧ quiet f.
Proof.
  pose (c := fst (confirmLocks (package := pkg) handler mkcolRequest "/c" ""
                    (world emptyStore emptyDisk))).
  assert (HL : fst (confirmLocks (package := pkg) handler mkcolRequest "/c"
                      "" (world emptyStore emptyDisk))
               = (fst (fst c), snd (fst c), None))
    by (vm_compute; reflexivity).
  destruct (confirmLocks_outcome (package := pkg) handler mkcolRequest "/c"
              "" (world emptyStore emptyDisk) _ _ _ HL) as [H _].
  destruct (H eq_refl) as (Hst & f & Hf & Hq).
  exists f. split; [|exact Hq]. rewrite HL, Hst, Hf. reflexivity.
Defined.

(** A GET of the file [/a]. *)
Lemma handleGetHeadPost_success_witness :
  stripPrefix handler (url.Path (http.URL getRequest))
  = ("/a", StatusOK, None)
  ∧ fst (handleGetHeadPost (package := pkg) handler getRequest
           (world emptyStore diskA)) = (0, None)
  ∧ trace (snd (handleGetHeadPost (package := pkg) handler getRequest
                  (world emptyStore diskA)))
    = [EvOpenFile "/a" O_RDONLY 0; EvFileStat; EvFindETag "/a";
       EvHeaderSet "ETag" "etag"; EvServeContent "/a" 5; EvFileClose].
Proof.
  assert (Hs : stripPrefix handler (url.Path (http.URL getRequest))
               = ("/a", StatusOK, None)) by (vm_compute; reflexivity).
  split; [exact Hs|].
  rewrite (handleGetHeadPost_success (fileSystem := disk_FileSystem)
             (package := pkg) handler getRequest
             (world emptyStore diskA) "/a" (Some fileA) diskA diskA fileA
             "etag" Hs ltac:(vm_compute; reflexivity)
             ltac:(vm_compute; reflexivity) ltac:(vm_compute; reflexivity)
             ltac:(vm_compute; reflexivity)).
  split; reflexivity.
Defined.

(** A COPY of [/a] to [/b], both free. *)
Lemma handleCopyMove_copy_run_witness :
  copyMoveTarget (package := pkg) handler copyRequest "/a" "/b"
  ∧ handleCopyMove (package := pkg) handler copyRequest
      (world emptyStore diskA)
    = ((StatusCreated, None),
       {| locks := {| gen := 1; byToken := []; down := false |};
          files := diskA; ticks := 1;
          trace := [EvCreate 1000 (temporaryLock (package := pkg) "/b");
                    EvCopyFiles "/a" "/b" true infiniteDepth 0;
                    EvUnlock 1000 "urn:lock"] |}).
Proof.
  assert (Hpre : copyMoveTarget (package := pkg) handler copyRequest
                   "/a" "/b").
  { split; [vm_compute; discriminate|].
    exists {| url.Host := "dav.example"; url.Path := "/dav/b" |}.
    repeat split; try (vm_compute; reflexivity); discriminate. }
  split; [exact Hpre|].
  destruct (handleCopyMove_copy_run (package := pkg) handler copyRequest
              "/a" "/b" (world emptyStore diskA) Hpre eq_refl
              ltac:(vm_compute; reflexivity)
              ltac:(left; vm_compute; reflexivity)) as [_ H].
  rewrite (H "urn:lock"
             {| gen := 1;
                byToken := [("urn:lock", temporaryLock (package := pkg) "/b")];
                down := false |}
             ltac:(vm_compute; reflexivity) ltac:(discriminate)).
  vm_compute. reflexivity.
Defined.

(** A MOVE of [/a] to [/b], both free. *)
Lemma handleCopyMove_move_run_witness :
  copyMoveTarget (package := pkg) handler moveRequest "/a" "/b"
  ∧ handleCopyMove (package := pkg) handler moveRequest
      (world emptyStore diskA)
    = ((StatusCreated, None),
       {| locks := {| gen := 2; byToken := []; down := false |};
          files := diskA; ticks := 1;
          trace := [EvCreate 1000 (temporaryLock (package := pkg) "/a");
                    EvCreate 1000 (temporaryLock (package := pkg) "/b");
                    EvMoveFiles "/a" "/b" false;
                    EvUnlock 1000 "urn:lock'"; EvUnlock 1000 "urn:lock"] |}).
Proof.
  assert (Hpre : copyMoveTarget (package := pkg) handler moveRequest
                   "/a" "/b").
  { split; [vm_compute; discriminate|].
    exists {| url.Host := "dav.example"; url.Path := "/dav/b" |}.
    repeat split; try (vm_compute; reflexivity); discriminate. }
  split; [exact Hpre|].
  rewrite (handleCopyMove_move_run (package := pkg) handler moveRequest
             "/a" "/b" (world emptyStore diskA) "urn:lock" "urn:lock'"
             {| gen := 1;
                byToken := [("urn:lock", temporaryLock (package := pkg) "/a")];
                down := false |}
             {| gen := 2;
                byToken := [("urn:lock'", temporaryLock (package := pkg) "/b");
                            ("urn:lock", temporaryLock (package := pkg) "/a")];
                down := false |}
             Hpre eq_refl ltac:(vm_compute; reflexivity) ltac:(discriminate)
             ltac:(left; vm_compute; reflexivity)
             ltac:(vm_compute; reflexivity) ltac:(discriminate)
             ltac:(vm_compute; reflexivity) ltac:(discriminate)).
  vm_compute. reflexivity.
Defined.

(** A LOCK of the file [/a]. *)
Lemma handleLock_created_witness :
  lockCreate (package := pkg) handler lockRequest
    {| Root := "/a"; Duration := -1; OwnerXML := "<owner/>";
       ZeroDepth := false |}
  ∧ fst (handleLock (package := pkg) handler lockRequest
           (world emptyStore diskA)) = (0, None)
  ∧ byToken (locks (snd (handleLock (package := pkg) handler lockRequest
                           (world emptyStore diskA))))
    = [("urn:lock",
        {| Root := "/a"; Duration := -1; OwnerXML := "<owner/>";
           ZeroDepth := false |})].
Proof.
  assert (Hreq : lockCreate (package := pkg) handler lockRequest
            {| Root := "/a"; Duration := -1; OwnerXML := "<owner/>";
               ZeroDepth := false |}).
  { exists (-1),
      {| Exclusive := true; Shared := false; Write := true;
         Owner := {| InnerXML := "<owner/>" |} |}, 0, "/a".
    split; [vm_compute; reflexivity|]. split; [vm_compute; reflexivity|].
    split; [discriminate|]. cbv zeta.
    split; [intros [H _]; apply H; vm_compute; reflexivity|].
    split; vm_compute; reflexivity. }
  split; [exact Hreq|].
  destruct (handleLock_created (lockSystem := store_LockSystem)
              (fileSystem := disk_FileSystem) (package := pkg) handler lockRequest
              (world emptyStore diskA) _ "urn:lock"
              {| gen := 1;
                 byToken := [("urn:lock",
                              {| Root := "/a"; Duration := -1;
                                 OwnerXML := "<owner/>";
                                 ZeroDepth := false |})];
                 down := false |}
              Hreq ltac:(vm_compute; reflexivity)) as [H _].
  rewrite (H fileA diskA ltac:(vm_compute; reflexivity)).
  split; reflexivity.
Defined.

(** OPTIONS on the file [/a]. *)
Lemma handleOptions_allow_witness :
  stripPrefix handler (url.Path (http.URL optionsRequest))
  = ("/a", StatusOK, None)
  ∧ fst (handleOptions handler optionsRequest (world emptyStore diskA))
    = (0, None)
  ∧ In (EvHeaderSet "Allow"
          "OPTIONS, LOCK, GET, HEAD, POST, DELETE, PROPPATCH, COPY, MOVE, UNLOCK, PROPFIND, PUT")
       (trace (snd (handleOptions handler optionsRequest
                      (world emptyStore diskA)))).
Proof.
  assert (Hs : stripPrefix handler (url.Path (http.URL optionsRequest))
               = ("/a", StatusOK, None)) by (vm_compute; reflexivity).
  split; [exact Hs|].
  destruct (handleOptions_allow (fileSystem := disk_FileSystem) handler optionsRequest
              (world emptyStore diskA) "/a" (Ok fileA) diskA Hs
              ltac:(vm_compute; reflexivity))
    as (allow & Hrun & _ & _ & Hfile).
  rewrite Hrun, (Hfile fileA eq_refl eq_refl).
  split; [reflexivity|]. cbn. right. left. reflexivity.
Defined.

(** A PUT that cites stale locks. *)
Lemma mutators_need_locks_witness :
  stripPrefix handler (url.Path (http.URL staleRequest))
  = ("/a", StatusOK, None)
  ∧ fst (handlePut (package := pkg) handler staleRequest
           (site heldStore diskA))
    = (StatusPreconditionFailed, Some ErrLocked)
  ∧ journal (snd (handlePut (package := pkg) handler staleRequest
                    (site heldStore diskA))) = [].
Proof.
  assert (Hs : stripPrefix handler (url.Path (http.URL staleRequest))
               = ("/a", StatusOK, None)) by (vm_compute; reflexivity).
  split; [exact Hs|].
  pose (c := confirmLocks (package := pkg) handler staleRequest "/a" ""
               (base (site heldStore diskA))).
  assert (HL : confirmLocks (package := pkg) handler staleRequest "/a" ""
                 (base (site heldStore diskA))
               = ((fst (fst (fst c)), StatusPreconditionFailed,
                   Some ErrLocked), snd c))
    by (vm_compute; reflexivity).
  destruct (mutators_need_locks (lockSystem := store_LockSystem)
              (fileSystem := disk_FileSystem) (package := pkg) handler staleRequest
              (site heldStore diskA) "/a" _ _ _ _ Hs HL) as (_ & H & _).
  rewrite H. split; reflexivity.
Defined.

(** A DELETE of the file [/a]. *)
Lemma handleDelete_outcome_witness :
  stripPrefix handler (url.Path (http.URL deleteRequest))
  = ("/a", StatusOK, None)
  ∧ fst (handleDelete (package := pkg) handler deleteRequest
           (site emptyStore diskA)) = (StatusNoContent, None)
  ∧ journal (snd (handleDelete (package := pkg) handler deleteRequest
                    (site emptyStore diskA)))
    = [(2%nat, CallRemoveAll "/a")].
Proof.
  assert (Hs : stripPrefix handler (url.Path (http.URL deleteRequest))
               = ("/a", StatusOK, None)) by (vm_compute; reflexivity).
  split; [exact Hs|].
  pose (c := confirmLocks (package := pkg) handler deleteRequest "/a" ""
               (base (site emptyStore diskA))).
  assert (HL : confirmLocks (package := pkg) handler deleteRequest "/a" ""
                 (base (site emptyStore diskA))
               = ((fst (fst (fst c)), snd (fst (fst c)), None), snd c))
    by (vm_compute; reflexivity).
  destruct (handleDelete_outcome (lockSystem := store_LockSystem)
              (fileSystem := disk_FileSystem) (package := pkg) handler deleteRequest
              (site emptyStore diskA) "/a" _ _ _ Hs HL) as [_ H].
  rewrite (H fileA diskA None emptyDisk ltac:(vm_compute; reflexivity)
             ltac:(vm_compute; reflexivity)).
  split; vm_compute; reflexivity.
Defined.

(** A PUT of the new file [/n]. *)
Lemma handlePut_outcome_witness :
  stripPrefix handler (url.Path (http.URL putRequest))
  = ("/n", StatusOK, None)
  ∧ fst (handlePut (package := pkg) handler putRequest
           (site emptyStore diskA)) = (StatusCreated, None)
  ∧ snd <$> journal (snd (handlePut (package := pkg) handler putRequest
                            (site emptyStore diskA)))
    = [CallCopy "hello"].
Proof.
  assert (Hs : stripPrefix handler (url.Path (http.URL putRequest))
               = ("/n", StatusOK, None)) by (vm_compute; reflexivity).
  split; [exact Hs|].
  pose (c := confirmLocks (package := pkg) handler putRequest "/n" ""
               (base (site emptyStore diskA))).
  assert (HL : confirmLocks (package := pkg) handler putRequest "/n" ""
                 (base (site emptyStore diskA))
               = ((fst (fst (fst c)), snd (fst (fst c)), None), snd c))
    by (vm_compute; reflexivity).
  destruct (handlePut_outcome (lockSystem := store_LockSystem)
              (fileSystem := disk_FileSystem) (package := pkg) handler putRequest
              (site emptyStore diskA) "/n" _ _ _ Hs HL) as [_ H].
  pose (fn := {| Name := "/n"; Size := 0; ModTime := 0; IsDir := false |}).
  pose (dn := {| entries := [("/n", fn); ("/a", fileA)];
                 readOnly := false |}).
  destruct (H (Some fn) dn None dn (Ok fn) dn None dn
              ltac:(vm_compute; reflexivity) ltac:(vm_compute; reflexivity)
              ltac:(vm_compute; reflexivity) ltac:(vm_compute; reflexivity))
    as (_ & _ & _ & _ & Hok).
  rewrite (Hok "etag" fn eq_refl eq_refl eq_refl
             ltac:(vm_compute; reflexivity)).
  split; vm_compute; reflexivity.
Defined.

(** A PROPPATCH of the file [/a]. *)
Lemma handleProppatch_outcome_witness :
  stripPrefix handler (url.Path (http.URL proppatchRequest))
  = ("/a", StatusOK, None)
  ∧ fst (handleProppatch (package := pkg) handler proppatchRequest
           (site emptyStore diskA)) = (0, None)
  ∧ writer (snd (handleProppatch (package := pkg) handler proppatchRequest
                   (site emptyStore diskA))) = 1%nat.
Proof.
  assert (Hs : stripPrefix handler (url.Path (http.URL proppatchRequest))
               = ("/a", StatusOK, None)) by (vm_compute; reflexivity).
  split; [exact Hs|].
  pose (c := confirmLocks (package := pkg) handler proppatchRequest "/a" ""
               (base (site emptyStore diskA))).
  assert (HL : confirmLocks (package := pkg) handler proppatchRequest "/a"
                 "" (base (site emptyStore diskA))
               = ((fst (fst (fst c)), snd (fst (fst c)), None), snd c))
    by (vm_compute; reflexivity).
  destruct (handleProppatch_outcome (lockSystem := store_LockSystem)
              (fileSystem := disk_FileSystem) (package := pkg) handler
              proppatchRequest (site emptyStore diskA) "/a" _ _ _ fileA
              diskA Hs HL ltac:(vm_compute; reflexivity)) as (_ & _ & H).
  rewrite (H [(displayname, "<set/>")] 0 _ diskA None 1%nat None 1%nat
             ltac:(vm_compute; reflexivity) ltac:(vm_compute; reflexivity)
             eq_refl eq_refl).
  split; reflexivity.
Defined.

(** A PROPFIND with the Depth header 2. *)
Lemma handlePropfind_preamble_witness :
  stripPrefix handler (url.Path (http.URL propfindBadDepth))
  = ("/a", StatusOK, None)
  ∧ handlePropfind handler propfindBadDepth
      (site emptyStore diskA)
    = ((StatusBadRequest, Some errInvalidDepth),
       {| base := {| locks := emptyStore; files := diskA; ticks := 0;
                     trace := [EvStat "/a"] |};
          writer := 0%nat; journal := [] |}).
Proof.
  assert (Hs : stripPrefix handler (url.Path (http.URL propfindBadDepth))
               = ("/a", StatusOK, None)) by (vm_compute; reflexivity).
  split; [exact Hs|].
  destruct (handlePropfind_preamble (fileSystem := disk_FileSystem) handler
              propfindBadDepth (site emptyStore diskA) "/a" Hs)
    as (_ & H & _).
  rewrite (H fileA diskA ltac:(vm_compute; reflexivity));
    try (vm_compute; discriminate).
  reflexivity.
Defined.

(** A PROPFIND of the names of the properties of [/a], to depth 1. *)
Lemma handlePropfind_walk_witness :
  stripPrefix handler (url.Path (http.URL propfindRequest))
  = ("/a", StatusOK, None)
  ∧ fst (handlePropfind handler propfindRequest
           (site emptyStore diskA)) = (0, None)
  ∧ snd <$> journal (snd (handlePropfind handler
                            propfindRequest (site emptyStore diskA)))
    = [CallWalkFS 1 "/a" fileA; CallPrintf "/a" fileA; CallPropnames "/a";
       CallMultiStatusWrite
         (makePropstatResponse "/dav/a"
            [ {| Propstat.Status := StatusOK;
                 Propstat.Props := [(displayname, "")];
                 Propstat.XMLError := "";
                 Propstat.ResponseDescription := "" |} ]);
       CallMultiStatusClose].
Proof.
  assert (Hs : stripPrefix handler (url.Path (http.URL propfindRequest))
               = ("/a", StatusOK, None)) by (vm_compute; reflexivity).
  split; [exact Hs|].
  pose (s1 := {| base := {| locks := emptyStore; files := diskA;
                            ticks := 0; trace := [EvStat "/a"] |};
                 writer := 0%nat;
                 journal := [(1%nat, CallWalkFS 1 "/a" fileA)] |}
        : @Site Store Disk (xml.Name * string) (xml.Name * string) nat).
  pose (run := walkFS 1 "/a" fileA
                 (handlePropfind_walkFn handler
                    {| pf_Allprop := false; pf_Propname := true;
                       pf_Prop := [] |}) s1).
  rewrite (handlePropfind_walk (fileSystem := disk_FileSystem) handler propfindRequest
             (site emptyStore diskA) "/a" fileA diskA
             {| pf_Allprop := false; pf_Propname := true; pf_Prop := [] |}
             0 Hs ltac:(vm_compute; reflexivity)
             ltac:(vm_compute; reflexivity)
             ltac:(right; right; left; vm_compute; reflexivity)
             None (snd run) None 1%nat
             ltac:(vm_compute; reflexivity) ltac:(vm_compute; reflexivity)).
  split; vm_compute; reflexivity.
Defined.

(** A handler without a file system, asked for an unknown method. *)
Lemma ServeHTTP_unconfigured_witness :
  ServeHTTP (package := pkg) handler noFileSystem patchRequest
    (site emptyStore diskA)
  = (tt,
     {| base := {| locks := emptyStore; files := diskA; ticks := 0;
                   trace := [EvWriteHeader StatusInternalServerError] |};
        writer := 0%nat;
        journal := [(1%nat, CallWrite "Internal Server Error");
                    (1%nat, CallLogger (Some errNoFileSystem))] |}).
Proof.
  rewrite (ServeHTTP_unconfigured (package := pkg) handler noFileSystem
             patchRequest (site emptyStore diskA) (or_introl eq_refl)).
  reflexivity.
Defined.

(** A DELETE of the file [/a], from the request to the log. *)
Lemma ServeHTTP_routes_witness :
  route (package := pkg) handler deleteRequest (http.Method deleteRequest)
    (handleDelete (package := pkg) handler deleteRequest)
  ∧ ServeHTTP (package := pkg) handler allSet deleteRequest
      (site emptyStore diskA)
    = (tt,
       {| base := {| locks := {| gen := 1; byToken := []; down := false |};
                     files := emptyDisk; ticks := 1;
                     trace := [EvCreate 1000
                                 (temporaryLock (package := pkg) "/a");
                               EvStat "/a"; EvUnlock 1000 "urn:lock";
                               EvWriteHeader StatusNoContent] |};
          writer := 0%nat;
          journal := [(2%nat, CallRemoveAll "/a");
                      (4%nat, CallLogger None)] |}).
Proof.
  assert (Hr : route (package := pkg) handler deleteRequest
                 (http.Method deleteRequest)
                 (handleDelete (package := pkg) handler deleteRequest))
    by apply route_delete.
  split; [exact Hr|].
  pose (run := handleDelete (package := pkg) handler deleteRequest
                 (site emptyStore diskA)).
  rewrite (ServeHTTP_routes (lockSystem := store_LockSystem)
              (fileSystem := disk_FileSystem) (package := pkg) handler allSet deleteRequest
             (site emptyStore diskA) (snd run) _ StatusNoContent None
             eq_refl eq_refl Hr ltac:(vm_compute; reflexivity)).
  vm_compute. reflexivity.
Defined.

(** A MKCOL on a lock system that hands out the empty token: the lock on
    [/c] is made and the release closure leaves it there. *)
Lemma confirmLocks_empty_token_witness :
  ∃ release,
    confirmLocks (package := pkgLedger) handler mkcolRequest "/c" ""
      ledgerWorld
    = ((Some release, 0, None),
       {| locks := {| roots := ["/c"] |}; files := emptyDisk; ticks := 1;
          trace := [EvCreate 1000 (temporaryLock (package := pkgLedger)
                                     "/c")] |})
    ∧ ∀ w', release w' = (tt, w').
Proof.
  destruct (confirmLocks_empty_token (lockSystem := ledger_LockSystem)
              (package := pkgLedger)
              handler mkcolRequest "/c" ledgerWorld {| roots := ["/c"] |}
              ltac:(vm_compute; reflexivity) ltac:(discriminate)
              ltac:(vm_compute; reflexivity)) as (release & Hrun & Hrel).
  exists release. split; [|exact Hrel]. rewrite Hrun. reflexivity.
Defined.

(** An UNLOCK sent to a path outside the prefix releases the lock on
    [/b] as the one sent to [/dav/b] does. *)
Lemma handleUnlock_header_only_witness :
  snd (stripPrefix handler (url.Path (http.URL unlockElsewhere)))
  = Some errPrefixMismatch
  ∧ handleUnlock (package := pkg) handler unlockElsewhere
      (world heldStore diskA)
    = handleUnlock (package := pkg) handler unlockRequest
        (world heldStore diskA)
  ∧ fst (handleUnlock (package := pkg) handler unlockRequest
           (world heldStore diskA)) = (StatusNoContent, None).
Proof.
  split; [vm_compute; reflexivity|].
  split; [|vm_compute; reflexivity].
  apply (handleUnlock_header_only (lockSystem := store_LockSystem)
           (package := pkg) handler handler unlockElsewhere unlockRequest
           (world heldStore diskA)).
  vm_compute. reflexivity.
Defined.
